(** * PCard expenditure pipeline: cleaning, merging, profiling, clustering

    A shallow embedding of the Python scripts [clean_data.py], [profiles.py]
    and [clustering.py], and the properties of the pipeline proved on it.

    Conventions of the embedding.
    - A Python [str] is a [string]; one [ascii] stands for one character,
      the character of that code point: the texts of the model are the
      texts of characters below U+0100. Case and white space follow
      Python on that range, but for the title-case forms of U+00B5 and
      U+00FF, which lie above it.
    - A pandas [DataFrame] is a list of column labels and a list of rows
      (the row index is never used by the scripts: every alignment they
      perform is between a frame and a column of that same frame).
    - Python floats are modelled by exact rationals ([Qc]); a square root
      and the results of [scipy.stats] calls stay symbolic.
    - What the libraries compute and the scripts do not determine is a
      parameter of the model: the category codes of pandas, the labels
      of the clustering algorithm, the text printed for a float, the
      type conversion of [iterrows] on a frame of numbers.
    - A raised exception is a value of type [exn]; the methods of the
      [Dataset] class run in a state-and-exception monad over the object. *)

From Stdlib Require Import ZArith QArith Qcanon String Ascii List Lia.
From stdpp Require Import base list strings gmap numbers pretty.

Open Scope string_scope.
Open Scope list_scope.
Open Scope nat_scope.

(** ** Python strings *)

Module Py.

Definition chars (s : string) : list ascii := String.list_ascii_of_string s.

Definition code (c : ascii) : N := N_of_ascii c.

(** The letters of either case among the characters below U+0100: the
    ASCII letters and the letters U+00C0 to U+00FF, which are upper
    case up to U+00DE and lower case from U+00DF, the multiplication
    sign U+00D7 and the division sign U+00F7 being no letters. *)
Definition is_upper (c : ascii) : bool :=
  ((65 <=? code c)%N && (code c <=? 90)%N)
  || ((192 <=? code c)%N && (code c <=? 222)%N && negb (code c =? 215)%N).
Definition is_lower (c : ascii) : bool :=
  ((97 <=? code c)%N && (code c <=? 122)%N)
  || ((223 <=? code c)%N && (code c <=? 255)%N && negb (code c =? 247)%N).

(** The cased characters: the letters, the two ordinal indicators
    U+00AA and U+00BA, and the micro sign U+00B5. *)
Definition is_cased (c : ascii) : bool :=
  is_upper c || is_lower c
  || (code c =? 170)%N || (code c =? 181)%N || (code c =? 186)%N.

(** The lower-case form of a character. *)
Definition to_lower (c : ascii) : ascii :=
  if is_upper c then ascii_of_N (code c + 32) else c.

(** The title-case form of a character: the upper-case letter of a
    lower-case one, and the two letters [Ss] for the sharp s U+00DF.
    The title-case forms of the micro sign U+00B5 and of U+00FF are
    U+039C and U+0178, which are no characters of this model: the two
    are left as they are, and what is proved of [title] holds of Python
    for the strings that [in_range] accepts. *)
Definition to_title (c : ascii) : string :=
  if (code c =? 223)%N then "Ss"
  else if is_lower c && negb (code c =? 255)%N
       then String (ascii_of_N (code c - 32)) EmptyString
       else String c EmptyString.

Definition has_title (c : ascii) : bool :=
  negb ((code c =? 181)%N || (code c =? 255)%N).
Definition in_range (s : string) : Prop :=
  Forall (λ c, has_title c = true) (chars s).

(** [str.isspace] on one character: tab, line feed, vertical tab, form
    feed, carriage return, the four separators 28..31, the space, the
    next-line control U+0085 and the no-break space U+00A0. *)
Definition is_space (c : ascii) : bool :=
  ((9 <=? code c)%N && (code c <=? 13)%N)
  || ((28 <=? code c)%N && (code c <=? 32)%N)
  || (code c =? 133)%N || (code c =? 160)%N.

(** [s.lower()] *)
Fixpoint lower (s : string) : string :=
  match s with
  | EmptyString => EmptyString
  | String c s' => String (to_lower c) (lower s')
  end.

(** [s.title()]: a character is replaced by its title-case form when
    the character before it is not cased (or there is none), by its
    lower-case form otherwise. *)
Fixpoint title_from (previous_is_cased : bool) (s : string) : string :=
  match s with
  | EmptyString => EmptyString
  | String c s' =>
      (if previous_is_cased then String (to_lower c) EmptyString else to_title c)
      +:+ title_from (is_cased c) s'
  end.
Definition title (s : string) : string := title_from false s.

Fixpoint lstrip (s : string) : string :=
  match s with
  | EmptyString => EmptyString
  | String c s' => if is_space c then lstrip s' else s
  end.

(** [rstrip] drops the longest all-white-space suffix. *)
Fixpoint rstrip (s : string) : string :=
  match s with
  | EmptyString => EmptyString
  | String c s' =>
      match rstrip s' with
      | EmptyString => if is_space c then EmptyString else String c EmptyString
      | t => String c t
      end
  end.

(** [s.strip()] *)
Definition strip (s : string) : string := rstrip (lstrip s).

(** [sub in s], on strings: [sub] occurs in [s] as a substring. *)
Fixpoint contains (sub s : string) : bool :=
  String.prefix sub s
  || match s with
     | EmptyString => false
     | String _ s' => contains sub s'
     end.

(** [set(s)]: the set of the characters of [s]. *)
Definition set (s : string) : gset ascii := list_to_set (chars s).

(** [str(n)] for a natural number, zero-padded to [width] digits as
    [strftime] pads the fields of a date. *)
Definition digit (n : nat) : ascii := ascii_of_nat (48 + n mod 10).
Fixpoint digits (width n : nat) : string :=
  match width with
  | O => EmptyString
  | S w => digits w (n / 10) +:+ String (digit n) EmptyString
  end.

End Py.

(** ** Exceptions and results *)

(** The message carried by a failed [assert] of [validate_data]. *)
Inductive assertion :=
  | NaN_exist (file_name : string) (nan_summary : list (string * nat))
  | Missing_columns (file_name : string).

Inductive exn :=
  | KeyError (label : string)
  | IndexError
  | AttributeError
  | TypeError
  | AssertionError (msg : assertion)
  | Exception (msg : string)
  | NotModelled.

Inductive result (A : Type) :=
  | Ok (a : A)
  | Raise (e : exn).
Arguments Ok {A} a.
Arguments Raise {A} e.

Global Instance result_ret : MRet result := λ A a, Ok a.
Global Instance result_bind : MBind result := λ A B k r,
  match r with
  | Ok a => k a
  | Raise e => Raise e
  end.

(** [[f(a) for a in l]], stopping at the first exception. *)
Fixpoint rmap {A B} (f : A → result B) (l : list A) : result (list B) :=
  match l with
  | [] => Ok []
  | a :: l' => b ← f a; bs ← rmap f l'; Ok (b :: bs)
  end.

(** ** The column matcher *)

Module Matcher.

(** [len(set(name) & set(search_value))] *)
Definition num_letters_matched (name search_value : string) : nat :=
  size (Py.set name ∩ Py.set search_value).

(** One turn of the [for name in names] loop of [__closest_match], on
    the pair [(match_count, best_match)]. *)
Definition step (search_value : string) (st : nat * string) (name : string)
  : nat * string :=
  if (fst st <? num_letters_matched name search_value)%nat
  then (num_letters_matched name search_value, name)
  else st.

(** [Dataset.__closest_match]; [names[0]] raises on an empty list. *)
Definition closest_match (search_value : string) (names : list string)
  : result string :=
  match names with
  | [] => Raise IndexError
  | first :: _ => Ok (snd (foldl (step search_value) (0, first) names))
  end.

End Matcher.


(** ** Data frames *)

Module Frame.

(** A [pandas.Timestamp]; the scripts read its year and month only. *)
Record date := Date { year : Z; month : Z; day : Z }.

(** The statistics of [scipy.stats] that the profiles call. *)
Inductive statistic := variation | skew | kurtosis.

(** The value of one cell. [NaN] stands for every missing value
    ([nan], [None], [NaT]): [isna] is true of it and of nothing else.
    A float is an exact rational, the square root of one ([Sqrt], as
    [np.std] returns), or the result of a [scipy.stats] call on a
    sample, which stays symbolic ([Stat]). *)
Inductive cell :=
  | NaN
  | Str (s : string)
  | Int (z : Z)
  | Float (q : Qc)
  | Sqrt (q : Qc)
  | Stat (f : statistic) (sample : list Qc)
  | Timestamp (d : date)
  | Period (y : Z) (quarter : Z).

Global Instance date_eq_dec : EqDecision date.
Proof. solve_decision. Defined.
Global Instance statistic_eq_dec : EqDecision statistic.
Proof. solve_decision. Defined.
Global Instance cell_eq_dec : EqDecision cell.
Proof. solve_decision. Defined.

Global Instance cell_inhabited : Inhabited cell := populate NaN.

Definition isna (c : cell) : bool :=
  match c with NaN => true | _ => false end.

(** A row: the cells of one record, in the order of the columns. *)
Abbreviation row := (list cell).

Record DataFrame := Build { columns : list string; rows : list row }.

(** [pd.DataFrame()] *)
Definition empty : DataFrame := Build [] [].

(** The cell of a row at a position. *)
Definition at_ (j : nat) (r : row) : cell := r !!! j.

(** All positions of a label in the column index, in order. *)
Definition positions (label : string) (cols : list string) : list nat :=
  omap (λ p, if bool_decide (p.2 = label) then Some p.1 else None)
       (imap pair cols).

(** The position of the column that [df[label]] denotes. A label that
    is missing raises [KeyError]; what pandas does when the label is
    carried by several columns is outside this model. *)
Definition loc (label : string) (d : DataFrame) : result nat :=
  match positions label (columns d) with
  | [] => Raise (KeyError label)
  | [j] => Ok j
  | _ => Raise NotModelled
  end.

(** The sub-frame of the columns at the given positions. *)
Definition take (ps : list nat) (d : DataFrame) : DataFrame :=
  Build (omap (λ j, columns d !! j) ps) (map (λ r, map (λ j, at_ j r) ps) (rows d)).

(** [df.drop(labels=labels, axis=1)] for labels that are all present. *)
Definition drop (labels : list string) (d : DataFrame) : DataFrame :=
  take (omap (λ p, if bool_decide (p.2 ∈ labels) then None else Some p.1)
             (imap pair (columns d))) d.

(** [df.rename(columns=mapper, errors='ignore')] *)
Definition rename (mapper : gmap string string) (d : DataFrame) : DataFrame :=
  Build (map (λ c, default c (mapper !! c)) (columns d)) (rows d).

(** [df.columns.values[j] = label] *)
Definition set_label (j : nat) (label : string) (d : DataFrame)
  : result DataFrame :=
  if bool_decide (j < length (columns d))
  then Ok (Build (<[j := label]> (columns d)) (rows d))
  else Raise IndexError.

(** [df[labels]] with a list of labels: for each label in turn, every
    column that carries it; [KeyError] on a label no column carries. *)
Definition select (labels : list string) (d : DataFrame) : result DataFrame :=
  ps ← rmap (λ l, match positions l (columns d) with
                  | [] => Raise (KeyError l)
                  | js => Ok js
                  end) labels;
  Ok (take (concat ps) d).

(** [df[mask]] with a Boolean mask computed row by row. *)
Definition where_ (mask : row → bool) (d : DataFrame) : DataFrame :=
  Build (columns d) (List.filter mask (rows d)).

(** [df.loc[mask, label] = value] for the column at position [j]. *)
Definition set_where (mask : row → bool) (j : nat) (value : cell)
  (d : DataFrame) : DataFrame :=
  Build (columns d) (map (λ r, if mask r then <[j := value]> r else r) (rows d)).

(** [df[a].fillna(df[b], inplace=True)] for the columns at [j] and [k]. *)
Definition fillna (j k : nat) (d : DataFrame) : DataFrame :=
  Build (columns d)
        (map (λ r, if isna (at_ j r) then <[j := at_ k r]> r else r) (rows d)).

(** [df[label] = df[label].apply(f)] for the column at position [j]. *)
Definition apply (j : nat) (f : cell → result cell) (d : DataFrame)
  : result DataFrame :=
  rs ← rmap (λ r, v ← f (at_ j r); Ok (<[j := v]> r)) (rows d);
  Ok (Build (columns d) rs).

(** [df[label] = f(row)] for a label no column carries yet: a new last
    column. *)
Definition append_column (label : string) (f : row → result cell)
  (d : DataFrame) : result DataFrame :=
  rs ← rmap (λ r, v ← f r; Ok (r ++ [v])) (rows d);
  Ok (Build (columns d ++ [label]) rs).

(** [df[label] = values] for a label no column carries yet, the
    values listed row by row. *)
Definition append_values (label : string) (values : list cell)
  (d : DataFrame) : DataFrame :=
  Build (columns d ++ [label]) (imap (λ i r, r ++ [values !!! i]) (rows d)).

(** [df[label]] as the list of the cells of that column. *)
Definition column (label : string) (d : DataFrame) : result (list cell) :=
  j ← loc label d;
  Ok (map (at_ j) (rows d)).

(** [pd.concat([a, b])]: the rows of both, over the labels of [a]
    followed by the labels only [b] has; a cell a frame has no column
    for is missing. *)
Definition reindex (labels : list string) (d : DataFrame) : list row :=
  map (λ r, map (λ l, match positions l (columns d) with
                      | j :: _ => at_ j r
                      | [] => NaN
                      end) labels) (rows d).
Definition concat_frames (a b : DataFrame) : DataFrame :=
  let labels :=
    columns a ++ List.filter (λ l, bool_decide (l ∉ columns a)) (columns b) in
  Build labels (reindex labels a ++ reindex labels b).

(** [df.isna().sum()]: the number of missing cells of each column. *)
Definition isna_sum (d : DataFrame) : list (string * nat) :=
  imap (λ j label, (label, length (List.filter (λ r, isna (at_ j r)) (rows d))))
       (columns d).

End Frame.

(** ** The [Dataset] class of [clean_data.py] *)

Module Dataset.
Import Frame.

(** The attributes of a [Dataset] object. [column_names] is bound by
    [clean_data] only: before that call the attribute does not exist. *)
Record t := Object {
  file_name : string;
  df : DataFrame;
  column_names : option (list string)
}.

(** What a method does besides changing the object: text written to
    the standard output, and a stop in the interactive debugger. *)
Inductive event :=
  | Printed (text : string)
  | Breakpoint.

Record state := State { self : t; trace : list event }.

(** A method body: it runs on the object, may raise, and leaves the
    object as it was at that moment. *)
Definition M (A : Type) : Type := state → state * result A.

Global Instance M_ret : MRet M := λ A a st, (st, Ok a).
Global Instance M_bind : MBind M := λ A B k m st,
  match m st with
  | (st', Ok a) => k a st'
  | (st', Raise e) => (st', Raise e)
  end.

Definition lift {A} (r : result A) : M A := λ st, (st, r).
Definition get_df : M DataFrame := λ st, (st, Ok (df (self st))).
Definition set_df (d : DataFrame) : M unit := λ st,
  (State (Object (file_name (self st)) d (column_names (self st))) (trace st), Ok tt).
Definition get_file_name : M string := λ st, (st, Ok (file_name (self st))).
Definition get_column_names : M (list string) := λ st,
  (st, match column_names (self st) with
       | Some names => Ok names
       | None => Raise AttributeError
       end).
Definition set_column_names (names : list string) : M unit := λ st,
  (State (Object (file_name (self st)) (df (self st)) (Some names)) (trace st), Ok tt).
Definition emit (e : event) : M unit := λ st,
  (State (self st) (trace st ++ [e]), Ok tt).

(** [for x in l: body(x)] *)
Fixpoint for_ {A} (l : list A) (body : A → M unit) : M unit :=
  match l with
  | [] => mret tt
  | x :: l' => body x;; for_ l' body
  end.

(** [s[-4:]] *)
Definition last4 (s : string) : string :=
  String.substring (String.length s - 4) 4 s.

(** [Dataset.__init__], with the frame that [__load_data] reads from
    the file given as [loaded]. *)
Definition init (file_name : string) (loaded : DataFrame) : result t :=
  if negb (Py.contains "xls" (Py.lower (last4 file_name)))
  then Raise (Exception
    "Error: Dataset loaded must be of extension type 'xls' or 'xlsx'.")
  else Ok (Object file_name loaded None).

(** The standardized column names, as [clean_data] binds them. *)
Definition canonical : list string :=
  [ "Division"; "Batch-Transaction ID"; "Transaction Date"; "Card Posting Dt";
    "Merchant Name"; "Transaction Amt."; "Transaction Currency";
    "Original Amount"; "Original Currency"; "G/L Account";
    "G/L Account Description"; "Cost Centre / WBS Element";
    "Cost Centre / WBS Element Description"; "Merchant Type";
    "Merchant Type Description"; "Purpose" ].

(** The first part of [clean_data]: the column labels. *)

Definition drop_unnamed : M unit :=
  d ← get_df;
  let unnamed_columns :=
    List.filter (λ col, Py.contains "unnamed" (Py.lower col)) (columns d) in
  set_df (drop unnamed_columns d).

Definition rename_descriptions : M unit :=
  d ← get_df;
  set_df (rename {[ "Long Text" := "G/L Account Description";
                    "Exp Type Desc" := "G/L Account Description" ]} d).

(** The body of [for column in self.df.columns]. *)
Definition match_column (column : string) : M unit :=
  names ← get_column_names;
  if bool_decide (column ∈ names) then mret tt
  else
    matched_column ← lift (Matcher.closest_match column names);
    d ← get_df;
    set_df (rename {[ column := matched_column ]} d).

(** The loop runs over the column index as it is when the loop starts;
    each turn renames in the frame as it is then. *)
Definition match_columns : M unit :=
  d ← get_df;
  for_ (columns d) match_column.

Definition repair_currency : M unit :=
  d ← get_df;
  if bool_decide ("Transaction Currency" ∈ columns d) then mret tt
  else
    old ← lift (match columns d !! 6%nat with
                | Some c => Ok c
                | None => Raise IndexError
                end);
    emit (Printed ("Modified: " +:+ old +:+ " to: Transaction Currency"));;
    d' ← lift (set_label 6 "Transaction Currency" d);
    set_df d'.

Definition subset_columns : M unit :=
  d ← get_df;
  names ← get_column_names;
  d' ← lift (select names d);
  set_df d'.

(** The reconciliation of the column labels: lines 52 to 95. *)
Definition reconcile : M unit :=
  drop_unnamed;;
  rename_descriptions;;
  set_column_names canonical;;
  match_columns;;
  repair_currency;;
  subset_columns.

(** The second part of [clean_data]: rows and values. *)

Definition drop_subtotals : M unit :=
  d ← get_df;
  division ← lift (loc "Division" d);
  batch ← lift (loc "Batch-Transaction ID" d);
  set_df (where_ (λ r, negb (isna (at_ division r) && isna (at_ batch r))) d).

Definition blank_purpose : M unit :=
  d ← get_df;
  purpose ← lift (loc "Purpose" d);
  set_df (set_where (λ r, isna (at_ purpose r)) purpose (Str "") d).

Definition fill_transaction_date : M unit :=
  d ← get_df;
  transaction ← lift (loc "Transaction Date" d);
  posting ← lift (loc "Card Posting Dt" d);
  set_df (fillna transaction posting d).

Definition fill_missing (column_name : string) : M unit :=
  d ← get_df;
  j ← lift (loc column_name d);
  set_df (set_where (λ r, isna (at_ j r)) j (Str "MISSING") d).

(** [self.df['Source'] = self.file_name]; the label [Source] is not a
    canonical name, so after the subsetting this is a new column. *)
Definition add_source : M unit :=
  d ← get_df;
  name ← get_file_name;
  if bool_decide ("Source" ∈ columns d) then lift (Raise NotModelled)
  else
    d' ← lift (append_column "Source" (λ _, Ok (Str name)) d);
    set_df d'.

(** [lambda x: x.title().strip()]; only a [str] has the method. *)
Definition title_strip (x : cell) : result cell :=
  match x with
  | Str s => Ok (Str (Py.strip (Py.title s)))
  | _ => Raise AttributeError
  end.

Definition normalize_division : M unit :=
  d ← get_df;
  division ← lift (loc "Division" d);
  d' ← lift (apply division title_strip d);
  set_df d'.

(** The imputation of rows and values: lines 97 to 115. *)
Definition impute : M unit :=
  drop_subtotals;;
  blank_purpose;;
  fill_transaction_date;;
  for_ [ "Division"; "Cost Centre / WBS Element";
         "Cost Centre / WBS Element Description"; "Merchant Type" ]
       fill_missing;;
  add_source;;
  normalize_division.

(** [Dataset.clean_data] *)
Definition clean_data : M unit :=
  reconcile;;
  impute.

(** [assert cond, msg] *)
Definition assert (cond : bool) (msg : assertion) : M unit :=
  if cond then mret tt else lift (Raise (AssertionError msg)).

(** [sum(nan_counts)] *)
Definition total (counts : list (string * nat)) : nat :=
  foldr (λ p acc, p.2 + acc) 0 counts.

(** [Dataset.validate_data] *)
Definition validate_data : M unit :=
  d ← get_df;
  let nan_counts := isna_sum d in
  let total_nans := total nan_counts in
  let nan_summary := List.filter (λ p, 0 <? p.2) nan_counts in
  (if 0 <? total_nans then emit Breakpoint else mret tt);;
  name ← get_file_name;
  assert (total_nans =? 0) (NaN_exist name nan_summary);;
  names ← get_column_names;
  assert (length (columns d) =? length names + 1) (Missing_columns name).

(** Running a method on an object, from an empty trace. *)
Definition run {A} (m : M A) (o : t) : state * result A := m (State o []).

End Dataset.

(** ** The script of [clean_data.py]: merging the reports *)

Module Merger.
Import Frame.

(** [name for name in os.listdir(raw_data_path) if 'xls' in
    name[-4:].lower()], each file given with the frame read from it. *)
Definition expense_reports (listing : list (string * DataFrame))
  : list (string * DataFrame) :=
  List.filter (λ f, Py.contains "xls" (Py.lower (Dataset.last4 f.1))) listing.

(** The loop over the reports. An exception of [Dataset], [clean_data]
    or [validate_data] ends the script. *)
Fixpoint process (reports : list (string * DataFrame)) (output_df : DataFrame)
  (trace : list Dataset.event) : list Dataset.event * result DataFrame :=
  match reports with
  | [] => (trace, Ok output_df)
  | (report_name, loaded) :: rest =>
      let trace :=
        trace ++ [Dataset.Printed ("Processing Dataset: " +:+ report_name)] in
      match Dataset.init report_name loaded with
      | Raise e => (trace, Raise e)
      | Ok dataset =>
          match (Dataset.clean_data;; Dataset.validate_data)
                  (Dataset.State dataset trace) with
          | (st, Raise e) => (Dataset.trace st, Raise e)
          | (st, Ok _) =>
              process rest
                (concat_frames output_df (Dataset.df (Dataset.self st)))
                (Dataset.trace st)
          end
      end
  end.

(** The dictionary built from the rows of [divisions_map.csv]. *)
Definition divisions_map_dict (divisions_map : list (string * string))
  : gmap string string :=
  foldl (λ dict row,
           if bool_decide (row.1 ≠ row.2) then <[row.1 := row.2]> dict else dict)
        ∅ divisions_map.

(** [output_df['Division'].replace(divisions_map_dict, inplace=True)] *)
Definition replace_divisions (dict : gmap string string) (d : DataFrame)
  : result DataFrame :=
  j ← loc "Division" d;
  apply j (λ x, Ok match x with
                   | Str s => Str (default s (dict !! s))
                   | _ => x
                   end) d.

(** [df[target] = df[source].apply(f)] for a new label [target]. *)
Definition derive (target source : string) (f : cell → result cell)
  (d : DataFrame) : result DataFrame :=
  j ← loc source d;
  if bool_decide (target ∈ columns d) then Raise NotModelled
  else append_column target (λ r, f (at_ j r)) d.

Definition year_of (x : cell) : result cell :=
  match x with
  | Timestamp t => Ok (Int (year t))
  | _ => Raise AttributeError
  end.

Definition month_of (x : cell) : result cell :=
  match x with
  | Timestamp t => Ok (Int (month t))
  | _ => Raise AttributeError
  end.

(** [x.strftime('%Y-%m')] *)
Definition year_month_of (x : cell) : result cell :=
  match x with
  | Timestamp t =>
      Ok (Str (Py.digits 4 (Z.to_nat (year t)) +:+ "-"
               +:+ Py.digits 2 (Z.to_nat (month t))))
  | _ => Raise AttributeError
  end.

(** One entry of [pd.PeriodIndex(..., freq='Q')]. The entries are time
    stamps when this line is reached: [x.year] was read of each. *)
Definition quarter_of (x : cell) : result cell :=
  match x with
  | Timestamp t => Ok (Period (year t) ((month t - 1) / 3 + 1)%Z)
  | _ => Raise NotModelled
  end.

(** [output_df[output_df['Year'] != 2010]] *)
Definition remove_2010 (d : DataFrame) : result DataFrame :=
  y ← loc "Year" d;
  Ok (where_ (λ r, bool_decide (at_ y r ≠ Int 2010)) d).

Section Main.

(** [Series.astype('category').cat.codes]: the integer code pandas
    gives each value of a column. The encoding is the library's and
    is left open. *)
Variable cat_codes : list cell → list cell.

(** One turn of the loop that converts columns to categories: the
    values stay, the codes become a new column. *)
Definition encode (d : DataFrame) (col_name : string) : result DataFrame :=
  values ← column col_name d;
  if bool_decide (col_name +:+ "_code" ∈ columns d) then Raise NotModelled
  else Ok (append_values (col_name +:+ "_code") (cat_codes values) d).

(** What the script does with the merged frame, up to the frame it
    pickles. *)
Definition finish (divisions_map : list (string * string))
  (output_df : DataFrame) : result DataFrame :=
  d ← replace_divisions (divisions_map_dict divisions_map) output_df;
  d ← derive "Year" "Transaction Date" year_of d;
  d ← derive "Month" "Transaction Date" month_of d;
  d ← derive "Year-Month" "Transaction Date" year_month_of d;
  d ← derive "Quarter" "Transaction Date" quarter_of d;
  d ← remove_2010 d;
  foldl (λ acc col_name, d ← acc; encode d col_name) (Ok d)
        [ "Merchant Type"; "G/L Account"; "Cost Centre / WBS Element";
          "Transaction Currency" ].

(** The script: the files of the raw-data folder and the rows of the
    divisions map in, the printed lines and the pickled frame out. *)
Definition main (listing : list (string * DataFrame))
  (divisions_map : list (string * string))
  : list Dataset.event * result DataFrame :=
  match process (expense_reports listing) empty [] with
  | (trace, Raise e) => (trace, Raise e)
  | (trace, Ok output_df) => (trace, finish divisions_map output_df)
  end.

End Main.

End Merger.

(** ** The division profiles of [profiles.py] *)

Module Profile.
Import Frame.

(** *** Python dictionaries with string keys, in insertion order *)

Definition dict := list (string * cell).

(** [d[k] = v] *)
Fixpoint set_item (k : string) (v : cell) (d : dict) : dict :=
  match d with
  | [] => [(k, v)]
  | (k', v') :: d' =>
      if bool_decide (k' = k) then (k, v) :: d' else (k', v') :: set_item k v d'
  end.

(** [d.get(k)] *)
Fixpoint get_item (k : string) (d : dict) : option cell :=
  match d with
  | [] => None
  | (k', v') :: d' => if bool_decide (k' = k) then Some v' else get_item k d'
  end.

Definition keys (d : dict) : list string := map fst d.

(** [pd.DataFrame(records)] on a list of dictionaries: the labels are
    the keys in the order in which they first occur, a key a record
    lacks gives a missing cell. *)
Definition from_records (records : list dict) : DataFrame :=
  let labels :=
    foldl (λ acc d, acc ++ List.filter (λ k, bool_decide (k ∉ acc)) (keys d))
          [] records in
  Build labels (map (λ d, map (λ k, default NaN (get_item k d)) labels) records).

(** *** Numbers *)

(** The number a cell holds, for the arithmetic of numpy and pandas.
    Missing amounts do not occur in a validated table; what the
    libraries do with them is outside this model. *)
Definition number (c : cell) : result Qc :=
  match c with
  | Int z => Ok (Qc_of_Z z)
  | Float q => Ok q
  | NaN => Raise NotModelled
  | _ => Raise TypeError
  end.

Definition of_nat (n : nat) : Qc := Qc_of_Z (Z.of_nat n).

Definition sum (a : list Qc) : Qc := foldr Qcplus 0%Qc a.

Definition mean (a : list Qc) : Qc := (sum a / of_nat (length a))%Qc.

(** [np.average(a)]: the mean; not a number on an empty array. *)
Definition np_average (a : list Qc) : cell :=
  match a with
  | [] => NaN
  | _ => Float (mean a)
  end.

(** [np.std(a)]: [sqrt(mean(abs(a - a.mean())**2))], with numpy's
    default of zero delta degrees of freedom. *)
Definition np_std (a : list Qc) : cell :=
  match a with
  | [] => NaN
  | _ => Sqrt (mean (map (λ x, ((x - mean a) * (x - mean a))%Qc) a))
  end.

(** *** Grouping *)

(** [groupby(key)]: the values of the rows of each key, missing keys
    left out. The groups are listed in the order in which their keys
    first occur; pandas lists them by sorted key, which no result
    below depends on. For a categorical key pandas also lists the
    categories that no row carries, with a count of zero; every
    caller drops the groups of count zero at once. *)
Definition groupby {A} (key : list cell) (values : list A)
  : list (cell * list A) :=
  map (λ k, (k, map snd (List.filter (λ p, bool_decide (p.1 = k)) (zip key values))))
      (remove_dups (List.filter (λ k, negb (isna k)) key)).

(** One row of a summary frame: the group, [Count] (the number of its
    rows with a [Batch-Transaction ID]), [Total Expenditure] and
    [Average Expenditure]. *)
Record summary := Summary {
  group : cell;
  Count : nat;
  Total_Expenditure : Qc;
  Average_Expenditure : Qc
}.

(** [groupby(key).agg({'Batch-Transaction ID': 'count',
    'Transaction Amt.': ['sum', 'mean']})] *)
Definition agg (key batch : list cell) (amounts : list Qc) : list summary :=
  map (λ g, Summary g.1
              (length (List.filter (λ p, negb (isna p.1)) g.2))
              (sum (map snd g.2))
              (mean (map snd g.2)))
      (groupby key (zip batch amounts)).

(** [sort_values(by='Count', ascending=False)]; rows of equal count
    keep their order. *)
Fixpoint insert_desc (x : summary) (l : list summary) : list summary :=
  match l with
  | [] => [x]
  | y :: l' => if Count y <=? Count x then x :: l else y :: insert_desc x l'
  end.
Definition sort_desc (l : list summary) : list summary := foldr insert_desc [] l.

(** The summary frame of a categorical column as the three
    distribution methods build it: grouped, sorted by descending
    count, restricted to [Count > 0]. *)
Definition summary_df (label : string) (d : DataFrame) : result (list summary) :=
  key ← column label d;
  batch ← column "Batch-Transaction ID" d;
  cells ← column "Transaction Amt." d;
  amounts ← rmap number cells;
  Ok (List.filter (λ s, 0 <? Count s) (sort_desc (agg key batch amounts))).

(** [freq_list]: the rank of each group, repeated by its count. *)
Definition freq_list (counts : list nat) : list Qc :=
  concat (imap (λ idx count, replicate count (of_nat idx)) counts).

(** *** The methods of [Profile] *)

(** [__get_monthly_expenditures] and [__get_quarterly_expenditures] *)
Definition get_expenditures (label key : string) (d : DataFrame) (profile : dict)
  : result dict :=
  k ← column label d;
  cells ← column "Transaction Amt." d;
  amounts ← rmap number cells;
  let averages := map (λ g, mean g.2) (groupby k amounts) in
  Ok (set_item key (Stat variation averages) profile).

(** [__get_cost_centre_dist] and [__get_gl_accounts_dist] *)
Definition get_dist (label total skew_key kurtosis_key : string)
  (d : DataFrame) (profile : dict) : result dict :=
  s ← summary_df label d;
  let profile := set_item total (Int (Z.of_nat (length s))) profile in
  let freq := freq_list (map Count s) in
  let profile := set_item skew_key (Stat skew freq) profile in
  Ok (set_item kurtosis_key (Stat kurtosis freq) profile).

(** [__get_currencies_dist] *)
Definition get_currencies_dist (d : DataFrame) (profile : dict) : result dict :=
  key ← column "Original Currency" d;
  batch ← column "Batch-Transaction ID" d;
  let counts :=
    map (λ g, length (List.filter (λ b, negb (isna b)) g.2)) (groupby key batch) in
  Ok (set_item "Total Currencies"
        (Int (Z.of_nat (length (List.filter (λ c, 0 <? c) counts)))) profile).

(** *** Text *)

Section Library.

(** The text that Python prints for a value that is neither text nor
    an integer. For a float it is the shortest decimal that reads back
    as that float, which the rational that stands for the float here
    does not determine; [NaN] stands for several missing values, which
    are printed differently; of a time stamp the model has the date
    only. These texts are left to the library. *)
Variable repr : cell → string.

(** [str(x)] and [f'{x}']: text is printed as it is, an integer in
    decimal notation with a minus sign when it is negative. *)
Definition str (c : cell) : string :=
  match c with
  | Str s => s
  | Int z => pretty z
  | _ => repr c
  end.

Definition is_number (c : cell) : bool :=
  match c with
  | Int _ | Float _ | Sqrt _ | Stat _ _ => true
  | _ => false
  end.

(** [row['Merchant Type']] for a row of the summary frame that
    [iterrows] hands out. pandas builds such a row from the values of
    all the columns, converted to a type common to them, and the other
    columns of the summary frame hold numbers. When some category of
    the column [Merchant Type] is not a number the common type is
    [object], and the merchant type is handed out as it is. When every
    category is a number, what is handed out depends on the types of
    the columns and on the version of pandas (where the common type is
    a float type, the integer 5943 is handed out as the float 5943.0):
    it is left to the library. *)
Variable numeric_row : DataFrame → cell → cell.

Definition iterrows_value (categories : list cell) (d : DataFrame) (v : cell)
  : cell :=
  if forallb is_number categories then numeric_row d v else v.

Definition merchant_key (merchant : string) : string :=
  "Merchant_" +:+ merchant +:+ "_count".

(** *** The methods of [Profile], continued *)

(** [__get_merchant_dist]. The frame of a division keeps the categories
    of the column [Merchant Type] of the whole table; they are the
    merchant types that the script hands to the constructor, read here
    from [self.merchants]. *)
Definition get_merchant_dist (merchants : list cell) (d : DataFrame)
  (profile : dict) : result dict :=
  profile ← get_dist "Merchant Type" "Total Merchants" "Count by Merchant Skew"
              "Count by Merchant Kurtosis" d profile;
  s ← summary_df "Merchant Type" d;
  let total := foldr (λ r acc, Count r + acc) 0 s in
  Ok (foldl (λ profile r,
               set_item
                 (merchant_key (str (iterrows_value merchants d (group r))))
                 (Float (of_nat (Count r) / of_nat total)%Qc) profile)
            profile s).

(** [Profile.__init__]: the profile of the rows [d] of one division. *)
Definition init (d : DataFrame) (division_name : cell) (merchants : list cell)
  : result dict :=
  let profile := set_item "Division" division_name [] in
  let profile :=
    foldl (λ profile merchant, set_item (merchant_key (str merchant)) (Int 0) profile)
          profile merchants in
  cells ← column "Transaction Amt." d;
  amounts ← rmap number cells;
  let profile := set_item "Average Expenditure" (np_average amounts) profile in
  let profile := set_item "Stdev of Expenditure" (np_std amounts) profile in
  profile ← get_expenditures "Year-Month" "Average Monthly Expenditure CV" d profile;
  profile ← get_expenditures "Quarter" "Average Quarterly Expenditure CV" d profile;
  profile ← get_dist "Cost Centre / WBS Element" "Total Cost Centres"
              "Count by Cost Centre Skew" "Count by Cost Centre Kurtosis" d profile;
  profile ← get_dist "G/L Account" "Total G/L Accounts"
              "Count by G/L Account Skew" "Count by G/L Account Kurtosis" d profile;
  profile ← get_currencies_dist d profile;
  get_merchant_dist merchants d profile.

(** *** The script *)

(** [col.value_counts().index.to_list()]: the values of a column, the
    most frequent first; values of equal frequency in the order in
    which they first occur. *)
Definition value_counts (col : list cell) : list cell :=
  map group
    (sort_desc
       (map (λ k, Summary k (length (List.filter (λ c, bool_decide (c = k)) col)) 0 0)
            (remove_dups (List.filter (λ k, negb (isna k)) col)))).

(** [df[df['Division'] == division]] *)
Definition division_df (division : cell) (d : DataFrame) : result DataFrame :=
  j ← loc "Division" d;
  Ok (where_ (λ r, bool_decide (at_ j r = division)) d).

(** [os.path.join('../output/Division Plots/', division)]: the name of
    the folder of the plots of a division; a division that is not text
    is a [TypeError]. *)
Definition output_folder (division : cell) : result string :=
  match division with
  | Str s =>
      Ok (if String.prefix "/" s then s else "../output/Division Plots/" +:+ s)
  | _ => Raise TypeError
  end.

(** The profile of one division, as the loop of the script builds it.
    The file system is not part of the model: the folder is taken to
    be there or to be created, and the plots to be written. *)
Definition division_profile (d : DataFrame) (merchants : list cell)
  (division : cell) : result dict :=
  _ ← output_folder division;
  rows_of_division ← division_df division d;
  init rows_of_division division merchants.

(** The script, from the unified table to the frame of the profiles. *)
Definition main (d : DataFrame) : result DataFrame :=
  division_col ← column "Division" d;
  merchant_col ← column "Merchant Type" d;
  let divisions := value_counts division_col in
  let merchants := value_counts merchant_col in
  division_profiles ← rmap (division_profile d merchants) divisions;
  Ok (from_records division_profiles).

End Library.

End Profile.

(** ** The script of [clustering.py] *)

Module Clustering.
Import Frame.

(** [test_cols], from the labels of [cluster_data]. *)
Definition test_cols (cluster_columns : list string) : list string :=
  [ "Average Expenditure"; "Stdev of Expenditure";
    "Average Monthly Expenditure CV"; "Average Quarterly Expenditure CV" ]
  ++ List.filter (λ col, Py.contains "Merchant" col) cluster_columns.

(** The frame handed to [clusterer.fit]. *)
Definition cluster_data (profile_df : DataFrame) : result DataFrame :=
  if bool_decide ("Division" ∈ columns profile_df)
  then
    let cluster_data := drop ["Division"] profile_df in
    select (test_cols (columns cluster_data)) cluster_data
  else Raise (KeyError "Division").

Section Main.

(** [hdbscan.HDBSCAN(min_cluster_size=n, gen_min_span_tree=True)
    .fit(data).labels_]: the clustering algorithm is the library's. *)
Variable hdbscan_labels : nat → DataFrame → list cell.

(** The script, up to the frame written to
    [profiles_with_clusters.csv]. *)
Definition main (profile_df : DataFrame) : result DataFrame :=
  data ← cluster_data profile_df;
  let labels := hdbscan_labels 2 data in
  if bool_decide ("Clusters" ∈ columns profile_df) then Raise NotModelled
  else Ok (append_values "Clusters" labels profile_df).

End Main.

End Clustering.

(** * Properties *)

(** ** The column matcher *)

(** The number of characters a raw label shares with a name. *)
Definition shared (L C : string) : nat := Matcher.num_letters_matched C L.

(** What the loop of [__closest_match] maintains, [seen] being the names
    it has gone through: no name seen shares more than [match_count];
    the best match is [first] as long as nothing is shared, and else the
    first of the names seen that shares [match_count] characters. *)
Definition matcher_inv (L first : string) (seen : list string)
  (st : nat * string) : Prop :=
  (∀ C', C' ∈ seen → shared L C' ≤ st.1)
  ∧ ((st.1 = 0 ∧ st.2 = first)
     ∨ (∃ i, seen !! i = Some st.2 ∧ shared L st.2 = st.1 ∧ 0 < st.1
             ∧ ∀ j C', j < i → seen !! j = Some C' → shared L C' < st.1)).

Lemma matcher_inv_loop L first seen :
  matcher_inv L first seen (foldl (Matcher.step L) (0, first) seen).
Proof.
  induction seen as [|name seen IH] using rev_ind.
  - split; [intros C' H; inversion H | left; done].
  - rewrite foldl_app. cbn [foldl].
    destruct (foldl (Matcher.step L) (0, first) seen) as [mc best].
    destruct IH as [Hmax Hbest]. cbn [fst snd] in *.
    unfold Matcher.step. cbn [fst].
    fold (shared L name).
    destruct (Nat.ltb_spec mc (shared L name)) as [Hlt|Hge].
    + split; cbn [fst snd].
      * intros C' [HC'|HC']%elem_of_app.
        -- specialize (Hmax _ HC'). lia.
        -- apply list_elem_of_singleton in HC'. subst. lia.
      * right. exists (length seen). repeat split.
        -- by rewrite lookup_app_r, Nat.sub_diag.
        -- lia.
        -- intros j C' Hj HC'. rewrite lookup_app_l in HC' by done.
           apply list_elem_of_lookup_2 in HC'. specialize (Hmax _ HC'). lia.
    + split; cbn [fst snd].
      * intros C' [HC'|HC']%elem_of_app.
        -- by apply Hmax.
        -- apply list_elem_of_singleton in HC'. by subst.
      * destruct Hbest as [?|(i & Hi & Hs & Hpos & Hfirst)]; [by left|].
        right. exists i. repeat split; try done.
        -- apply lookup_app_l_Some; done.
        -- intros j C' Hj HC'. apply (Hfirst j C' Hj).
           apply lookup_lt_Some in Hi.
           rewrite lookup_app_l in HC' by lia. done.
Qed.

(** [__closest_match] returns the first of the names that share the
    most characters with the searched label. *)
Lemma closest_match_first_argmax L names :
  names ≠ [] →
  ∃ C i, Matcher.closest_match L names = Ok C
       ∧ names !! i = Some C
       ∧ (∀ C', C' ∈ names → shared L C' ≤ shared L C)
       ∧ (∀ j C', j < i → names !! j = Some C' → shared L C' < shared L C).
Proof.
  destruct names as [|first rest]; [done|]. intros _.
  unfold Matcher.closest_match.
  pose proof (matcher_inv_loop L first (first :: rest)) as [Hmax Hbest].
  destruct (foldl (Matcher.step L) (0, first) (first :: rest)) as [mc best].
  cbn [fst snd] in *.
  destruct Hbest as [[-> ->]|(i & Hi & Hs & Hpos & Hfirst)].
  - exists first, 0. repeat split; try done.
    + intros C' HC'. specialize (Hmax _ HC'). lia.
    + intros j C' Hj. lia.
  - exists best, i. repeat split; try done.
    + intros C' HC'. specialize (Hmax _ HC'). lia.
    + intros j C' Hj HC'. specialize (Hfirst j C' Hj HC'). lia.
Qed.

(** The label a column ends with after the matching loop. *)
Definition matched (names : list string) (c : string) : string :=
  if bool_decide (c ∈ names) then c
  else match Matcher.closest_match c names with
       | Ok m => m
       | Raise _ => c
       end.

(** The state of a method with the column labels replaced. *)
Definition with_columns (cols : list string) (st : Dataset.state) : Dataset.state :=
  Dataset.State
    (Dataset.Object (Dataset.file_name (Dataset.self st))
       (Frame.Build cols (Frame.rows (Dataset.df (Dataset.self st))))
       (Dataset.column_names (Dataset.self st)))
    (Dataset.trace st).

Lemma with_columns_id st :
  with_columns (Frame.columns (Dataset.df (Dataset.self st))) st = st.
Proof. by destruct st as [[? [] ?] ?]. Qed.

Lemma matched_canonical names c : c ∈ names → matched names c = c.
Proof. intros H. unfold matched. by rewrite bool_decide_eq_true_2. Qed.

Lemma closest_match_in names c :
  names ≠ [] → ∃ m, Matcher.closest_match c names = Ok m ∧ m ∈ names.
Proof.
  intros H. destruct (closest_match_first_argmax c names H) as (C & i & -> & Hi & _).
  exists C. split; [done|]. by eapply list_elem_of_lookup_2.
Qed.

Lemma match_columns_loop names todo : names ≠ [] → ∀ st,
  Dataset.column_names (Dataset.self st) = Some names →
  Dataset.for_ todo Dataset.match_column st
  = (with_columns
       (map (λ c, if bool_decide (c ∈ todo) then matched names c else c)
            (Frame.columns (Dataset.df (Dataset.self st)))) st, Ok ()).
Proof.
  intros Hne. induction todo as [|x todo IH]; intros st Hnames.
  - cbn [Dataset.for_]. unfold mret, Dataset.M_ret. f_equal.
    rewrite <- (with_columns_id st) at 1. f_equal.
    rewrite <- (map_id (Frame.columns _)) at 1. apply map_ext. intros c.
    rewrite bool_decide_eq_false_2; [done|]. by intros ?%elem_of_nil.
  - cbn [Dataset.for_]. unfold mbind at 1, Dataset.M_bind.
    unfold Dataset.match_column at 1. unfold mbind at 1, Dataset.M_bind.
    unfold Dataset.get_column_names at 1. rewrite Hnames.
    destruct (decide (x ∈ names)) as [Hin|Hnin].
    + rewrite bool_decide_eq_true_2 by done. cbn. rewrite IH by done.
      f_equal. f_equal. apply map_ext. intros c.
      destruct (decide (c = x)) as [->|Hcx].
      * rewrite (bool_decide_eq_true_2 (x ∈ x :: todo)) by apply list_elem_of_here.
        rewrite matched_canonical by done. by destruct (bool_decide _).
      * assert (c ∈ x :: todo ↔ c ∈ todo) as Hiff.
        { rewrite elem_of_cons. split; [intros [?|?]; [congruence|done] | by right]. }
        apply (bool_decide_ext _ _) in Hiff. by rewrite Hiff.
    + rewrite bool_decide_eq_false_2 by done.
      destruct (closest_match_in names x Hne) as (m & Hm & Hmin).
      unfold mbind, Dataset.M_bind, Dataset.lift, Dataset.get_df, Dataset.set_df.
      rewrite Hm. cbn [Dataset.self Dataset.trace Dataset.df Dataset.file_name
                       Dataset.column_names].
      rewrite IH by done. unfold with_columns. cbn. rewrite map_map.
      f_equal. f_equal. f_equal. apply (f_equal (λ cols, Frame.Build cols _)).
      apply map_ext. intros c.
      destruct (decide (c = x)) as [->|Hcx].
      * rewrite lookup_singleton_eq. cbn.
        rewrite (bool_decide_eq_true_2 (x ∈ x :: todo)) by apply list_elem_of_here.
        rewrite matched_canonical by done.
        unfold matched. rewrite (bool_decide_eq_false_2 (x ∈ names)) by done.
        rewrite Hm.
        by destruct (bool_decide _).
      * rewrite lookup_singleton_ne by done. cbn.
        assert (c ∈ x :: todo ↔ c ∈ todo) as Hiff.
        { rewrite elem_of_cons. split; [intros [?|?]; [congruence|done] | by right]. }
        apply (bool_decide_ext _ _) in Hiff. by rewrite Hiff.
Qed.

(** The matching loop of [clean_data] relabels every column at once:
    a canonical label stays, any other becomes its closest match. *)
Lemma match_columns_spec names st :
  names ≠ [] →
  Dataset.column_names (Dataset.self st) = Some names →
  Dataset.match_columns st
  = (with_columns (map (matched names) (Frame.columns (Dataset.df (Dataset.self st)))) st,
     Ok ()).
Proof.
  intros Hne Hnames. unfold Dataset.match_columns.
  unfold mbind, Dataset.M_bind, Dataset.get_df.
  rewrite (match_columns_loop names _ Hne st Hnames). f_equal. f_equal.
  apply map_ext_in. intros c Hc%list_elem_of_In.
  by rewrite bool_decide_eq_true_2.
Qed.

(** C3, as the code has it. For every label [L] that is not a canonical
    name, [__closest_match] returns the canonical name [C] that shares
    the most characters with [L] (sets of characters: case-sensitive,
    repetitions ignored), the first such name in canonical order, which
    is [Division] when no canonical name shares a character with [L];
    and the matching loop of [clean_data] relabels every column labelled
    [L] to [C]. In particular, when [L] shares at least one character
    with a canonical name [C0] and every other canonical name shares
    strictly fewer, [L] is renamed to [C0]. *)
Theorem closest_match_renames (L : string) :
  L ∉ Dataset.canonical →
  ∃ C i,
    Matcher.closest_match L Dataset.canonical = Ok C
    ∧ Dataset.canonical !! i = Some C
    ∧ (∀ C', C' ∈ Dataset.canonical → shared L C' ≤ shared L C)
    ∧ (∀ j C', j < i → Dataset.canonical !! j = Some C' → shared L C' < shared L C)
    ∧ ((∀ C', C' ∈ Dataset.canonical → shared L C' = 0) → C = "Division")
    ∧ (∀ C0, C0 ∈ Dataset.canonical → 1 ≤ shared L C0 →
         (∀ C', C' ∈ Dataset.canonical → C' ≠ C0 → shared L C' < shared L C0) →
         C = C0)
    ∧ (∀ st, Dataset.column_names (Dataset.self st) = Some Dataset.canonical →
         ∃ cols,
           Dataset.match_columns st = (with_columns cols st, Ok ())
           ∧ length cols = length (Frame.columns (Dataset.df (Dataset.self st)))
           ∧ ∀ k, Frame.columns (Dataset.df (Dataset.self st)) !! k = Some L →
                  cols !! k = Some C).
Proof.
  intros HL.
  assert (Dataset.canonical ≠ []) as Hne by done.
  destruct (closest_match_first_argmax L _ Hne) as (C & i & HC & Hi & Hmax & Hfirst).
  exists C, i. repeat split; try done.
  - intros Hzero. destruct i as [|i].
    + cbn in Hi. congruence.
    + specialize (Hfirst 0 "Division" ltac:(lia) eq_refl).
      rewrite (Hzero C) in Hfirst; [lia|]. by eapply list_elem_of_lookup_2.
  - intros C0 HC0 Hpos Hstrict.
    destruct (decide (C = C0)) as [|Hne0]; [done|].
    assert (C ∈ Dataset.canonical) as HCin by (by eapply list_elem_of_lookup_2).
    specialize (Hstrict C HCin Hne0). specialize (Hmax C0 HC0). lia.
  - intros st Hnames. eexists. split; [by apply match_columns_spec|].
    split; [by rewrite length_map|].
    intros k Hk. rewrite list_lookup_fmap, Hk. cbn. f_equal.
    unfold matched. rewrite bool_decide_eq_false_2 by done. by rewrite HC.
Qed.

Lemma closest_match_renames_witness :
  ("Trx Currency" ∉ Dataset.canonical)
  ∧ (∃ C, Matcher.closest_match "Trx Currency" Dataset.canonical = Ok C).
Proof.
  assert ("Trx Currency" ∉ Dataset.canonical) as H.
  { apply (bool_decide_unpack _). vm_compute. exact I. }
  split; [exact H|].
  destruct (closest_match_renames "Trx Currency" H) as (C & _ & HC & _).
  by exists C.
Defined.

(** C3, as the claim words its last sentence: a label that shares a
    character with [C], when no other canonical name shares more, would
    be renamed to [C]. A tie goes to the earlier name instead. *)
Lemma closest_match_tie_counterexample :
  ¬ (∀ L C : string,
       L ∉ Dataset.canonical → C ∈ Dataset.canonical → 1 ≤ shared L C →
       (∀ C', C' ∈ Dataset.canonical → shared L C' ≤ shared L C) →
       Matcher.closest_match L Dataset.canonical = Ok C).
Proof.
  intros H. specialize (H "a" "Transaction Date").
  assert (Matcher.closest_match "a" Dataset.canonical = Ok "Batch-Transaction ID")
    as Hrun by (vm_compute; reflexivity).
  rewrite Hrun in H.
  enough (Ok "Batch-Transaction ID" = Ok "Transaction Date") by discriminate.
  apply H.
  - apply (bool_decide_unpack _). vm_compute. exact I.
  - apply (bool_decide_unpack _). vm_compute. exact I.
  - apply (bool_decide_unpack _). vm_compute. exact I.
  - apply (proj1 (list.Forall_forall
             (λ C', shared "a" C' ≤ shared "a" "Transaction Date") _)).
    apply (bool_decide_unpack _). vm_compute. exact I.
Qed.

(** ** The reconciliation of the column labels *)

(** C9, as the code has it. After the exact and the fuzzy renames,
    [clean_data] looks for the label [Transaction Currency] in the
    column index. When it is there, the index is left as it is: nothing
    is relabelled by position. When it is not, the column at position 6
    of the index as it is then, after the unnamed columns were dropped,
    is relabelled to [Transaction Currency] and the change is printed,
    every other column keeping its label; with fewer than seven columns
    there is no such column and reading position 6 raises
    [IndexError]. *)
Theorem repair_currency_spec (st : Dataset.state) :
  let cols := Frame.columns (Dataset.df (Dataset.self st)) in
  ("Transaction Currency" ∈ cols → Dataset.repair_currency st = (st, Ok ()))
  ∧ ("Transaction Currency" ∉ cols → ∀ old, cols !! 6 = Some old →
       Dataset.repair_currency st
       = (Dataset.State
            (Dataset.self (with_columns (<[6 := "Transaction Currency"]> cols) st))
            (Dataset.trace st
               ++ [Dataset.Printed ("Modified: " +:+ old +:+ " to: Transaction Currency")]),
          Ok ()))
  ∧ ("Transaction Currency" ∉ cols → cols !! 6 = None →
       Dataset.repair_currency st = (st, Raise IndexError)).
Proof.
  intros cols. unfold Dataset.repair_currency.
  unfold mbind, Dataset.M_bind, Dataset.get_df. fold cols.
  split; [|split].
  - intros Hin. by rewrite bool_decide_eq_true_2.
  - intros Hnin old Hold. rewrite bool_decide_eq_false_2 by done.
    unfold Dataset.lift, Dataset.emit, Dataset.set_df, Frame.set_label.
    rewrite Hold. cbn [Dataset.self Dataset.trace].
    fold cols. rewrite bool_decide_eq_true_2; [done|].
    by eapply lookup_lt_Some.
  - intros Hnin Hnone. rewrite bool_decide_eq_false_2 by done.
    unfold Dataset.lift. by rewrite Hnone.
Qed.

(** The rows of a frame laid out over the columns at the positions [ps]. *)
Definition lay_out (ps : list nat) (r : Frame.row) : Frame.row :=
  map (λ j, Frame.at_ j r) ps.

Lemma lay_out_16 (r : Frame.row) : length r = 16 → lay_out (seq 0 16) r = r.
Proof.
  intros H. do 17 (destruct r as [|? r]; [done|]). done.
Qed.

Lemma reconcile_canonical_run name rs names tr :
  Dataset.reconcile
    (Dataset.State (Dataset.Object name (Frame.Build Dataset.canonical rs) names) tr)
  = (Dataset.State
       (Dataset.Object name
          (Frame.Build Dataset.canonical
             (map (lay_out (seq 0 16)) (map (lay_out (seq 0 16)) rs)))
          (Some Dataset.canonical)) tr,
     Ok ()).
Proof. vm_compute. reflexivity. Qed.

(** C8. On a table whose columns are the sixteen canonical names in
    canonical order, the reconciliation (dropping the unnamed columns,
    the exact renames, the fuzzy matching, the repair by position, the
    canonical subset in canonical order) succeeds and leaves the labels
    and their order as they are; the rows of a table that has one cell
    per column are left as they are too, and nothing is printed. *)
Theorem reconcile_canonical_noop (st : Dataset.state) :
  Frame.columns (Dataset.df (Dataset.self st)) = Dataset.canonical →
  ∃ st',
    Dataset.reconcile st = (st', Ok ())
    ∧ Frame.columns (Dataset.df (Dataset.self st')) = Dataset.canonical
    ∧ Dataset.trace st' = Dataset.trace st
    ∧ (Forall (λ r, length r = 16) (Frame.rows (Dataset.df (Dataset.self st))) →
       Dataset.df (Dataset.self st') = Dataset.df (Dataset.self st)).
Proof.
  destruct st as [[name [cols rs] names] tr]. cbn. intros ->.
  eexists. split; [apply reconcile_canonical_run|]. cbn.
  repeat split. intros Hwf. f_equal.
  rewrite map_map. rewrite <- (map_id rs) at 2. apply map_ext_Forall.
  eapply list.Forall_impl; [exact Hwf|]. intros r Hr. cbn beta in *.
  change (lay_out (seq 0 16) (lay_out (seq 0 16) r) = r).
  by rewrite !(lay_out_16 r Hr).
Qed.

Lemma repair_currency_witness :
  let st := Dataset.State
              (Dataset.Object "PCardExpenses_201203_Final.xls"
                 (Frame.Build
                    [ "Division"; "Batch-Transaction ID"; "Transaction Date";
                      "Card Posting Dt"; "Merchant Name"; "Transaction Amt.";
                      "Original Currency"; "Original Amount" ] [])
                 (Some Dataset.canonical)) [] in
  Frame.columns (Dataset.df (Dataset.self (Dataset.repair_currency st).1))
  = [ "Division"; "Batch-Transaction ID"; "Transaction Date";
      "Card Posting Dt"; "Merchant Name"; "Transaction Amt.";
      "Transaction Currency"; "Original Amount" ].
Proof.
  intros st.
  destruct (repair_currency_spec st) as (_ & Habsent & _).
  rewrite (Habsent ltac:(apply (bool_decide_unpack _); vm_compute; exact I)
             "Original Currency" eq_refl).
  reflexivity.
Defined.

(** A table of two columns at the repair, and a report as it is
    loaded: an unnamed column, then the sixteen columns in canonical
    order with the label [Original Currency] in the place of
    [Transaction Currency]; the cells of its one row are numbered by
    their positions in the report. *)
Definition short_state : Dataset.state :=
  Dataset.State
    (Dataset.Object "PCardExpenses_201203_Final.xls"
       (Frame.Build ["Division"; "Purpose"] [[Frame.Str "Parks"; Frame.Str "pens"]])
       (Some Dataset.canonical)) [].

Definition shifted_report : Frame.DataFrame :=
  Frame.Build ("Unnamed: 0" :: <[6 := "Original Currency"]> Dataset.canonical)
    [map (λ j, Frame.Int (Z.of_nat j)) (seq 0 17)].

(** C9, as the claim words it: on every table without the label, the
    column at raw position 6 is relabelled. On the table of two
    columns nothing is relabelled: reading position 6 raises
    [IndexError] and the table is left as it is. In the report with an
    unnamed column in front, the column at position 6 of the report is
    [Transaction Amt.] and keeps its label; the column that ends up
    under [Transaction Currency] is the one at position 7 of the
    report, which is at position 6 once the unnamed column is
    dropped. *)
Lemma repair_currency_counterexample :
  ("Transaction Currency" ∉ Frame.columns (Dataset.df (Dataset.self short_state)))
  ∧ Dataset.repair_currency short_state = (short_state, Raise IndexError)
  ∧ ("Transaction Currency" ∉ Frame.columns shifted_report)
  ∧ Frame.columns shifted_report !! 6 = Some "Transaction Amt."
  ∧ Frame.columns shifted_report !! 7 = Some "Original Currency"
  ∧ Dataset.reconcile
      (Dataset.State
         (Dataset.Object "PCardExpenses_201203_Final.xls" shifted_report None) [])
    = (Dataset.State
         (Dataset.Object "PCardExpenses_201203_Final.xls"
            (Frame.Build Dataset.canonical
               [map (λ j, Frame.Int (Z.of_nat j)) (seq 1 16)])
            (Some Dataset.canonical))
         [Dataset.Printed "Modified: Original Currency to: Transaction Currency"],
       Ok ()).
Proof.
  split; [apply (bool_decide_unpack _); by vm_compute|].
  split; [reflexivity|].
  split; [apply (bool_decide_unpack _); by vm_compute|].
  split; [reflexivity|]. split; [reflexivity|].
  vm_compute. reflexivity.
Qed.

Lemma reconcile_canonical_noop_witness :
  let st := Dataset.State
              (Dataset.Object "PCardExpenses_201101.xls"
                 (Frame.Build Dataset.canonical []) None) [] in
  ∃ st', Dataset.reconcile st = (st', Ok ())
         ∧ Frame.columns (Dataset.df (Dataset.self st')) = Dataset.canonical.
Proof.
  intros st.
  destruct (reconcile_canonical_noop st eq_refl) as (st' & Hrun & Hcols & _).
  exists st'. by split.
Defined.

(** ** The imputation of rows and values *)

(** The positions of the canonical columns that the imputation reads. *)
Definition Division : nat := 0.
Definition Batch_Transaction_ID : nat := 1.

(** A row is kept unless both its division and its transaction
    identifier are missing. *)
Definition survives (r : Frame.row) : bool :=
  negb (Frame.isna (Frame.at_ Division r)
        && Frame.isna (Frame.at_ Batch_Transaction_ID r)).

(** Filling the cell at position [j] when it is missing. *)
Definition fill (j : nat) (v : Frame.cell) (r : Frame.row) : Frame.row :=
  if Frame.isna (Frame.at_ j r) then <[j := v]> r else r.

(** What the imputation makes of a row before the division is put in
    title case. *)
Definition filled (name : string) (r : Frame.row) : Frame.row :=
  let r := fill 15 (Frame.Str "") r in
  let r := if Frame.isna (Frame.at_ 2 r) then <[2 := Frame.at_ 3 r]> r else r in
  let r := fill 0 (Frame.Str "MISSING") r in
  let r := fill 11 (Frame.Str "MISSING") r in
  let r := fill 12 (Frame.Str "MISSING") r in
  let r := fill 13 (Frame.Str "MISSING") r in
  r ++ [Frame.Str name].

(** The last step, on one row. *)
Definition titled (r : Frame.row) : result Frame.row :=
  v ← Dataset.title_strip (Frame.at_ Division r); Ok (<[Division := v]> r).

Lemma rmap_ext {A B} (f g : A → result B) l :
  (∀ a, f a = g a) → rmap f l = rmap g l.
Proof. intros H. induction l as [|a l IH]; cbn; [done|]. by rewrite H, IH. Qed.

Lemma rmap_map {A B C} (f : B → result C) (g : A → B) l :
  rmap f (map g l) = rmap (λ a, f (g a)) l.
Proof. induction l as [|a l IH]; cbn; [done|]. by rewrite IH. Qed.

Lemma rmap_Ok {A B} (g : A → B) l : rmap (λ a, Ok (g a)) l = Ok (map g l).
Proof. induction l as [|a l IH]; cbn; [done|]. by rewrite IH. Qed.

(** A state of a method of [Dataset], by its parts. *)
Definition state_of (name : string) (cols : list string) (rs : list Frame.row)
  (names : option (list string)) (tr : list Dataset.event) : Dataset.state :=
  Dataset.State (Dataset.Object name (Frame.Build cols rs) names) tr.

Lemma bind_Ok {A B} (m : Dataset.M A) (k : A → Dataset.M B) st st' a :
  m st = (st', Ok a) → (m ≫= k) st = k a st'.
Proof. intros H. unfold mbind, Dataset.M_bind. by rewrite H. Qed.

Lemma bind_Raise {A B} (m : Dataset.M A) (k : A → Dataset.M B) st st' e :
  m st = (st', Raise e) → (m ≫= k) st = (st', Raise e).
Proof. intros H. unfold mbind, Dataset.M_bind. by rewrite H. Qed.

Lemma drop_subtotals_run name rs names tr :
  Dataset.drop_subtotals (state_of name Dataset.canonical rs names tr)
  = (state_of name Dataset.canonical (List.filter survives rs) names tr, Ok ()).
Proof. vm_compute. reflexivity. Qed.

Lemma blank_purpose_run name rs names tr :
  Dataset.blank_purpose (state_of name Dataset.canonical rs names tr)
  = (state_of name Dataset.canonical (map (fill 15 (Frame.Str "")) rs) names tr, Ok ()).
Proof. vm_compute. reflexivity. Qed.

Lemma fill_transaction_date_run name rs names tr :
  Dataset.fill_transaction_date (state_of name Dataset.canonical rs names tr)
  = (state_of name Dataset.canonical
       (map (λ r, if Frame.isna (Frame.at_ 2 r) then <[2 := Frame.at_ 3 r]> r else r) rs)
       names tr, Ok ()).
Proof. vm_compute. reflexivity. Qed.

Lemma fill_missing_run name rs names tr :
  Dataset.for_ [ "Division"; "Cost Centre / WBS Element";
                 "Cost Centre / WBS Element Description"; "Merchant Type" ]
    Dataset.fill_missing (state_of name Dataset.canonical rs names tr)
  = (state_of name Dataset.canonical
       (map (fill 13 (Frame.Str "MISSING"))
          (map (fill 12 (Frame.Str "MISSING"))
             (map (fill 11 (Frame.Str "MISSING"))
                (map (fill 0 (Frame.Str "MISSING")) rs))))
       names tr, Ok ()).
Proof. vm_compute. reflexivity. Qed.

Lemma add_source_run name rs names tr :
  Dataset.add_source (state_of name Dataset.canonical rs names tr)
  = (state_of name (Dataset.canonical ++ ["Source"])
       (map (λ r, r ++ [Frame.Str name]) rs) names tr, Ok ()).
Proof.
  unfold Dataset.add_source, state_of.
  unfold mbind at 1, Dataset.M_bind, Dataset.get_df, Dataset.get_file_name.
  cbn [Dataset.self Dataset.df Dataset.file_name Frame.columns].
  rewrite bool_decide_eq_false_2
    by (apply (bool_decide_unpack _); vm_compute; exact I).
  unfold Dataset.lift, Frame.append_column, mbind, result_bind, Dataset.set_df.
  cbn [Frame.rows Frame.columns]. by rewrite (rmap_Ok (λ r, r ++ [Frame.Str name])).
Qed.

Lemma normalize_division_run name rs names tr :
  Dataset.normalize_division
    (state_of name (Dataset.canonical ++ ["Source"]) rs names tr)
  = match rmap titled rs with
    | Ok rs' => (state_of name (Dataset.canonical ++ ["Source"]) rs' names tr, Ok ())
    | Raise e => (state_of name (Dataset.canonical ++ ["Source"]) rs names tr, Raise e)
    end.
Proof.
  unfold Dataset.normalize_division, state_of.
  unfold mbind at 1, Dataset.M_bind, Dataset.get_df.
  cbn [Dataset.self Dataset.df].
  change (Frame.loc "Division" _) with (Ok (A:=nat) 0).
  unfold Dataset.lift, Frame.apply, mbind, result_bind, Dataset.set_df.
  cbn [Frame.rows Frame.columns]. fold (titled).
  change (rmap _ rs) with (rmap titled rs).
  by destruct (rmap titled rs).
Qed.

(** What the imputation makes of a row before the division is put in
    title case, as one function of the row. *)
Lemma filled_steps name rs :
  map (λ r, r ++ [Frame.Str name])
    (map (fill 13 (Frame.Str "MISSING"))
       (map (fill 12 (Frame.Str "MISSING"))
          (map (fill 11 (Frame.Str "MISSING"))
             (map (fill 0 (Frame.Str "MISSING"))
                (map (λ r, if Frame.isna (Frame.at_ 2 r)
                           then <[2 := Frame.at_ 3 r]> r else r)
                   (map (fill 15 (Frame.Str "")) rs))))))
  = map (filled name) rs.
Proof. rewrite !map_map. reflexivity. Qed.

(** The imputation on a frame with the canonical columns. *)
Lemma impute_run name rs names tr :
  Dataset.impute (state_of name Dataset.canonical rs names tr)
  = match rmap titled (map (filled name) (List.filter survives rs)) with
    | Ok rs' =>
        (state_of name (Dataset.canonical ++ ["Source"]) rs' names tr, Ok ())
    | Raise e =>
        (state_of name (Dataset.canonical ++ ["Source"])
           (map (filled name) (List.filter survives rs)) names tr, Raise e)
    end.
Proof.
  unfold Dataset.impute.
  rewrite (bind_Ok _ _ _ _ _ (drop_subtotals_run _ _ _ _)).
  rewrite (bind_Ok _ _ _ _ _ (blank_purpose_run _ _ _ _)).
  rewrite (bind_Ok _ _ _ _ _ (fill_transaction_date_run _ _ _ _)).
  rewrite (bind_Ok _ _ _ _ _ (fill_missing_run _ _ _ _)).
  rewrite (bind_Ok _ _ _ _ _ (add_source_run _ _ _ _)).
  rewrite normalize_division_run. by rewrite filled_steps.
Qed.

Lemma rmap_Forall2 {A B} (f : A → result B) (R : A → B → Prop) l :
  Forall (λ a, ∃ b, f a = Ok b ∧ R a b) l →
  ∃ bs, rmap f l = Ok bs ∧ Forall2 R l bs.
Proof.
  induction 1 as [|a l (b & Hb & HR) _ (bs & Hbs & HRs)]; cbn.
  - exists []. by split.
  - exists (b :: bs). rewrite Hb, Hbs. split; [done|]. by constructor.
Qed.

(** What the imputation makes of one row of sixteen cells whose division
    is missing or text. *)
Definition imputed (r r' : Frame.row) : Prop :=
  Frame.at_ Batch_Transaction_ID r' = Frame.at_ Batch_Transaction_ID r
  ∧ (Frame.isna (Frame.at_ Division r) = true →
     Frame.at_ Division r' = Frame.Str "Missing")
  ∧ (∀ s, Frame.at_ Division r = Frame.Str s →
          Frame.at_ Division r' = Frame.Str (Py.strip (Py.title s))).

Lemma titled_filled name (r : Frame.row) :
  length r = 16 →
  Frame.at_ Division r = Frame.NaN ∨ (∃ s, Frame.at_ Division r = Frame.Str s) →
  ∃ r', titled (filled name r) = Ok r' ∧ imputed r r'.
Proof.
  intros Hlen Hdiv.
  do 16 (destruct r as [|? r]; [done|]). destruct r; [|done].
  unfold imputed, titled, filled, fill, Division, Batch_Transaction_ID in *.
  cbn in Hdiv.
  destruct Hdiv as [->|[s ->]];
    repeat (cbn;
            match goal with
            | |- context [Frame.isna ?c] => is_var c; destruct (Frame.isna c)
            end);
    cbn;
    (eexists; split; [reflexivity|]);
    cbn;
    (split; [reflexivity|]);
    (split; [intros H; try discriminate H; reflexivity|]);
    intros s' Hs; try discriminate Hs; by inversion Hs.
Qed.

(** C2, as the code has it. On a reconciled table (the sixteen canonical
    columns, one cell per column) whose divisions are missing or text,
    the imputation drops exactly the rows in which both [Division] and
    [Batch-Transaction ID] are missing: the rows of the result are, in
    order, the imputed forms of the other rows, each with its
    [Batch-Transaction ID]. In every surviving row whose [Division] is
    missing, the [Division] of the result is ["Missing"]: the literal
    ["MISSING"] the method assigns, put in title case with every other
    division. A division that is present is put in title case and
    stripped. *)
Theorem impute_drops_subtotals_titles_missing (st : Dataset.state) :
  Frame.columns (Dataset.df (Dataset.self st)) = Dataset.canonical →
  Forall (λ r, length r = 16) (Frame.rows (Dataset.df (Dataset.self st))) →
  Forall (λ r, Frame.at_ Division r = Frame.NaN
               ∨ ∃ s, Frame.at_ Division r = Frame.Str s)
         (Frame.rows (Dataset.df (Dataset.self st))) →
  ∃ rs',
    Dataset.impute st
    = (state_of (Dataset.file_name (Dataset.self st))
         (Dataset.canonical ++ ["Source"]) rs'
         (Dataset.column_names (Dataset.self st)) (Dataset.trace st), Ok ())
    ∧ Forall2 imputed
        (List.filter survives (Frame.rows (Dataset.df (Dataset.self st)))) rs'.
Proof.
  destruct st as [[name [cols rs] names] tr]. cbn. intros -> Hlen Hdiv.
  change (Dataset.State _ _) with (state_of name Dataset.canonical rs names tr).
  rewrite impute_run. rewrite rmap_map.
  destruct (rmap_Forall2 (λ r, titled (filled name r)) imputed
              (List.filter survives rs)) as (rs' & -> & HR).
  - apply list.Forall_forall. intros r Hr%list_elem_of_In%filter_In.
    destruct Hr as [Hr%list_elem_of_In _].
    apply titled_filled.
    + by eapply (proj1 (list.Forall_forall _ _) Hlen).
    + by eapply (proj1 (list.Forall_forall _ _) Hdiv).
  - by exists rs'.
Qed.

(** One transaction of a report, with the division and the transaction
    identifier given. *)
Definition transaction (division batch : Frame.cell) : Frame.row :=
  [ division; batch; Frame.Timestamp (Frame.Date 2011 3 14);
    Frame.Timestamp (Frame.Date 2011 3 16); Frame.Str "STAPLES"; Frame.Int 25;
    Frame.Str "CAD"; Frame.Int 25; Frame.Str "CAD"; Frame.Int 4500;
    Frame.Str "OFFICE SUPPLIES"; Frame.Str "CC100"; Frame.Str "ADMIN";
    Frame.Str "5943"; Frame.Str "STATIONERY STORES"; Frame.NaN ].

Lemma impute_drops_subtotals_titles_missing_witness :
  let st := state_of "PCardExpenses_201103.xls" Dataset.canonical
              [ transaction Frame.NaN (Frame.Str "B-001");
                transaction Frame.NaN Frame.NaN ] None [] in
  ∃ rs', (Dataset.impute st).2 = Ok ()
         ∧ Frame.rows (Dataset.df (Dataset.self (Dataset.impute st).1)) = rs'
         ∧ Forall2 imputed [transaction Frame.NaN (Frame.Str "B-001")] rs'.
Proof.
  intros st.
  destruct (impute_drops_subtotals_titles_missing st eq_refl) as (rs' & Hrun & HR).
  - repeat constructor.
  - repeat constructor.
  - exists rs'. rewrite Hrun. repeat split. exact HR.
Defined.

(** C2, as the claim words it: the surviving row of the second
    end-to-end scenario would carry the division ["MISSING"] in the
    cleaned table. It carries ["Missing"]. *)
Lemma clean_data_missing_division_counterexample :
  let r := transaction Frame.NaN (Frame.Str "B-001") in
  let st := state_of "PCardExpenses_201103.xls" Dataset.canonical
              [ r; transaction Frame.NaN Frame.NaN ] None [] in
  survives r = true
  ∧ Frame.isna (Frame.at_ Division r) = true
  ∧ (Dataset.clean_data st).2 = Ok ()
  ∧ ∃ r', Frame.rows (Dataset.df (Dataset.self (Dataset.clean_data st).1)) = [r']
          ∧ Frame.at_ Batch_Transaction_ID r' = Frame.Str "B-001"
          ∧ Frame.at_ Division r' = Frame.Str "Missing"
          ∧ Frame.at_ Division r' ≠ Frame.Str "MISSING".
Proof.
  cbv zeta. repeat split.
  eexists. split; [vm_compute; reflexivity|].
  repeat split. discriminate.
Qed.

(** ** Validation *)

(** The number of missing cells of the column at position [j]. *)
Definition missing_in (j : nat) (d : Frame.DataFrame) : nat :=
  length (List.filter (λ r, Frame.isna (Frame.at_ j r)) (Frame.rows d)).

(** The table has a missing value in some column. *)
Definition has_missing (d : Frame.DataFrame) : Prop :=
  ∃ j label r, Frame.columns d !! j = Some label ∧ r ∈ Frame.rows d
               ∧ Frame.isna (Frame.at_ j r) = true.

Lemma total_pos counts :
  0 < Dataset.total counts ↔ ∃ p, p ∈ counts ∧ 0 < p.2.
Proof.
  induction counts as [|p counts IH].
  - cbn. split; [lia|]. by intros (p & ?%elem_of_nil & _).
  - split.
    + intros H. destruct (decide (0 < p.2)) as [Hp|Hp].
      * exists p. split; [apply list_elem_of_here|done].
      * assert (0 < Dataset.total counts) as H0
          by (unfold Dataset.total in *; cbn in H; lia).
        destruct (proj1 IH H0) as (q & Hq & Hpos).
        exists q. split; [by apply list_elem_of_further|done].
    + intros (q & [->|Hq]%elem_of_cons & Hpos).
      * unfold Dataset.total. cbn. lia.
      * assert (0 < Dataset.total counts) as H0 by (apply IH; eauto).
        unfold Dataset.total in *. cbn. lia.
Qed.

Lemma elem_of_isna_sum d label n :
  (label, n) ∈ Frame.isna_sum d
  ↔ ∃ j, Frame.columns d !! j = Some label ∧ n = missing_in j d.
Proof.
  unfold Frame.isna_sum. rewrite elem_of_lookup_imap. split.
  - intros (j & l & [= -> ->] & Hj). by exists j.
  - intros (j & Hj & ->). by exists j, label.
Qed.

Lemma missing_in_pos j d :
  0 < missing_in j d ↔ ∃ r, r ∈ Frame.rows d ∧ Frame.isna (Frame.at_ j r) = true.
Proof.
  unfold missing_in. split.
  - intros H. destruct (List.filter _ _) as [|r l] eqn:E; [cbn in H; lia|].
    assert (In r (List.filter (λ r, Frame.isna (Frame.at_ j r)) (Frame.rows d)))
      as [Hr Hna]%filter_In by (rewrite E; by left).
    exists r. split; [by apply list_elem_of_In|done].
  - intros (r & Hr%list_elem_of_In & Hna).
    assert (In r (List.filter (λ r, Frame.isna (Frame.at_ j r)) (Frame.rows d)))
      as Hin by (by apply filter_In).
    destruct (List.filter _ _); [done|cbn; lia].
Qed.

Lemma total_isna_sum_pos d :
  0 < Dataset.total (Frame.isna_sum d) ↔ has_missing d.
Proof.
  rewrite total_pos. split.
  - intros ([label n] & (j & Hj & ->)%elem_of_isna_sum & Hpos). cbn in Hpos.
    apply missing_in_pos in Hpos as (r & Hr & Hna). by exists j, label, r.
  - intros (j & label & r & Hj & Hr & Hna).
    exists (label, missing_in j d). split.
    + apply elem_of_isna_sum. by exists j.
    + apply missing_in_pos. by exists r.
Qed.

(** [validate_data], case by case. *)
Lemma validate_data_run (st : Dataset.state) names :
  Dataset.column_names (Dataset.self st) = Some names →
  let d := Dataset.df (Dataset.self st) in
  let name := Dataset.file_name (Dataset.self st) in
  Dataset.validate_data st
  = if 0 <? Dataset.total (Frame.isna_sum d)
    then (Dataset.State (Dataset.self st) (Dataset.trace st ++ [Dataset.Breakpoint]),
          Raise (AssertionError
                   (NaN_exist name (List.filter (λ p, 0 <? p.2) (Frame.isna_sum d)))))
    else if length (Frame.columns d) =? length names + 1
         then (st, Ok ())
         else (st, Raise (AssertionError (Missing_columns name))).
Proof.
  intros Hnames d name. unfold Dataset.validate_data.
  unfold mbind, Dataset.M_bind, Dataset.get_df, Dataset.get_file_name,
    Dataset.get_column_names, Dataset.assert, Dataset.emit, Dataset.lift, mret,
    Dataset.M_ret.
  fold d.
  destruct (Nat.ltb_spec 0 (Dataset.total (Frame.isna_sum d))) as [Hpos|Hzero].
  - cbn [Dataset.self Dataset.trace]. fold name.
    destruct (Nat.eqb_spec (Dataset.total (Frame.isna_sum d)) 0); [lia|done].
  - fold name.
    destruct (Nat.eqb_spec (Dataset.total (Frame.isna_sum d)) 0); [|lia].
    rewrite Hnames. by destruct (_ =? _).
Qed.

(** C4. Validation of a cleaned table fails if and only if the table
    still has a missing value in some column or the number of its
    columns is not 17, the 16 canonical names and [Source]. On a missing
    value it fails with the name of the file and the count of the
    missing values of each column that has some; with no missing value
    and a wrong number of columns it fails naming the file. When it
    succeeds the table has no missing value and 17 columns. *)
Theorem validate_data_spec (st : Dataset.state) :
  Dataset.column_names (Dataset.self st) = Some Dataset.canonical →
  let d := Dataset.df (Dataset.self st) in
  let name := Dataset.file_name (Dataset.self st) in
  ((Dataset.validate_data st).2 ≠ Ok ()
   ↔ has_missing d ∨ length (Frame.columns d) ≠ 17)
  ∧ ((Dataset.validate_data st).2 = Ok ()
     ↔ ¬ has_missing d ∧ length (Frame.columns d) = 17)
  ∧ (has_missing d →
     ∃ nan_summary,
       (Dataset.validate_data st).2 = Raise (AssertionError (NaN_exist name nan_summary))
       ∧ ∀ label n, (label, n) ∈ nan_summary
                    ↔ 0 < n ∧ ∃ j, Frame.columns d !! j = Some label
                                   ∧ n = missing_in j d)
  ∧ (¬ has_missing d → length (Frame.columns d) ≠ 17 →
     (Dataset.validate_data st).2 = Raise (AssertionError (Missing_columns name))).
Proof.
  intros Hnames d name. rewrite (validate_data_run st _ Hnames). fold d name.
  pose proof (total_isna_sum_pos d) as Htotal.
  change (length Dataset.canonical + 1) with 17.
  destruct (Nat.ltb_spec 0 (Dataset.total (Frame.isna_sum d))) as [Hpos|Hzero].
  - assert (has_missing d) as Hmiss by (by apply Htotal).
    cbn [snd]. split; [|split; [|split]].
    + split; [by left|done].
    + split; [done|]. by intros [Hno _].
    + intros _. eexists. split; [done|]. intros label n.
      rewrite list_elem_of_In, filter_In, <- list_elem_of_In, elem_of_isna_sum.
      cbn [snd]. rewrite Nat.ltb_lt. tauto.
    + done.
  - assert (¬ has_missing d) as Hno by (rewrite <- Htotal; lia).
    destruct (Nat.eqb_spec (length (Frame.columns d)) 17) as [Hlen|Hlen];
      cbn [snd]; (split; [|split; [|split]]); try done.
    + split; [done|]. by intros [?|?].
    + split; [by right|done].
    + split; [done|]. by intros [_ ?].
Qed.

Lemma validate_data_spec_witness :
  let st := (Dataset.clean_data
               (state_of "PCardExpenses_201103.xls" Dataset.canonical
                  [ transaction Frame.NaN (Frame.Str "B-001");
                    transaction Frame.NaN Frame.NaN ] None [])).1 in
  Dataset.column_names (Dataset.self st) = Some Dataset.canonical
  ∧ (Dataset.validate_data st).2 = Ok ()
  ∧ ¬ has_missing (Dataset.df (Dataset.self st))
  ∧ length (Frame.columns (Dataset.df (Dataset.self st))) = 17.
Proof.
  intros st.
  assert (Dataset.column_names (Dataset.self st) = Some Dataset.canonical) as Hnames
    by (vm_compute; reflexivity).
  assert ((Dataset.validate_data st).2 = Ok ()) as Hrun by (vm_compute; reflexivity).
  split; [exact Hnames|]. split; [exact Hrun|].
  destruct (validate_data_spec st Hnames) as (_ & Hok & _).
  by apply Hok.
Defined.

(** C10. [validate_data] only reads the table: whether it returns or
    raises, the object it was called on (the contents of the frame, its
    column labels, its rows, the file name and the column names) is what
    it was before the call. *)
Theorem validate_data_pure (st : Dataset.state) :
  Dataset.self (Dataset.validate_data st).1 = Dataset.self st.
Proof.
  destruct (Dataset.column_names (Dataset.self st)) as [names|] eqn:Hnames.
  - rewrite (validate_data_run st _ Hnames).
    destruct (_ <? _); [done|]. by destruct (_ =? _).
  - destruct st as [[name d ?] tr]. cbn in Hnames. subst.
    unfold Dataset.validate_data.
    unfold mbind, Dataset.M_bind, Dataset.get_df, Dataset.get_file_name,
      Dataset.get_column_names, Dataset.assert, Dataset.emit, Dataset.lift, mret,
      Dataset.M_ret.
    cbn [Dataset.self Dataset.trace Dataset.df Dataset.file_name
         Dataset.column_names].
    by destruct (0 <? _); destruct (_ =? 0).
Qed.

(** ** Frames with one cell per column *)

Definition well_formed (d : Frame.DataFrame) : Prop :=
  Forall (λ r, length r = length (Frame.columns d)) (Frame.rows d).

Lemma rmap_inv {A B} (g : A → result B) l bs :
  rmap g l = Ok bs → Forall2 (λ a b, g a = Ok b) l bs.
Proof.
  revert bs. induction l as [|a l IH]; cbn; intros bs H.
  - injection H as <-. constructor.
  - destruct (g a) as [b|] eqn:Hb; [|done]. cbn in H.
    destruct (rmap g l) as [bs'|] eqn:Hbs; [|done]. cbn in H.
    injection H as <-. constructor; [done|]. by apply IH.
Qed.

Lemma elem_of_positions label cols j :
  j ∈ Frame.positions label cols ↔ cols !! j = Some label.
Proof.
  unfold Frame.positions. rewrite list_elem_of_omap. split.
  - intros ([i c] & (i' & c' & [= -> ->] & Hi)%elem_of_lookup_imap & Hp).
    cbn in Hp. case_bool_decide; [|done]. injection Hp as ->. by subst.
  - intros Hj. exists (j, label). split.
    + apply elem_of_lookup_imap. by exists j, label.
    + cbn. by rewrite bool_decide_eq_true_2.
Qed.

Lemma positions_app label cols l :
  Frame.positions label (cols ++ [l])
  = Frame.positions label cols ++ (if bool_decide (l = label) then [length cols] else []).
Proof.
  unfold Frame.positions. rewrite imap_app, omap_app. f_equal.
  cbn. rewrite Nat.add_0_r. by case_bool_decide.
Qed.

Lemma positions_nil label cols :
  label ∉ cols → Frame.positions label cols = [].
Proof.
  intros Hnin. destruct (Frame.positions label cols) as [|j js] eqn:E; [done|].
  assert (j ∈ Frame.positions label cols) as Hj by (rewrite E; apply list_elem_of_here).
  apply elem_of_positions in Hj. apply list_elem_of_lookup_2 in Hj. done.
Qed.

Lemma loc_lookup label d j :
  Frame.loc label d = Ok j → Frame.columns d !! j = Some label.
Proof.
  unfold Frame.loc. intros H. apply elem_of_positions.
  destruct (Frame.positions label (Frame.columns d)) as [|j' [|]]; [done| |done].
  injection H as ->. apply list_elem_of_here.
Qed.

(** A new last column does not move the columns present before. *)
Lemma loc_app_ne label l d d' :
  Frame.columns d' = Frame.columns d ++ [l] → l ≠ label →
  Frame.loc label d' = Frame.loc label d.
Proof.
  intros Hcols Hne. unfold Frame.loc. rewrite Hcols, positions_app.
  rewrite bool_decide_eq_false_2 by done. by rewrite app_nil_r.
Qed.

Lemma loc_app_new label d d' :
  Frame.columns d' = Frame.columns d ++ [label] → label ∉ Frame.columns d →
  Frame.loc label d' = Ok (length (Frame.columns d)).
Proof.
  intros Hcols Hnin. unfold Frame.loc. rewrite Hcols, positions_app.
  rewrite positions_nil by done. by rewrite bool_decide_eq_true_2.
Qed.

Lemma at_app_l j (r : Frame.row) v :
  j < length r → Frame.at_ j (r ++ [v]) = Frame.at_ j r.
Proof. intros H. unfold Frame.at_. by apply lookup_total_app_l. Qed.

Lemma at_app_new (r : Frame.row) v : Frame.at_ (length r) (r ++ [v]) = v.
Proof. unfold Frame.at_. by apply list_lookup_total_middle. Qed.

Lemma imap_appended (f : nat → Frame.row → Frame.row) (l : list Frame.row) :
  (∀ i r, ∃ v, f i r = r ++ [v]) →
  Forall2 (λ r r', ∃ v, r' = r ++ [v]) l (imap f l).
Proof.
  revert f. induction l as [|r l IH]; intros f Hf; cbn; constructor.
  - apply Hf.
  - apply IH. intros i r'. apply Hf.
Qed.

Lemma concat_frames_well_formed a b : well_formed (Frame.concat_frames a b).
Proof.
  unfold well_formed, Frame.concat_frames. cbn.
  apply Forall_app. split; apply list.Forall_forall; intros r Hr;
    unfold Frame.reindex in Hr; apply list_elem_of_fmap in Hr as (r0 & -> & _);
    by rewrite length_map.
Qed.

Lemma process_well_formed reports : ∀ output_df tr tr' d,
  well_formed output_df →
  Merger.process reports output_df tr = (tr', Ok d) → well_formed d.
Proof.
  induction reports as [|[report_name loaded] reports IH];
    intros output_df tr tr' d Hwf; cbn.
  - by intros [= <- <-].
  - destruct (Dataset.init report_name loaded) as [dataset|]; [|done].
    destruct ((Dataset.clean_data;; Dataset.validate_data) _) as [st [[]|]]; [|done].
    apply IH. apply concat_frames_well_formed.
Qed.

(** ** The merged table *)

(** Every row carries a time stamp as its [Transaction Date] and the
    year of that time stamp as its [Year], and that year is [good]. *)
Definition dated (good : Z → Prop) (d : Frame.DataFrame) : Prop :=
  well_formed d
  ∧ ∃ td y,
      Frame.loc "Transaction Date" d = Ok td
      ∧ Frame.loc "Year" d = Ok y
      ∧ Forall (λ r, ∃ t, Frame.at_ td r = Frame.Timestamp t
                          ∧ Frame.at_ y r = Frame.Int (Frame.year t)
                          ∧ good (Frame.year t))
               (Frame.rows d).

Lemma derive_inv target source f d d' :
  Merger.derive target source f d = Ok d' →
  ∃ j, Frame.loc source d = Ok j
       ∧ (target ∉ Frame.columns d)
       ∧ Frame.columns d' = Frame.columns d ++ [target]
       ∧ Forall2 (λ r r', ∃ v, f (Frame.at_ j r) = Ok v ∧ r' = r ++ [v])
                 (Frame.rows d) (Frame.rows d').
Proof.
  unfold Merger.derive. destruct (Frame.loc source d) as [j|]; [|done]. cbn.
  case_bool_decide as Hin; [done|]. unfold Frame.append_column.
  match goal with
  | |- context [rmap ?g ?l] => destruct (rmap g l) as [rs|] eqn:Hrs; [|done]
  end.
  cbn. intros [= <-]. exists j. repeat split; try done. cbn.
  apply rmap_inv in Hrs. eapply list.Forall2_impl; [exact Hrs|].
  intros r r' H. cbn in H. destruct (f (Frame.at_ j r)) as [v|]; [|done].
  cbn in H. injection H as <-. by exists v.
Qed.

Lemma dated_extend good d d' label :
  dated good d → label ≠ "Transaction Date" → label ≠ "Year" →
  Frame.columns d' = Frame.columns d ++ [label] →
  Forall2 (λ r r', ∃ v, r' = r ++ [v]) (Frame.rows d) (Frame.rows d') →
  dated good d'.
Proof.
  intros (Hwf & td & y & Htd & Hy & Hrows) Hne1 Hne2 Hcols HR. split.
  - unfold well_formed in *. rewrite Hcols, length_app. cbn.
    clear Hrows. induction HR as [|r r' rs rs' (v & ->) _ IH]; [constructor|].
    inversion Hwf; subst. constructor; [|by apply IH].
    rewrite length_app. cbn. lia.
  - exists td, y. rewrite (loc_app_ne _ _ _ _ Hcols Hne1), (loc_app_ne _ _ _ _ Hcols Hne2).
    repeat split; try done.
    apply loc_lookup, lookup_lt_Some in Htd. apply loc_lookup, lookup_lt_Some in Hy.
    unfold well_formed in Hwf.
    induction HR as [|r r' rs rs' (v & ->) _ IH]; [constructor|].
    inversion Hwf as [|? ? Hlen Hwf']; subst.
    inversion Hrows as [|? ? (t & H1 & H2 & H3) Hrows']; subst.
    constructor; [|by apply IH].
    exists t. rewrite !at_app_l by lia. done.
Qed.

Lemma derive_dated good target f d d' :
  dated good d → target ≠ "Transaction Date" → target ≠ "Year" →
  Merger.derive target "Transaction Date" f d = Ok d' → dated good d'.
Proof.
  intros Hd Hne1 Hne2 (j & _ & _ & Hcols & HR)%derive_inv.
  eapply dated_extend; try done.
  eapply list.Forall2_impl; [exact HR|]. intros r r' (v & _ & ->). by exists v.
Qed.

Lemma derive_year d d' :
  well_formed d →
  Merger.derive "Year" "Transaction Date" Merger.year_of d = Ok d' →
  dated (λ _, True) d'.
Proof.
  intros Hwf (j & Hj & Hnin & Hcols & HR)%derive_inv. split.
  - unfold well_formed in *. rewrite Hcols, length_app. cbn.
    induction HR as [|r r' rs rs' (v & _ & ->) _ IH]; [constructor|].
    inversion Hwf; subst. constructor; [|by apply IH].
    rewrite length_app. cbn. lia.
  - exists j, (length (Frame.columns d)).
    rewrite (loc_app_ne _ _ _ _ Hcols) by done. rewrite (loc_app_new _ _ _ Hcols Hnin).
    repeat split; try done.
    apply loc_lookup, lookup_lt_Some in Hj. unfold well_formed in Hwf.
    induction HR as [|r r' rs rs' (v & Hv & ->) _ IH]; [constructor|].
    inversion Hwf as [|? ? Hlen Hwf']; subst.
    constructor; [|by apply IH].
    unfold Merger.year_of in Hv.
    destruct (Frame.at_ j r) as [| | | | | |t|] eqn:Hcell; try done.
    injection Hv as <-. exists t.
    rewrite at_app_l by lia. rewrite <- Hlen, at_app_new. done.
Qed.

Lemma replace_divisions_well_formed dict d d' :
  well_formed d → Merger.replace_divisions dict d = Ok d' → well_formed d'.
Proof.
  unfold Merger.replace_divisions, Frame.apply, well_formed.
  destruct (Frame.loc "Division" d) as [j|]; [|done]. cbn.
  match goal with
  | |- context [rmap ?g ?l] => destruct (rmap g l) as [rs|] eqn:Hrs; [|done]
  end.
  cbn. intros Hwf [= <-]. cbn. apply rmap_inv in Hrs.
  induction Hrs as [|r r' rs0 rs' H _ IH]; [constructor|].
  inversion Hwf; subst. constructor; [|by apply IH].
  cbn in H. injection H as H. subst r'. by rewrite length_insert.
Qed.

Lemma remove_2010_dated d d' :
  dated (λ _, True) d → Merger.remove_2010 d = Ok d' → dated (λ z, z ≠ 2010%Z) d'.
Proof.
  intros (Hwf & td & y & Htd & Hy & Hrows). unfold Merger.remove_2010.
  rewrite Hy. cbn. intros [= <-]. split.
  - unfold well_formed, Frame.where_ in *. cbn.
    apply list.Forall_forall. intros r [Hr _]%list_elem_of_In%filter_In.
    apply list_elem_of_In in Hr. by eapply (proj1 (list.Forall_forall _ _) Hwf).
  - exists td, y. repeat split; try done. cbn.
    apply list.Forall_forall. intros r [Hr Hkeep]%list_elem_of_In%filter_In.
    apply list_elem_of_In in Hr.
    destruct (proj1 (list.Forall_forall _ _) Hrows r Hr) as (t & H1 & H2 & _).
    exists t. repeat split; try done.
    apply bool_decide_eq_true_1 in Hkeep. rewrite H2 in Hkeep. congruence.
Qed.

Lemma encode_dated cat_codes good d col_name d' :
  dated good d →
  col_name +:+ "_code" ≠ "Transaction Date" → col_name +:+ "_code" ≠ "Year" →
  Merger.encode cat_codes d col_name = Ok d' → dated good d'.
Proof.
  intros Hd Hne1 Hne2. unfold Merger.encode.
  destruct (Frame.column col_name d) as [values|]; [|done]. cbn.
  case_bool_decide; [done|]. intros [= <-].
  eapply dated_extend; try done. cbn.
  apply imap_appended. intros i r. by eexists.
Qed.

Lemma finish_dated cat_codes divisions_map output_df unified :
  well_formed output_df →
  Merger.finish cat_codes divisions_map output_df = Ok unified →
  dated (λ z, z ≠ 2010%Z) unified.
Proof.
  intros Hwf. unfold Merger.finish.
  destruct (Merger.replace_divisions _ _) as [d0|] eqn:H0; [|done]. cbn.
  destruct (Merger.derive "Year" _ _ d0) as [d1|] eqn:H1; [|done]. cbn.
  destruct (Merger.derive "Month" _ _ d1) as [d2|] eqn:H2; [|done]. cbn.
  destruct (Merger.derive "Year-Month" _ _ d2) as [d3|] eqn:H3; [|done]. cbn.
  destruct (Merger.derive "Quarter" _ _ d3) as [d4|] eqn:H4; [|done]. cbn.
  destruct (Merger.remove_2010 d4) as [d5|] eqn:H5; [|done]. cbn.
  destruct (Merger.encode cat_codes d5 "Merchant Type") as [d6|] eqn:H6; [|done]. cbn.
  destruct (Merger.encode cat_codes d6 "G/L Account") as [d7|] eqn:H7; [|done]. cbn.
  destruct (Merger.encode cat_codes d7 "Cost Centre / WBS Element") as [d8|] eqn:H8;
    [|done]. cbn.
  intros H9.
  apply replace_divisions_well_formed in H0; [|done].
  apply derive_year in H1; [|done].
  eapply derive_dated in H2; [|exact H1|done..].
  eapply derive_dated in H3; [|exact H2|done..].
  eapply derive_dated in H4; [|exact H3|done..].
  apply remove_2010_dated in H5; [|done].
  eapply encode_dated in H6; [|exact H5|done..].
  eapply encode_dated in H7; [|exact H6|done..].
  eapply encode_dated in H8; [|exact H7|done..].
  eapply encode_dated in H9; [|exact H8|done..]. done.
Qed.

(** C7. Whatever the reports and the divisions map, the unified table
    that the script of [clean_data.py] pickles, which is what the
    profiler reads, has no row of the year 2010: every row carries the
    year of its transaction date in [Year], that year is not 2010, and
    selecting the rows with [Year == 2010] gives the empty table. *)
Theorem unified_excludes_2010 cat_codes listing divisions_map trace unified :
  Merger.main cat_codes listing divisions_map = (trace, Ok unified) →
  ∃ td y,
    Frame.loc "Transaction Date" unified = Ok td
    ∧ Frame.loc "Year" unified = Ok y
    ∧ Forall (λ r, ∃ t, Frame.at_ td r = Frame.Timestamp t
                        ∧ Frame.at_ y r = Frame.Int (Frame.year t)
                        ∧ Frame.year t ≠ 2010%Z)
             (Frame.rows unified)
    ∧ Frame.rows
        (Frame.where_ (λ r, bool_decide (Frame.at_ y r = Frame.Int 2010)) unified)
      = [].
Proof.
  unfold Merger.main.
  destruct (Merger.process _ _ _) as [tr [output_df|]] eqn:Hprocess; [|done].
  intros [= <- Hfinish].
  apply process_well_formed in Hprocess; [|constructor].
  destruct (finish_dated _ _ _ _ Hprocess Hfinish) as (_ & td & y & Htd & Hy & Hrows).
  exists td, y. repeat split; try done. cbn.
  induction Hrows as [|r rs (t & _ & H2 & H3) _ IH]; [done|]. cbn.
  rewrite bool_decide_eq_false_2; [done|]. rewrite H2. congruence.
Qed.

(** A purchase of a division at a merchant type, in the sixteen
    canonical columns. *)
Definition purchase (division merchant : string) (y m amount : Z)
  (batch : Frame.cell) : Frame.row :=
  [ Frame.Str division; batch; Frame.Timestamp (Frame.Date y m 14);
    Frame.Timestamp (Frame.Date y m 16); Frame.Str "STAPLES"; Frame.Int amount;
    Frame.Str "CAD"; Frame.Int amount; Frame.Str "CAD"; Frame.Int 4500;
    Frame.Str "OFFICE SUPPLIES"; Frame.Str "CC100"; Frame.Str "ADMIN";
    Frame.Str merchant; Frame.Str "STATIONERY STORES"; Frame.NaN ].

(** Two reports, five purchases, one of them of December 2010. *)
Definition reports : list (string * Frame.DataFrame) :=
  [ ("PCardExpenses_201012.xls",
     Frame.Build Dataset.canonical
       [ purchase "parks" "Retail" 2010 12 40 (Frame.Str "B-001");
         purchase "parks" "Retail" 2011 1 10 (Frame.Str "B-002") ]);
    ("PCardExpenses_201102.xls",
     Frame.Build Dataset.canonical
       [ purchase "parks" "Retail" 2011 2 30 (Frame.Str "B-003");
         purchase "fire" "Food" 2011 2 50 (Frame.Str "B-004");
         purchase "fire" "Retail" 2011 2 70 (Frame.Str "B-005") ]) ].

(** A stand-in for the category codes of pandas. *)
Definition zero_codes (col : list Frame.cell) : list Frame.cell :=
  map (λ _, Frame.Int 0) col.

Lemma unified_excludes_2010_witness :
  ∃ unified y,
    (Merger.main zero_codes reports []).2 = Ok unified
    ∧ Frame.loc "Year" unified = Ok y
    ∧ length (Frame.rows unified) = 4
    ∧ Frame.rows
        (Frame.where_ (λ r, bool_decide (Frame.at_ y r = Frame.Int 2010)) unified)
      = [].
Proof.
  destruct (Merger.main zero_codes reports []) as [tr [unified|e]] eqn:Hrun.
  - destruct (unified_excludes_2010 _ _ _ _ _ Hrun) as (td & y & _ & Hy & _ & Hnone).
    exists unified, y. split; [reflexivity|]. split; [exact Hy|].
    split; [|exact Hnone].
    clear Hy Hnone. vm_compute in Hrun. injection Hrun as _ <-. reflexivity.
  - vm_compute in Hrun. discriminate Hrun.
Defined.

(** ** The profile of a division *)

Lemma get_set_eq k v (p : Profile.dict) :
  Profile.get_item k (Profile.set_item k v p) = Some v.
Proof.
  induction p as [|[k' v'] p IH]; cbn.
  - by rewrite bool_decide_eq_true_2.
  - case_bool_decide; cbn.
    + by rewrite bool_decide_eq_true_2.
    + by rewrite bool_decide_eq_false_2.
Qed.

Lemma get_set_ne k k' v (p : Profile.dict) :
  k ≠ k' → Profile.get_item k (Profile.set_item k' v p) = Profile.get_item k p.
Proof.
  intros Hne. induction p as [|[k0 v0] p IH]; cbn.
  - by rewrite bool_decide_eq_false_2.
  - case_bool_decide as H0; cbn.
    + subst. by rewrite !bool_decide_eq_false_2.
    + by rewrite IH.
Qed.

(** [p'] is [p] after assignments to keys of [K]. *)
Inductive updated (K : list string) : Profile.dict → Profile.dict → Prop :=
  | updated_refl p : updated K p p
  | updated_set p p' k v :
      updated K p p' → k ∈ K → updated K p (Profile.set_item k v p').

Lemma updated_trans K p1 p2 p3 : updated K p1 p2 → updated K p2 p3 → updated K p1 p3.
Proof. intros H12 H23. induction H23; [done|]. constructor; auto. Qed.

Lemma updated_weaken K K' p p' : K ⊆ K' → updated K p p' → updated K' p p'.
Proof. intros HK H. induction H; constructor; auto. Qed.

Lemma updated_get K p p' k :
  updated K p p' → k ∉ K → Profile.get_item k p' = Profile.get_item k p.
Proof.
  intros H Hk. induction H as [|p p' k' v _ IH Hk']; [done|].
  rewrite get_set_ne; [done|]. by intros ->.
Qed.

(** The two loops of [Profile] that assign to the merchant keys: the
    seeding with 0 of [__init__] and the fractions of
    [__get_merchant_dist]; [text] is the text under which a merchant
    type enters its key. *)
Definition seed (text : Frame.cell → string) (profile : Profile.dict)
  (merchant : Frame.cell) : Profile.dict :=
  Profile.set_item (Profile.merchant_key (text merchant)) (Frame.Int 0) profile.

Definition assign_fraction (text : Frame.cell → string) (total : nat)
  (profile : Profile.dict) (r : Profile.summary) : Profile.dict :=
  Profile.set_item (Profile.merchant_key (text (Profile.group r)))
    (Frame.Float (Profile.of_nat (Profile.Count r) / Profile.of_nat total)%Qc)
    profile.

(** The text of a merchant type in the loop over the rows of the
    summary frame. *)
Definition row_text (repr : Frame.cell → string)
  (numeric_row : Frame.DataFrame → Frame.cell → Frame.cell)
  (merchants : list Frame.cell) (d : Frame.DataFrame) (v : Frame.cell) : string :=
  Profile.str repr (Profile.iterrows_value numeric_row merchants d v).

(** With a merchant type that is not a number among the categories, the
    rows are handed out as they are. *)
Lemma row_text_object repr numeric_row merchants d v :
  forallb Profile.is_number merchants = false →
  row_text repr numeric_row merchants d v = Profile.str repr v.
Proof. intros H. unfold row_text, Profile.iterrows_value. by rewrite H. Qed.

Definition counts_total (s : list Profile.summary) : nat :=
  foldr (λ r acc, Profile.Count r + acc) 0 s.

(** The keys [__init__] assigns after the two expenditure statistics and
    outside the loop over the merchants. *)
Definition later_keys : list string :=
  [ "Average Monthly Expenditure CV"; "Average Quarterly Expenditure CV";
    "Total Cost Centres"; "Count by Cost Centre Skew";
    "Count by Cost Centre Kurtosis"; "Total G/L Accounts";
    "Count by G/L Account Skew"; "Count by G/L Account Kurtosis";
    "Total Currencies"; "Total Merchants"; "Count by Merchant Skew";
    "Count by Merchant Kurtosis" ].

Lemma get_expenditures_inv label key d p p' :
  Profile.get_expenditures label key d p = Ok p' → updated [key] p p'.
Proof.
  unfold Profile.get_expenditures.
  destruct (Frame.column label d); [|done]. cbn.
  destruct (Frame.column "Transaction Amt." d); [|done]. cbn.
  destruct (rmap Profile.number _); [|done]. cbn.
  intros [= <-]. constructor; [constructor|apply list_elem_of_here].
Qed.

Lemma get_dist_inv label total sk ku d p p' :
  Profile.get_dist label total sk ku d p = Ok p' → updated [total; sk; ku] p p'.
Proof.
  unfold Profile.get_dist.
  destruct (Profile.summary_df label d); [|done]. cbn.
  intros [= <-].
  constructor; [constructor; [constructor; [constructor|]|]|]; set_solver.
Qed.

Lemma get_currencies_dist_inv d p p' :
  Profile.get_currencies_dist d p = Ok p' → updated ["Total Currencies"] p p'.
Proof.
  unfold Profile.get_currencies_dist.
  destruct (Frame.column "Original Currency" d); [|done]. cbn.
  destruct (Frame.column "Batch-Transaction ID" d); [|done]. cbn.
  intros [= <-]. constructor; [constructor|set_solver].
Qed.

Lemma get_merchant_dist_inv repr numeric_row merchants d p p' :
  Profile.get_merchant_dist repr numeric_row merchants d p = Ok p' →
  ∃ s pf,
    Profile.summary_df "Merchant Type" d = Ok s
    ∧ updated [ "Total Merchants"; "Count by Merchant Skew";
                "Count by Merchant Kurtosis" ] p pf
    ∧ p' = foldl (assign_fraction (row_text repr numeric_row merchants d)
                    (counts_total s)) pf s.
Proof.
  unfold Profile.get_merchant_dist.
  destruct (Profile.get_dist _ _ _ _ d p) as [pf|] eqn:Hpf; [|done]. cbn.
  destruct (Profile.summary_df "Merchant Type" d) as [s|]; [|done]. cbn.
  intros [= <-]. exists s, pf. split; [done|]. split; [by eapply get_dist_inv|done].
Qed.

(** An inclusion between two lists of literal keys. *)
Ltac solve_keys :=
  let k := fresh "k" in
  let Hk := fresh "Hk" in
  intros k Hk;
  repeat (apply elem_of_cons in Hk as [->|Hk]);
  [ (apply (bool_decide_unpack _); by vm_compute).. | by apply elem_of_nil in Hk ].

(** [__init__], taken apart: the seeded dictionary, the two expenditure
    statistics, the assignments to the other fixed keys, and the
    fractions of the merchant types. *)
Lemma init_inv repr numeric_row d division_name merchants profile :
  Profile.init repr numeric_row d division_name merchants = Ok profile →
  ∃ pf s cells amounts,
    Frame.column "Transaction Amt." d = Ok cells
    ∧ rmap Profile.number cells = Ok amounts
    ∧ updated later_keys
        (Profile.set_item "Stdev of Expenditure" (Profile.np_std amounts)
           (Profile.set_item "Average Expenditure" (Profile.np_average amounts)
              (foldl (seed (Profile.str repr)) [("Division", division_name)]
                 merchants)))
        pf
    ∧ Profile.summary_df "Merchant Type" d = Ok s
    ∧ profile = foldl (assign_fraction (row_text repr numeric_row merchants d)
                         (counts_total s)) pf s.
Proof.
  unfold Profile.init.
  change (foldl _ (Profile.set_item "Division" division_name []) merchants)
    with (foldl (seed (Profile.str repr)) [("Division", division_name)] merchants).
  set (p1 := foldl _ _ merchants).
  destruct (Frame.column "Transaction Amt." d) as [cells|] eqn:Hcells; [|done]. cbn.
  destruct (rmap Profile.number cells) as [amounts|] eqn:Hamounts; [|done]. cbn.
  destruct (Profile.get_expenditures "Year-Month" _ d _) as [p3|] eqn:H3; [|done]. cbn.
  destruct (Profile.get_expenditures "Quarter" _ d _) as [p4|] eqn:H4; [|done]. cbn.
  destruct (Profile.get_dist "Cost Centre / WBS Element" _ _ _ d _) as [p5|] eqn:H5;
    [|done]. cbn.
  destruct (Profile.get_dist "G/L Account" _ _ _ d _) as [p6|] eqn:H6; [|done]. cbn.
  destruct (Profile.get_currencies_dist d _) as [p7|] eqn:H7; [|done]. cbn.
  intros (s & pf & Hs & H8 & Hfold)%get_merchant_dist_inv.
  exists pf, s, cells, amounts. do 2 (split; [done|]). split; [|by split].
  apply get_expenditures_inv in H3, H4. apply get_dist_inv in H5, H6.
  apply get_currencies_dist_inv in H7.
  assert (∀ K p p', K ⊆ later_keys → updated K p p' → updated later_keys p p') as Hw.
  { intros K p p' HK. by apply updated_weaken. }
  eapply updated_trans; [|eapply Hw; [|exact H8]; solve_keys].
  eapply updated_trans; [|eapply Hw; [|exact H7]; solve_keys].
  eapply updated_trans; [|eapply Hw; [|exact H6]; solve_keys].
  eapply updated_trans; [|eapply Hw; [|exact H5]; solve_keys].
  eapply updated_trans; [|eapply Hw; [|exact H4]; solve_keys].
  eapply Hw; [|exact H3]. solve_keys.
Qed.

Lemma merchant_key_prefix m : String.prefix "Merchant_" (Profile.merchant_key m) = true.
Proof.
  unfold Profile.merchant_key. unfold String.append at 1. cbn.
  by destruct (m +:+ "_count").
Qed.

Lemma assign_fraction_get text total s k : ∀ p,
  String.prefix "Merchant_" k = false →
  Profile.get_item k (foldl (assign_fraction text total) p s) = Profile.get_item k p.
Proof.
  induction s as [|r s IH]; intros p Hk; cbn [foldl]; [done|].
  rewrite (IH _ Hk). apply get_set_ne.
  intros ->. by rewrite merchant_key_prefix in Hk.
Qed.

Lemma column_where label mask d :
  Frame.column label (Frame.where_ mask d)
  = (j ← Frame.loc label d; Ok (map (Frame.at_ j) (List.filter mask (Frame.rows d)))).
Proof. reflexivity. Qed.

(** The sum of the entries of a sample. *)
Fixpoint sample_sum (a : list Qc) : Qc :=
  match a with
  | [] => 0%Qc
  | x :: a' => (x + sample_sum a')%Qc
  end.

(** The arithmetic mean of a sample: the sum of its entries divided by
    their number. *)
Definition arithmetic_mean (a : list Qc) : Qc :=
  (sample_sum a / Qc_of_Z (Z.of_nat (length a)))%Qc.

(** The population variance of a sample: the mean of the squares of the
    deviations from the mean, the divisor being the size of the sample. *)
Definition population_variance (a : list Qc) : Qc :=
  arithmetic_mean (map (λ x, (x - arithmetic_mean a) * (x - arithmetic_mean a))%Qc a).

(** What [np.average] and [np.std] compute, against the two
    definitions. *)
Lemma sum_sample_sum (a : list Qc) : Profile.sum a = sample_sum a.
Proof. induction a as [|x a IH]; [done|]. cbn. by rewrite <- IH. Qed.

Lemma mean_arithmetic_mean (a : list Qc) : Profile.mean a = arithmetic_mean a.
Proof. unfold Profile.mean, arithmetic_mean. by rewrite sum_sample_sum. Qed.

Lemma np_average_spec (a : list Qc) :
  a ≠ [] → Profile.np_average a = Frame.Float (arithmetic_mean a).
Proof.
  destruct a; [done|]. intros _. cbn [Profile.np_average].
  by rewrite mean_arithmetic_mean.
Qed.

Lemma np_std_spec (a : list Qc) :
  a ≠ [] → Profile.np_std a = Frame.Sqrt (population_variance a).
Proof.
  destruct a as [|x a]; [done|]. intros _. cbn [Profile.np_std].
  unfold population_variance. by rewrite !mean_arithmetic_mean.
Qed.

(** C6. The profile of a division holds, under [Average Expenditure],
    the arithmetic mean of [Transaction Amt.] over exactly the rows of
    the unified table whose [Division] is that division, and under
    [Stdev of Expenditure] the population standard deviation of those
    amounts: the square root of their population variance. This holds
    of every profile that is built, whatever the merchant types of the
    table are and whatever texts the library prints for them. *)
Theorem division_profile_expenditure repr numeric_row d merchants division profile :
  Profile.division_profile repr numeric_row d merchants division = Ok profile →
  ∃ j a amounts,
    Frame.loc "Division" d = Ok j
    ∧ Frame.loc "Transaction Amt." d = Ok a
    ∧ rmap Profile.number
        (map (Frame.at_ a)
           (List.filter (λ r, bool_decide (Frame.at_ j r = division)) (Frame.rows d)))
      = Ok amounts
    ∧ (amounts ≠ [] →
       Profile.get_item "Average Expenditure" profile
       = Some (Frame.Float (arithmetic_mean amounts))
       ∧ Profile.get_item "Stdev of Expenditure" profile
         = Some (Frame.Sqrt (population_variance amounts))).
Proof.
  unfold Profile.division_profile, Profile.division_df.
  destruct (Profile.output_folder division); [|done]. cbn.
  destruct (Frame.loc "Division" d) as [j|] eqn:Hj; [|done]. cbn.
  intros (pf & s & cells & amounts & Hcells & Hamounts & Hpf & _ & ->)%init_inv.
  rewrite column_where in Hcells.
  destruct (Frame.loc "Transaction Amt." d) as [amt|] eqn:Ha; [|done].
  cbn in Hcells. injection Hcells as <-.
  exists j, amt, amounts. do 3 (split; [done|]). intros Hne. split.
  - rewrite (assign_fraction_get _ _ _ "Average Expenditure" _ eq_refl).
    rewrite (updated_get _ _ _ _ Hpf) by (apply (bool_decide_unpack _); by vm_compute).
    rewrite get_set_ne by discriminate. rewrite get_set_eq.
    by rewrite np_average_spec.
  - rewrite (assign_fraction_get _ _ _ "Stdev of Expenditure" _ eq_refl).
    rewrite (updated_get _ _ _ _ Hpf) by (apply (bool_decide_unpack _); by vm_compute).
    rewrite get_set_eq. by rewrite np_std_spec.
Qed.

(** *** The merchant keys of a profile *)

(** A key of the form [Merchant_*_count]. *)
Definition is_merchant_count (k : string) : bool :=
  String.prefix "Merchant_" k
  && (15 <=? String.length k)
  && String.eqb (String.substring (String.length k - 6) 6 k) "_count".

(** The values under the keys [Merchant_*_count], in the order of the
    dictionary. *)
Definition merchant_counts (p : Profile.dict) : list Frame.cell :=
  map snd (List.filter (λ kv, is_merchant_count kv.1) p).

Lemma substring_append (s t : string) n :
  String.substring (String.length s) n (s +:+ t) = String.substring 0 n t.
Proof. induction s as [|c s IH]; [done|]. destruct n; apply IH. Qed.

Lemma length_append (s t : string) :
  String.length (s +:+ t) = String.length s + String.length t.
Proof. induction s as [|c s IH]; cbn; [done|]. unfold String.append; fold String.append. cbn. by rewrite IH. Qed.

Lemma is_merchant_count_key m : is_merchant_count (Profile.merchant_key m) = true.
Proof.
  unfold is_merchant_count. rewrite merchant_key_prefix.
  unfold Profile.merchant_key. rewrite !length_append.
  change (String.length "Merchant_") with 9. change (String.length "_count") with 6.
  replace (9 + (String.length m + 6) - 6) with (9 + String.length m) by lia.
  replace (15 <=? 9 + (String.length m + 6)) with true
    by (symmetry; apply Nat.leb_le; lia).
  unfold String.append at 1. cbn [Nat.add String.substring].
  fold String.append. rewrite substring_append. done.
Qed.

Lemma merchant_key_inj : Inj (=) (=) Profile.merchant_key.
Proof.
  intros m1 m2 H. unfold Profile.merchant_key in H.
  apply String.app_inj in H.
  revert m2 H. induction m1 as [|c m1 IH]; intros [|c2 m2] H; try done.
  - unfold String.append in H; fold String.append in H.
    apply (f_equal String.length) in H. cbn in H. rewrite length_append in H.
    cbn in H. lia.
  - unfold String.append in H; fold String.append in H.
    apply (f_equal String.length) in H. cbn in H. rewrite length_append in H.
    cbn in H. lia.
  - unfold String.append in H; fold String.append in H.
    injection H as -> H. f_equal. by apply IH.
Qed.

(** *** Sums of rationals *)


Lemma of_nat_pos n : 0 < n → Profile.of_nat n ≠ 0%Qc.
Proof.
  intros Hn H. unfold Profile.of_nat in H. rewrite <- Z2Qc_inj_0 in H.
  apply Z2Qc_inj in H. lia.
Qed.




(** The number under a key, 0 when it is no number. *)
Definition value (c : Frame.cell) : Qc :=
  match Profile.number c with
  | Ok q => q
  | Raise _ => 0%Qc
  end.

(** The sum of the values under the merchant keys. *)
Definition msum (p : Profile.dict) : Qc :=
  Profile.sum (map value (merchant_counts p)).




Lemma msum_cons k v p :
  msum ((k, v) :: p) = if is_merchant_count k then (value v + msum p)%Qc else msum p.
Proof. unfold msum, merchant_counts. cbn [List.filter fst]. by destruct (is_merchant_count k). Qed.



Lemma msum_set_item_other k v p :
  is_merchant_count k = false → msum (Profile.set_item k v p) = msum p.
Proof.
  intros Hk. induction p as [|[k' v'] p IH].
  - cbn [Profile.set_item]. by rewrite msum_cons, Hk.
  - cbn [Profile.set_item]. case_bool_decide as Heq.
    + subst k'. by rewrite !msum_cons, Hk.
    + rewrite !msum_cons. by rewrite IH.
Qed.







(** *** The two loops over the merchant types *)

Lemma seed_fold_keeps text ms k : ∀ p,
  Profile.get_item k p = Some (Frame.Int 0) →
  Profile.get_item k (foldl (seed text) p ms) = Some (Frame.Int 0).
Proof.
  induction ms as [|c0 ms IH]; intros p Hk; [done|]. cbn [foldl].
  apply IH. unfold seed.
  destruct (decide (k = Profile.merchant_key (text c0))) as [->|Hne].
  - apply get_set_eq.
  - by rewrite get_set_ne.
Qed.

Lemma seed_fold_zero text ms c : ∀ p,
  c ∈ ms →
  Profile.get_item (Profile.merchant_key (text c)) (foldl (seed text) p ms)
  = Some (Frame.Int 0).
Proof.
  induction ms as [|c0 ms IH]; intros p Hc; [by apply elem_of_nil in Hc|].
  cbn [foldl]. apply elem_of_cons in Hc as [->|Hc].
  - apply seed_fold_keeps. apply get_set_eq.
  - by apply IH.
Qed.


Lemma fraction_fold_other text t s k : ∀ p,
  (∀ r, r ∈ s → Profile.merchant_key (text (Profile.group r)) ≠ k) →
  Profile.get_item k (foldl (assign_fraction text t) p s) = Profile.get_item k p.
Proof.
  induction s as [|r0 s IH]; intros p Hk; [done|]. cbn [foldl].
  rewrite IH.
  - apply get_set_ne. intros Heq. by apply (Hk r0 (list_elem_of_here _ _)).
  - intros r Hr. apply Hk. by apply list_elem_of_further.
Qed.

Lemma fraction_fold_present text t s : ∀ p r,
  NoDup (map (λ r, text (Profile.group r)) s) →
  r ∈ s →
  Profile.get_item (Profile.merchant_key (text (Profile.group r)))
    (foldl (assign_fraction text t) p s)
  = Some (Frame.Float (Profile.of_nat (Profile.Count r) / Profile.of_nat t)%Qc).
Proof.
  induction s as [|r0 s IH]; intros p r Hnd Hr; [by apply elem_of_nil in Hr|].
  cbn in Hnd. apply list.NoDup_cons in Hnd as [Hr0 Hnd].
  cbn [foldl]. apply elem_of_cons in Hr as [->|Hr].
  - rewrite fraction_fold_other; [apply get_set_eq|].
    intros r' Hr' Heq%merchant_key_inj. apply Hr0. rewrite <- Heq.
    by apply (list_elem_of_fmap_2 (λ r, text (Profile.group r))).
  - by apply IH.
Qed.


(** *** The summary frame of a categorical column *)

(** The number of the rows of group [k] that carry a transaction
    identifier: what pandas' [count] gives for the group. *)
Definition purchases (k : Frame.cell) (key batch : nat) (rs : list Frame.row) : nat :=
  length (List.filter
            (λ r, bool_decide (Frame.at_ key r = k) && negb (Frame.isna (Frame.at_ batch r)))
            rs).

(** The number of the rows that carry both a value in the column [key]
    and a transaction identifier. *)
Definition counted (key batch : nat) (rs : list Frame.row) : nat :=
  length (List.filter
            (λ r, negb (Frame.isna (Frame.at_ key r)) && negb (Frame.isna (Frame.at_ batch r)))
            rs).

Lemma insert_desc_perm x l : Profile.insert_desc x l ≡ₚ x :: l.
Proof.
  induction l as [|y l IH]; cbn; [done|].
  destruct (_ <=? _); [done|]. rewrite IH. apply Permutation_swap.
Qed.

Lemma sort_desc_perm l : Profile.sort_desc l ≡ₚ l.
Proof.
  induction l as [|x l IH]; cbn; [done|].
  rewrite insert_desc_perm. by rewrite IH.
Qed.

Lemma counts_total_perm s s' : s ≡ₚ s' → counts_total s = counts_total s'.
Proof.
  induction 1 as [|x l l' _ IH|x y l|l1 l2 l3 _ IH1 _ IH2]; cbn;
    unfold counts_total in *; try lia.
Qed.

Lemma counts_total_filter s :
  counts_total (List.filter (λ r, 0 <? Profile.Count r) s) = counts_total s.
Proof.
  induction s as [|r s IH]; [done|]. cbn [List.filter].
  destruct (0 <? Profile.Count r) eqn:E.
  - change (Profile.Count r + counts_total (List.filter (λ r, 0 <? Profile.Count r) s)
            = Profile.Count r + counts_total s). by rewrite IH.
  - apply Nat.ltb_ge in E. rewrite IH.
    change (counts_total s = Profile.Count r + counts_total s). lia.
Qed.

Lemma NoDup_map_filter {A B} (f : A → B) (P : A → bool) l :
  NoDup (map f l) → NoDup (map f (List.filter P l)).
Proof.
  induction l as [|a l IH]; cbn; [done|].
  intros [Ha Hl]%list.NoDup_cons. destruct (P a); cbn; [|by apply IH].
  apply list.NoDup_cons. split; [|by apply IH].
  intros (a' & Heq & [Ha' _]%list_elem_of_In%filter_In)%list_elem_of_fmap.
  apply Ha. rewrite Heq. apply list_elem_of_fmap_2. by apply list_elem_of_In.
Qed.

Lemma rmap_length {A B} (f : A → result B) l bs :
  rmap f l = Ok bs → length bs = length l.
Proof. intros H%rmap_inv. symmetry. by eapply Forall2_length. Qed.

(** The count of a group, read off the rows. *)
Lemma count_rows k key batch (rs : list Frame.row) : ∀ amounts : list Qc,
  length amounts = length rs →
  length (List.filter (λ p : Frame.cell * Qc, negb (Frame.isna p.1))
            (map snd
               (List.filter (λ p, bool_decide (p.1 = k))
                  (zip (map (Frame.at_ key) rs)
                       (zip (map (Frame.at_ batch) rs) amounts)))))
  = purchases k key batch rs.
Proof.
  unfold purchases.
  induction rs as [|r rs IH]; intros [|a amounts] Hlen; try done.
  cbn in Hlen. cbn [map zip zip_with List.filter fst].
  destruct (bool_decide (Frame.at_ key r = k)); cbn [andb map snd List.filter fst].
  - destruct (negb (Frame.isna (Frame.at_ batch r))); cbn [length];
      rewrite IH by lia; done.
  - apply IH. lia.
Qed.

Lemma filter_none {A} (P : A → bool) l :
  (∀ a, a ∈ l → P a = false) → List.filter P l = [].
Proof.
  induction l as [|a l IH]; intros H; cbn; [done|].
  rewrite (H a (list_elem_of_here _ _)). apply IH. intros a' Ha'. apply H.
  by apply list_elem_of_further.
Qed.

(** The groups partition the rows that have a key. *)
Lemma purchases_partition key batch (rs : list Frame.row) ks :
  NoDup ks →
  foldr (λ k acc, purchases k key batch rs + acc) 0 ks
  = length (List.filter
              (λ r, bool_decide (Frame.at_ key r ∈ ks)
                    && negb (Frame.isna (Frame.at_ batch r))) rs).
Proof.
  induction 1 as [|k ks Hk _ IH]; cbn [foldr].
  - rewrite filter_none; [done|]. intros r _.
    rewrite bool_decide_eq_false_2; [done|]. apply not_elem_of_nil.
  - rewrite IH. unfold purchases. clear IH.
    induction rs as [|r rs IHrs]; [done|]. cbn [List.filter].
    destruct (decide (Frame.at_ key r = k)) as [Heq|Hne].
    + rewrite (bool_decide_eq_true_2 _ Heq).
      rewrite (bool_decide_eq_true_2 (Frame.at_ key r ∈ k :: ks))
        by (rewrite Heq; apply list_elem_of_here).
      rewrite (bool_decide_eq_false_2 (Frame.at_ key r ∈ ks)) by (by rewrite Heq).
      cbn [andb]. destruct (negb _); cbn [length]; lia.
    + rewrite (bool_decide_eq_false_2 _ Hne). cbn [andb].
      assert (Frame.at_ key r ∈ k :: ks ↔ Frame.at_ key r ∈ ks) as Hiff.
      { rewrite elem_of_cons. split; [intros [?|?]; [done|done]|by right]. }
      apply (bool_decide_ext _ _) in Hiff. rewrite Hiff.
      destruct (_ && _); cbn [length]; lia.
Qed.

Lemma counts_total_map (c : Frame.cell → nat) (t a : Frame.cell → Qc) ks :
  counts_total (map (λ k, Profile.Summary k (c k) (t k) (a k)) ks)
  = foldr (λ k acc, c k + acc) 0 ks.
Proof. induction ks as [|k ks IH]; cbn; [done|]. unfold counts_total in IH. by rewrite IH. Qed.

Lemma agg_groups (key_col batch_col : list Frame.cell) (amounts : list Qc) :
  ∃ t a,
    Profile.agg key_col batch_col amounts
    = map (λ k, Profile.Summary k
                  (length (List.filter (λ p : Frame.cell * Qc, negb (Frame.isna p.1))
                             (map snd
                                (List.filter (λ p, bool_decide (p.1 = k))
                                   (zip key_col (zip batch_col amounts))))))
                  (t k) (a k))
          (remove_dups (List.filter (λ k, negb (Frame.isna k)) key_col)).
Proof.
  eexists (λ k, _), (λ k, _). unfold Profile.agg, Profile.groupby.
  rewrite map_map. reflexivity.
Qed.

Lemma purchases_pos k key batch rs :
  0 < purchases k key batch rs → k ∈ map (Frame.at_ key) rs.
Proof.
  unfold purchases. intros H.
  destruct (List.filter _ rs) as [|r l] eqn:E; [cbn in H; lia|].
  assert (In r (r :: l)) as Hr by (by left). rewrite <- E in Hr.
  apply filter_In in Hr as [Hr Hp]. apply andb_true_iff in Hp as [Hk _].
  apply bool_decide_eq_true_1 in Hk. subst k.
  apply list_elem_of_fmap_2. by apply list_elem_of_In.
Qed.

(** The summary frame of a column, described by the rows of the table:
    one row per value of the column that some transaction carries, with
    the number of these transactions as its count. *)
Lemma summary_df_spec label d s :
  Profile.summary_df label d = Ok s →
  ∃ key batch,
    Frame.loc label d = Ok key
    ∧ Frame.loc "Batch-Transaction ID" d = Ok batch
    ∧ NoDup (map Profile.group s)
    ∧ (∀ r, r ∈ s →
         0 < Profile.Count r
         ∧ Profile.Count r = purchases (Profile.group r) key batch (Frame.rows d))
    ∧ (∀ k, Frame.isna k = false → 0 < purchases k key batch (Frame.rows d) →
         ∃ r, r ∈ s ∧ Profile.group r = k)
    ∧ counts_total s = counted key batch (Frame.rows d)
    ∧ (∀ r, r ∈ s →
         Frame.isna (Profile.group r) = false
         ∧ Profile.group r ∈ map (Frame.at_ key) (Frame.rows d)).
Proof.
  unfold Profile.summary_df, Frame.column.
  destruct (Frame.loc label d) as [key|]; [|done]. cbn [mbind result_bind].
  destruct (Frame.loc "Batch-Transaction ID" d) as [batch|]; [|done].
  cbn [mbind result_bind].
  destruct (Frame.loc "Transaction Amt." d) as [amt|]; [|done].
  cbn [mbind result_bind].
  destruct (rmap Profile.number _) as [amounts|] eqn:Hamounts; [|done].
  cbn [mbind result_bind].
  intros [= <-]. exists key, batch. split; [done|]. split; [done|].
  apply rmap_length in Hamounts. rewrite length_map in Hamounts.
  set (rs := Frame.rows d) in *.
  set (ks := remove_dups (List.filter (λ k, negb (Frame.isna k)) (map (Frame.at_ key) rs))).
  destruct (agg_groups (map (Frame.at_ key) rs) (map (Frame.at_ batch) rs) amounts)
    as (t & a & Hagg).
  fold ks in Hagg.
  assert (Profile.agg (map (Frame.at_ key) rs) (map (Frame.at_ batch) rs) amounts
          = map (λ k, Profile.Summary k (purchases k key batch rs) (t k) (a k)) ks)
    as Hagg'.
  { rewrite Hagg. apply map_ext. intros k. f_equal. by apply count_rows. }
  clear Hagg. rewrite Hagg'. clear Hagg'.
  set (groups := map _ ks).
  assert (map Profile.group groups = ks) as Hgroups.
  { unfold groups. rewrite map_map. cbn. apply map_id. }
  assert (∀ k, k ∈ ks ↔ k ∈ map (Frame.at_ key) rs ∧ Frame.isna k = false) as Hks.
  { intros k. unfold ks. rewrite elem_of_remove_dups, list_elem_of_In, filter_In,
      <- list_elem_of_In, negb_true_iff. done. }
  assert (∀ r, r ∈ groups ↔
               ∃ k, k ∈ ks ∧ r = Profile.Summary k (purchases k key batch rs) (t k) (a k))
    as Hin.
  { intros r. unfold groups. rewrite list_elem_of_fmap. split.
    - intros (k & -> & Hk). by exists k.
    - intros (k & Hk & ->). by exists k. }
  split; [|split; [|split; [|split]]].
  - apply NoDup_map_filter. rewrite (sort_desc_perm groups), Hgroups.
    apply NoDup_remove_dups.
  - intros r [Hr Hpos%Nat.ltb_lt]%list_elem_of_In%filter_In.
    apply list_elem_of_In in Hr. rewrite (sort_desc_perm groups) in Hr.
    apply Hin in Hr as (k & _ & ->). done.
  - intros k Hna Hpos.
    exists (Profile.Summary k (purchases k key batch rs) (t k) (a k)). split; [|done].
    apply list_elem_of_In, filter_In. split; [|by apply Nat.ltb_lt].
    apply list_elem_of_In. rewrite (sort_desc_perm groups). apply Hin.
    exists k. split; [|done]. apply Hks. split; [|done]. by eapply purchases_pos.
  - rewrite counts_total_filter, (counts_total_perm _ _ (sort_desc_perm groups)).
    unfold groups. rewrite counts_total_map, purchases_partition
      by apply NoDup_remove_dups.
    unfold counted. f_equal. apply filter_ext_in. intros r Hr. f_equal.
    destruct (Frame.isna (Frame.at_ key r)) eqn:Hna; cbn.
    + apply bool_decide_eq_false_2. intros [_ ?]%Hks. congruence.
    + apply bool_decide_eq_true_2, Hks. split; [|done].
      apply list_elem_of_fmap_2. by apply list_elem_of_In.
  - intros r [Hr _]%list_elem_of_In%filter_In.
    apply list_elem_of_In in Hr. rewrite (sort_desc_perm groups) in Hr.
    apply Hin in Hr as (k & [? ?]%Hks & ->). done.
Qed.

Lemma elem_of_value_counts c col :
  c ∈ col → Frame.isna c = false → c ∈ Profile.value_counts col.
Proof.
  intros Hc Hna. unfold Profile.value_counts.
  set (groups := map _ (remove_dups _)).
  assert (map Profile.group (Profile.sort_desc groups) ≡ₚ map Profile.group groups) as ->
    by (by rewrite (sort_desc_perm groups)).
  unfold groups. rewrite map_map. cbn. rewrite map_id.
  rewrite elem_of_remove_dups, list_elem_of_In, filter_In, <- list_elem_of_In.
  by rewrite Hna.
Qed.

Lemma merchant_key_other k m :
  String.prefix "Merchant_" k = false → Profile.merchant_key m ≠ k.
Proof. intros Hk <-. by rewrite merchant_key_prefix in Hk. Qed.


Lemma later_keys_prefix :
  Forall (λ k, String.prefix "Merchant_" k = false) later_keys.
Proof. by repeat constructor. Qed.


(** A function that takes different values on the entries of a list
    is one-to-one on them. *)
Lemma NoDup_map_inj {A B} (f : A → B) (l : list A) x y :
  NoDup (map f l) → x ∈ l → y ∈ l → f x = f y → x = y.
Proof.
  induction l as [|a l IH]; intros Hnd Hx Hy Heq; [by apply elem_of_nil in Hx|].
  cbn in Hnd. apply list.NoDup_cons in Hnd as [Ha Hnd].
  apply elem_of_cons in Hx as [->|Hx]; apply elem_of_cons in Hy as [->|Hy].
  - done.
  - destruct Ha. rewrite Heq. by apply list_elem_of_fmap_2.
  - destruct Ha. rewrite <- Heq. by apply list_elem_of_fmap_2.
  - by apply IH.
Qed.

(** The merchant types of the rows of a division are merchant types of
    the table. *)
Lemma division_merchants (key : nat) (mask : Frame.row → bool) d merchant_col c :
  Frame.column "Merchant Type" d = Ok merchant_col →
  Frame.loc "Merchant Type" d = Ok key →
  Frame.isna c = false →
  c ∈ map (Frame.at_ key) (List.filter mask (Frame.rows d)) →
  c ∈ Profile.value_counts merchant_col.
Proof.
  intros Hcol Hkey Hna Hc. unfold Frame.column in Hcol. rewrite Hkey in Hcol.
  injection Hcol as <-. apply elem_of_value_counts; [|done].
  apply list_elem_of_fmap in Hc as (r & -> & [Hr _]%list_elem_of_In%filter_In).
  apply list_elem_of_fmap_2. by apply list_elem_of_In.
Qed.

(** ** The clustering script *)

(** The positions of the columns whose label is selected by [sel]. *)
Definition indices (sel : string → bool) (cols : list string) : list nat :=
  omap (λ p : nat * string, if sel p.2 then Some p.1 else None) (imap pair cols).

Lemma omap_cons' {A B} (F : A → option B) x l :
  omap F (x :: l) = match F x with Some y => y :: omap F l | None => omap F l end.
Proof. done. Qed.

Lemma indices_shift (sel : string → bool) (f : nat → string → nat * string)
  (g : nat → nat) cols :
  (∀ i c, f i c = (g i, c)) →
  omap (λ p : nat * string, if sel p.2 then Some p.1 else None) (imap f cols)
  = map g (indices sel cols).
Proof.
  revert f g. induction cols as [|c cols IH]; intros f g Hf; [done|].
  unfold indices. rewrite !imap_cons, Hf, !omap_cons'.
  rewrite (IH (f ∘ S) (g ∘ S)) by (intros; apply Hf).
  rewrite (IH (pair ∘ S : nat → string → nat * string) S) by done.
  cbn [fst snd]. destruct (sel c); cbn [map]; by rewrite map_map.
Qed.

Lemma indices_cons (sel : string → bool) c cols :
  indices sel (c :: cols) = (if sel c then [0] else []) ++ map S (indices sel cols).
Proof.
  unfold indices at 1. rewrite imap_cons, omap_cons'.
  rewrite (indices_shift sel (pair ∘ S : nat → string → nat * string) S) by done.
  cbn [fst snd]. by destruct (sel c).
Qed.

Lemma indices_lt (sel : string → bool) cols : Forall (λ j, j < length cols) (indices sel cols).
Proof.
  induction cols as [|c cols IH]; [constructor|]. rewrite indices_cons.
  apply Forall_app. split.
  - destruct (sel c); [|constructor]. constructor; [cbn; lia|constructor].
  - apply Forall_fmap. eapply list.Forall_impl; [exact IH|].
    intros j Hj. cbn in *. lia.
Qed.

Lemma indices_NoDup (sel : string → bool) cols : NoDup (indices sel cols).
Proof.
  induction cols as [|c cols IH]; [constructor|]. rewrite indices_cons.
  apply list.NoDup_app. split; [|split].
  - destruct (sel c); [|constructor]. apply NoDup_singleton.
  - intros j Hj (j' & -> & _)%list_elem_of_fmap.
    destruct (sel c); [|by apply elem_of_nil in Hj].
    by apply list_elem_of_singleton in Hj.
  - by apply (NoDup_fmap_2 S).
Qed.

Lemma indices_labels (sel : string → bool) cols :
  map (λ j, cols !!! j) (indices sel cols) = List.filter sel cols.
Proof.
  induction cols as [|c cols IH]; [done|]. rewrite indices_cons, map_app, map_map.
  assert (map (λ j, (c :: cols) !!! S j) (indices sel cols) = List.filter sel cols)
    as -> by (rewrite <- IH; reflexivity).
  cbn [List.filter]. by destruct (sel c).
Qed.

Lemma positions_indices label cols :
  Frame.positions label cols = indices (λ c, bool_decide (c = label)) cols.
Proof. done. Qed.

(** In a frame whose labels are all different, a label names one
    column. *)
Lemma positions_unique label cols j :
  NoDup cols → cols !! j = Some label → Frame.positions label cols = [j].
Proof.
  intros Hnd. revert j. induction Hnd as [|c cols Hc Hnd IH]; intros j Hj; [done|].
  rewrite positions_indices, indices_cons, <- positions_indices.
  destruct j as [|j]; cbn in Hj.
  - injection Hj as ->. rewrite bool_decide_eq_true_2 by done.
    by rewrite positions_nil.
  - rewrite bool_decide_eq_false_2.
    + by rewrite (IH j Hj).
    + intros ->. apply Hc. by eapply list_elem_of_lookup_2.
Qed.

(** The cell of a row under a label. *)
Definition under (cols : list string) (label : string) (r : Frame.row) : Frame.cell :=
  match Frame.positions label cols with
  | j :: _ => Frame.at_ j r
  | [] => Frame.NaN
  end.

Lemma at_map_at (ps : list nat) (r : Frame.row) i j :
  ps !! i = Some j → Frame.at_ i (map (λ j, Frame.at_ j r) ps) = Frame.at_ j r.
Proof.
  intros Hi. unfold Frame.at_ at 1. apply list_lookup_total_correct.
  by rewrite list_lookup_fmap, Hi.
Qed.

(** The sub-frame of the columns at valid positions, by labels. *)
Lemma take_under ps d :
  NoDup (Frame.columns d) →
  Forall (λ j, j < length (Frame.columns d)) ps →
  NoDup ps →
  let d' := Frame.take ps d in
  Frame.columns d' = map (λ j, Frame.columns d !!! j) ps
  ∧ NoDup (Frame.columns d')
  ∧ Forall2 (λ r r', ∀ l, l ∈ Frame.columns d' →
                          under (Frame.columns d') l r' = under (Frame.columns d) l r)
            (Frame.rows d) (Frame.rows d').
Proof.
  intros Hnd Hps Hnd' d'.
  assert (Frame.columns d' = map (λ j, Frame.columns d !!! j) ps) as Hcols.
  { unfold d', Frame.take. cbn [Frame.columns]. clear Hnd'.
    induction Hps as [|j ps Hj _ IH]; [done|]. rewrite omap_cons'.
    rewrite (list_lookup_lookup_total_lt _ _ Hj). cbn [map]. by rewrite IH. }
  assert (NoDup (Frame.columns d')) as Hnd''.
  { rewrite Hcols. apply NoDup_fmap_2_strong; [|done].
    intros j1 j2 Hj1 Hj2 Heq.
    pose proof (proj1 (list.Forall_forall _ _) Hps _ Hj1) as H1.
    pose proof (proj1 (list.Forall_forall _ _) Hps _ Hj2) as H2.
    apply list_lookup_lookup_total_lt in H1, H2.
    eapply NoDup_lookup; [exact Hnd|exact H1|]. by rewrite Heq. }
  split; [done|]. split; [done|].
  assert (Frame.rows d' = map (λ r, map (λ j, Frame.at_ j r) ps) (Frame.rows d))
    as -> by done.
  apply Forall2_fmap_r, Forall_Forall2_diag, list.Forall_forall.
  intros r _ l Hl. apply list_elem_of_lookup_1 in Hl as [i Hi].
  unfold under. rewrite (positions_unique _ _ _ Hnd'' Hi).
  rewrite Hcols, list_lookup_fmap in Hi.
  destruct (ps !! i) as [j|] eqn:Hj; [|done]. cbn in Hi. injection Hi as <-.
  rewrite (at_map_at _ _ _ _ Hj).
  assert (j < length (Frame.columns d)) as Hlt.
  { eapply (proj1 (list.Forall_forall _ _) Hps). by eapply list_elem_of_lookup_2. }
  by rewrite (positions_unique _ _ _ Hnd (list_lookup_lookup_total_lt _ _ Hlt)).
Qed.

Lemma omap_ext' {A B} (f g : A → option B) (l : list A) :
  (∀ x, f x = g x) → omap f l = omap g l.
Proof.
  intros H. induction l as [|x l IH]; [done|]. by rewrite !omap_cons', H, IH.
Qed.

Lemma drop_take labels d :
  Frame.drop labels d
  = Frame.take (indices (λ c, negb (bool_decide (c ∈ labels))) (Frame.columns d)) d.
Proof.
  unfold Frame.drop, indices. f_equal. apply omap_ext'.
  intros [i c]. cbn. by destruct (bool_decide _).
Qed.

(** [df[labels]] on a frame whose labels are all different, for
    different labels that are all there. *)
Lemma select_unique labels d :
  NoDup (Frame.columns d) → NoDup labels →
  Forall (λ l, l ∈ Frame.columns d) labels →
  ∃ ps, Frame.select labels d = Ok (Frame.take ps d)
        ∧ Forall (λ j, j < length (Frame.columns d)) ps
        ∧ NoDup ps
        ∧ map (λ j, Frame.columns d !!! j) ps = labels.
Proof.
  intros Hnd Hlabels Hin. unfold Frame.select.
  enough (∃ ps, rmap (λ l, match Frame.positions l (Frame.columns d) with
                           | [] => Raise (KeyError l)
                           | js => Ok js
                           end) labels = Ok (map (λ j, [j]) ps)
                ∧ Forall (λ j, j < length (Frame.columns d)) ps
                ∧ NoDup ps
                ∧ map (λ j, Frame.columns d !!! j) ps = labels)
    as (ps & -> & H1 & H2 & H3).
  { exists ps. cbn [mbind result_bind]. split; [|done]. do 2 f_equal.
    clear. induction ps as [|j ps IH]; [done|]. cbn. by rewrite IH. }
  induction Hin as [|l labels Hl _ IH].
  { exists []. split; [done|]. split; [constructor|]. split; [constructor|done]. }
  apply list.NoDup_cons in Hlabels as [Hl' Hlabels].
  destruct (IH Hlabels) as (ps & Hps & H1 & H2 & H3).
  apply list_elem_of_lookup_1 in Hl as [j Hj].
  exists (j :: ps). cbn [rmap]. rewrite (positions_unique _ _ _ Hnd Hj), Hps.
  split; [done|]. split; [|split].
  - constructor; [by eapply lookup_lt_Some|done].
  - apply list.NoDup_cons. split; [|done]. intros Hjps.
    apply Hl'. rewrite <- H3.
    rewrite <- (list_lookup_total_correct _ _ _ Hj).
    by apply (list_elem_of_fmap_2 (λ j, Frame.columns d !!! j)).
  - cbn [map]. by rewrite (list_lookup_total_correct _ _ _ Hj), H3.
Qed.

Lemma Forall2_compose {A B C} (R1 : A → B → Prop) (R2 : B → C → Prop) l1 l2 l3 :
  Forall2 R1 l1 l2 → Forall2 R2 l2 l3 →
  Forall2 (λ a c, ∃ b, R1 a b ∧ R2 b c) l1 l3.
Proof.
  intros H12. revert l3. induction H12 as [|a b l1 l2 Hab _ IH]; intros l3 H23.
  - inversion H23. constructor.
  - inversion H23 as [|? c ? l3' Hbc H23']; subst. constructor; [by exists b|].
    by apply IH.
Qed.

(** The four expenditure statistics among the features. *)
Definition expenditure_features : list string :=
  [ "Average Expenditure"; "Stdev of Expenditure";
    "Average Monthly Expenditure CV"; "Average Quarterly Expenditure CV" ].

Lemma expenditure_features_plain :
  Forall (λ l, Py.contains "Merchant" l = false ∧ l ≠ "Division") expenditure_features.
Proof. by repeat constructor. Qed.

Lemma NoDup_list_filter {A} (P : A → bool) (l : list A) :
  NoDup l → NoDup (List.filter P l).
Proof.
  induction 1 as [|a l Ha _ IH]; cbn; [constructor|].
  destruct (P a); [|done]. constructor; [|done].
  intros [Hin _]%list_elem_of_In%filter_In. by apply Ha, list_elem_of_In.
Qed.

(** C1, as the code has it. On a profile matrix whose labels are all
    different and include [Division] and the four expenditure
    statistics, the script hands to the clustering algorithm (with
    [min_cluster_size = 2]) the four expenditure statistics followed by
    every other column of the matrix, [Division] apart, whose label
    contains the text [Merchant]: the [Merchant_*_count] columns and
    also [Total Merchants], [Count by Merchant Skew] and [Count by
    Merchant Kurtosis]. Every cell of that frame is the cell of the
    profile matrix in the same row under the same label: no feature is
    rescaled. The labels the algorithm returns become the column
    [Clusters] of the profile matrix. *)
Theorem cluster_data_spec (hdbscan_labels : nat → Frame.DataFrame → list Frame.cell)
  (profile_df : Frame.DataFrame) :
  NoDup (Frame.columns profile_df) →
  "Division" ∈ Frame.columns profile_df →
  Forall (λ l, l ∈ Frame.columns profile_df) expenditure_features →
  ∃ data,
    Clustering.cluster_data profile_df = Ok data
    ∧ Frame.columns data
      = expenditure_features
        ++ List.filter (λ col, Py.contains "Merchant" col)
             (List.filter (λ c, negb (bool_decide (c ∈ ["Division"])))
                (Frame.columns profile_df))
    ∧ Forall2 (λ r r', ∀ l, l ∈ Frame.columns data →
                 under (Frame.columns data) l r' = under (Frame.columns profile_df) l r)
              (Frame.rows profile_df) (Frame.rows data)
    ∧ Clustering.main hdbscan_labels profile_df
      = if bool_decide ("Clusters" ∈ Frame.columns profile_df) then Raise NotModelled
        else Ok (Frame.append_values "Clusters" (hdbscan_labels 2 data) profile_df).
Proof.
  intros Hnd Hdiv Hfour.
  unfold Clustering.main, Clustering.cluster_data.
  rewrite bool_decide_eq_true_2 by done. rewrite drop_take.
  set (ps1 := indices _ (Frame.columns profile_df)).
  destruct (take_under ps1 profile_df Hnd (indices_lt _ _) (indices_NoDup _ _))
    as (Hcols1 & Hnd1 & HR1).
  unfold ps1 in Hcols1. rewrite indices_labels in Hcols1. fold ps1 in Hcols1.
  set (d1 := Frame.take ps1 profile_df) in *.
  assert (Forall (λ l, l ∈ Frame.columns d1) (Clustering.test_cols (Frame.columns d1)))
    as Hin.
  { unfold Clustering.test_cols. apply Forall_app. split.
    - apply list.Forall_forall. intros l Hl. rewrite Hcols1.
      apply list_elem_of_In, filter_In. split.
      + apply list_elem_of_In. by eapply (proj1 (list.Forall_forall _ _) Hfour).
      + destruct (proj1 (list.Forall_forall _ _) expenditure_features_plain l Hl)
          as [_ Hne].
        apply negb_true_iff, bool_decide_eq_false_2.
        by intros ->%list_elem_of_singleton.
    - apply list.Forall_forall. intros l [Hl _]%list_elem_of_In%filter_In.
      by apply list_elem_of_In. }
  assert (NoDup (Clustering.test_cols (Frame.columns d1))) as Hndl.
  { unfold Clustering.test_cols. apply list.NoDup_app. split; [|split].
    - apply (bool_decide_unpack _). by vm_compute.
    - intros l Hl [_ Hc]%list_elem_of_In%filter_In.
      destruct (proj1 (list.Forall_forall _ _) expenditure_features_plain l Hl)
        as [Hplain _].
      congruence.
    - by apply NoDup_list_filter. }
  destruct (select_unique _ d1 Hnd1 Hndl Hin) as (ps2 & -> & Hlt2 & Hnd2 & Hlabels).
  destruct (take_under ps2 d1 Hnd1 Hlt2 Hnd2) as (Hcols2 & _ & HR2).
  rewrite Hlabels in Hcols2.
  exists (Frame.take ps2 d1). split; [done|]. split; [|split].
  - rewrite Hcols2. unfold Clustering.test_cols. by rewrite Hcols1.
  - eapply list.Forall2_impl; [exact (Forall2_compose _ _ _ _ _ HR1 HR2)|].
    intros r r'' (r' & H1 & H2) l Hl. rewrite (H2 l Hl). apply H1.
    rewrite Hcols2 in Hl. by eapply (proj1 (list.Forall_forall _ _) Hin).
  - done.
Qed.


(** The unified table of the two sample reports and its profile
    matrix. *)
Definition sample_unified : Frame.DataFrame :=
  match (Merger.main zero_codes reports []).2 with
  | Ok d => d
  | Raise _ => Frame.empty
  end.

(** Stand-ins for the two functions of the library. The merchant
    types of the sample reports are text: neither is called on them. *)
Definition sample_repr (c : Frame.cell) : string := EmptyString.
Definition sample_row (d : Frame.DataFrame) (v : Frame.cell) : Frame.cell := v.

Definition sample_profiles : Frame.DataFrame :=
  match Profile.main sample_repr sample_row sample_unified with
  | Ok d => d
  | Raise _ => Frame.empty
  end.

(** A stand-in for the clustering algorithm: every division is noise. *)
Definition all_noise (min_cluster_size : nat) (d : Frame.DataFrame) : list Frame.cell :=
  map (λ _, Frame.Int (-1)) (Frame.rows d).

(** On the profile matrix of the sample reports the frame handed to the
    algorithm has these nine columns. *)
Lemma cluster_data_spec_witness :
  ∃ data,
    Clustering.cluster_data sample_profiles = Ok data
    ∧ Frame.columns data
      = [ "Average Expenditure"; "Stdev of Expenditure";
          "Average Monthly Expenditure CV"; "Average Quarterly Expenditure CV";
          "Merchant_Retail_count"; "Merchant_Food_count"; "Total Merchants";
          "Count by Merchant Skew"; "Count by Merchant Kurtosis" ].
Proof.
  destruct (cluster_data_spec all_noise sample_profiles)
    as (data & Hrun & Hcols & _).
  - apply (bool_decide_unpack _). by vm_compute.
  - apply (bool_decide_unpack _). by vm_compute.
  - apply (bool_decide_unpack _). by vm_compute.
  - exists data. split; [exact Hrun|]. rewrite Hcols. vm_compute. reflexivity.
Defined.

(** The features the claim names: the four expenditure statistics and
    the columns [Merchant_*_count]. *)
Definition claimed_features (cols : list string) : list string :=
  expenditure_features ++ List.filter is_merchant_count cols.

(** C1, as the claim words it: exactly the claimed features, each with
    mean zero. On the profile matrix of the sample reports the frame
    handed to the algorithm also has the column [Total Merchants], and
    its column [Average Expenditure] holds the raw means 20 and 60. *)
Lemma cluster_data_counterexample :
  ∃ data values amounts,
    Clustering.cluster_data sample_profiles = Ok data
    ∧ "Total Merchants" ∈ Frame.columns data
    ∧ ("Total Merchants" ∉ claimed_features (Frame.columns sample_profiles))
    ∧ Frame.column "Average Expenditure" data = Ok values
    ∧ rmap Profile.number values = Ok amounts
    ∧ arithmetic_mean amounts ≠ 0%Qc.
Proof.
  eexists _, _, _. split; [vm_compute; reflexivity|].
  split; [apply (bool_decide_unpack _); by vm_compute|].
  split; [apply (bool_decide_unpack _); by vm_compute|].
  split; [vm_compute; reflexivity|].
  split; [vm_compute; reflexivity|].
  intros H. apply (f_equal this) in H. vm_compute in H. discriminate H.
Qed.

(** The profile of the division Parks of the sample reports: its two
    purchases of 2011 are of 10 and of 30, their mean is 20 and their
    population variance 100. *)
Lemma division_profile_expenditure_witness :
  ∃ profile,
    Profile.division_profile sample_repr sample_row sample_unified
      [Frame.Str "Retail"; Frame.Str "Food"] (Frame.Str "Parks") = Ok profile
    ∧ Profile.get_item "Average Expenditure" profile
      = Some (Frame.Float (arithmetic_mean [Qc_of_Z 10; Qc_of_Z 30]))
    ∧ Profile.get_item "Stdev of Expenditure" profile
      = Some (Frame.Sqrt (population_variance [Qc_of_Z 10; Qc_of_Z 30]))
    ∧ arithmetic_mean [Qc_of_Z 10; Qc_of_Z 30] = Qc_of_Z 20
    ∧ population_variance [Qc_of_Z 10; Qc_of_Z 30] = Qc_of_Z 100.
Proof.
  destruct (Profile.division_profile sample_repr sample_row sample_unified
              [Frame.Str "Retail"; Frame.Str "Food"] (Frame.Str "Parks"))
    as [profile|e] eqn:Hrun; [|vm_compute in Hrun; discriminate Hrun].
  destruct (division_profile_expenditure _ _ _ _ _ _ Hrun)
    as (j & a & amounts & Hj & Ha & Hamounts & Hstats).
  assert (amounts = [Qc_of_Z 10; Qc_of_Z 30]) as ->.
  { vm_compute in Hj. injection Hj as <-. vm_compute in Ha. injection Ha as <-.
    vm_compute in Hamounts. injection Hamounts as <-.
    repeat f_equal; by apply Qc_is_canon. }
  exists profile. split; [reflexivity|].
  destruct Hstats as [Hmean Hstd]; [done|].
  split; [exact Hmean|]. split; [exact Hstd|].
  split; by apply Qc_is_canon.
Defined.


(** A purchase whose merchant type is any value. *)
Definition coded_purchase (division : string) (merchant : Frame.cell) (amount : Z)
  (batch : Frame.cell) : Frame.row :=
  <[13 := merchant]> (purchase division "STATIONERY" 2011 3 amount batch).



(** ** Normal forms of division names *)

Lemma to_lower_cased c : Py.is_cased (Py.to_lower c) = Py.is_cased c.
Proof. destruct c as [[] [] [] [] [] [] [] []]; vm_compute; reflexivity. Qed.

Lemma to_lower_idemp c : Py.to_lower (Py.to_lower c) = Py.to_lower c.
Proof. destruct c as [[] [] [] [] [] [] [] []]; vm_compute; reflexivity. Qed.

Lemma space_not_cased c : Py.is_space c = true → Py.is_cased c = false.
Proof. destruct c as [[] [] [] [] [] [] [] []]; vm_compute; congruence. Qed.

(** What [title] writes for a character, read after a cased or an
    uncased character. *)
Definition written (previous_is_cased : bool) (c : ascii) : string :=
  if previous_is_cased then String (Py.to_lower c) EmptyString else Py.to_title c.

Lemma title_from_cons b c s :
  Py.title_from b (String c s) = written b c +:+ Py.title_from (Py.is_cased c) s.
Proof. reflexivity. Qed.

(** Reading again what was written for a character gives it back, and
    leaves the reader after a character of the same kind. *)
Lemma title_from_written b c s :
  Py.title_from b (written b c +:+ s) = written b c +:+ Py.title_from (Py.is_cased c) s.
Proof. destruct c as [[] [] [] [] [] [] [] []], b; reflexivity. Qed.

(** A character that stands at the head of what is written for it is
    written as itself. *)
Lemma written_head b c s t : written b c +:+ s = String c t → written b c = String c EmptyString.
Proof.
  destruct c as [[] [] [] [] [] [] [] []], b; intros H;
    first [reflexivity | discriminate H].
Qed.

Lemma written_in_range b c :
  Py.has_title c = true → Forall (λ c', Py.has_title c' = true) (Py.chars (written b c)).
Proof.
  destruct c as [[] [] [] [] [] [] [] []], b; intros H;
    first [discriminate H | by repeat constructor].
Qed.

(** A string is in title case, read after a cased or an uncased
    character. *)
Definition in_title_case (previous_is_cased : bool) (s : string) : Prop :=
  Py.title_from previous_is_cased s = s.

Lemma title_from_in_title_case b s : in_title_case b (Py.title_from b s).
Proof.
  unfold in_title_case. revert b. induction s as [|c s IH]; intros b; [done|].
  by rewrite title_from_cons, title_from_written, IH.
Qed.

Lemma in_title_case_cons b c s :
  in_title_case b (String c s) →
  written b c = String c EmptyString ∧ in_title_case (Py.is_cased c) s.
Proof.
  unfold in_title_case. rewrite title_from_cons. intros H.
  pose proof (written_head _ _ _ _ H) as Hc. split; [done|].
  rewrite Hc in H. by injection H.
Qed.

Lemma lstrip_in_title_case s : in_title_case false s → in_title_case false (Py.lstrip s).
Proof.
  induction s as [|c s IH]; [done|]. intros H. cbn.
  destruct (Py.is_space c) eqn:Hc; [|done].
  apply IH. apply in_title_case_cons in H as [_ H].
  by rewrite (space_not_cased c Hc) in H.
Qed.

Lemma rstrip_in_title_case s : ∀ b, in_title_case b s → in_title_case b (Py.rstrip s).
Proof.
  induction s as [|c s IH]; [done|]. intros b [Hc H]%in_title_case_cons. cbn.
  pose proof (IH _ H) as IH'.
  destruct (Py.rstrip s) as [|c' t] eqn:Ht.
  - destruct (Py.is_space c); [done|].
    unfold in_title_case. by rewrite title_from_cons, Hc.
  - unfold in_title_case in *. by rewrite title_from_cons, Hc, IH'.
Qed.

(** The strings of the range stay in it. *)
Lemma chars_app (s t : string) : Py.chars (s +:+ t) = Py.chars s ++ Py.chars t.
Proof.
  unfold Py.chars. induction s as [|c s IH]; [done|].
  change (String c s +:+ t) with (String c (s +:+ t)). cbn. by rewrite IH.
Qed.

Lemma title_from_in_range b s : Py.in_range s → Py.in_range (Py.title_from b s).
Proof.
  unfold Py.in_range. revert b. induction s as [|c s IH]; intros b H; [done|].
  cbn in H. apply Forall_cons in H as [Hc H].
  rewrite title_from_cons, chars_app. apply Forall_app. split.
  - by apply written_in_range.
  - by apply IH.
Qed.

Lemma lstrip_in_range s : Py.in_range s → Py.in_range (Py.lstrip s).
Proof.
  unfold Py.in_range. induction s as [|c s IH]; [done|]. intros H. cbn.
  destruct (Py.is_space c); [|done]. apply IH. cbn in H. by apply Forall_cons in H as [_ H].
Qed.

Lemma rstrip_in_range s : Py.in_range s → Py.in_range (Py.rstrip s).
Proof.
  unfold Py.in_range. induction s as [|c s IH]; [done|]. intros H. cbn.
  cbn in H. apply Forall_cons in H as [Hc H]. specialize (IH H).
  destruct (Py.rstrip s) as [|c' t].
  - destruct (Py.is_space c); [constructor|]. by repeat constructor.
  - cbn. by constructor.
Qed.

(** White space at the ends of a string. *)
Definition starts_with_space (s : string) : Prop :=
  ∃ c t, s = String c t ∧ Py.is_space c = true.
Definition ends_with_space (s : string) : Prop :=
  ∃ t c, s = t +:+ String c EmptyString ∧ Py.is_space c = true.

Lemma lstrip_starts s : ¬ starts_with_space (Py.lstrip s).
Proof.
  induction s as [|c s IH]; cbn.
  - by intros (c & t & H & _).
  - destruct (Py.is_space c) eqn:Hc; [done|].
    intros (c' & t & [= <- <-] & Hc'). congruence.
Qed.

Lemma lstrip_id s : ¬ starts_with_space s → Py.lstrip s = s.
Proof.
  destruct s as [|c s]; [done|]. intros H. cbn.
  destruct (Py.is_space c) eqn:Hc; [|done]. destruct H. by exists c, s.
Qed.

Lemma rstrip_starts s : ¬ starts_with_space s → ¬ starts_with_space (Py.rstrip s).
Proof.
  destruct s as [|c s]; [done|]. intros H (c' & t & Heq & Hc'). apply H.
  exists c, s. split; [done|]. cbn in Heq.
  destruct (Py.rstrip s).
  - destruct (Py.is_space c) eqn:Hc; [done|]. injection Heq as <- <-. congruence.
  - by injection Heq as <- <-.
Qed.

Lemma rstrip_ends s : ¬ ends_with_space (Py.rstrip s).
Proof.
  induction s as [|c s IH]; cbn.
  - intros (t & c & H & _). by destruct t.
  - destruct (Py.rstrip s) as [|c' t'] eqn:Ht.
    + destruct (Py.is_space c) eqn:Hc.
      * intros (t & c0 & H & _). by destruct t.
      * intros (t & c0 & H & Hc0). destruct t as [|? t]; cbn in H.
        -- injection H as <-. congruence.
        -- injection H as _ H. by destruct t.
    + intros (t & c0 & H & Hc0). apply IH. destruct t as [|c1 t]; cbn in H.
      * done.
      * injection H as <- H. by exists t, c0.
Qed.

Lemma rstrip_id s : ¬ ends_with_space s → Py.rstrip s = s.
Proof.
  induction s as [|c s IH]; [done|]. intros H. cbn.
  rewrite IH.
  - destruct s as [|c' s']; [|done].
    destruct (Py.is_space c) eqn:Hc; [|done]. destruct H. by exists EmptyString, c.
  - intros (t & c0 & -> & Hc0). apply H. by exists (String c t), c0.
Qed.

(** X1. The normal form of a division name, [x.title().strip()], for a
    name of characters below U+0100 other than the micro sign and
    U+00FF (the two whose title-case forms lie above that range): it is
    a text of that kind again, it neither starts nor ends with white
    space, and normalizing it again gives it back, so that the names
    of the divisions are fixed points of the normalization. A cell
    that is not text has no normal form: the call raises
    [AttributeError]. *)
Theorem title_strip_normal (x : Frame.cell) :
  (∀ s, x = Frame.Str s → Py.in_range s) →
  match Dataset.title_strip x with
  | Ok v =>
      (∃ s, x = Frame.Str s)
      ∧ Dataset.title_strip v = Ok v
      ∧ ∃ s', v = Frame.Str s' ∧ Py.in_range s'
              ∧ ¬ starts_with_space s' ∧ ¬ ends_with_space s'
  | Raise e => e = AttributeError ∧ ∀ s, x ≠ Frame.Str s
  end.
Proof.
  intros Hrange.
  destruct x as [|s| | | | | |]; cbn; try (split; [done|]; intros s; discriminate).
  set (u := Py.strip (Py.title s)).
  assert (¬ starts_with_space u) as Hstart.
  { apply rstrip_starts, lstrip_starts. }
  assert (¬ ends_with_space u) as Hend by apply rstrip_ends.
  assert (in_title_case false u) as Htitle.
  { apply rstrip_in_title_case, lstrip_in_title_case, title_from_in_title_case. }
  assert (Py.in_range u) as Hu.
  { apply rstrip_in_range, lstrip_in_range, title_from_in_range. by apply Hrange. }
  split; [by exists s|]. split; [|by exists u].
  unfold Py.title. rewrite Htitle. unfold Py.strip.
  by rewrite (lstrip_id u Hstart), (rstrip_id u Hend).
Qed.

(** The name [montréal], between a no-break space and a tab. *)
Definition montreal : string :=
  String (ascii_of_nat 160)
    ("montr" +:+ String (ascii_of_nat 233) ("al" +:+ String (ascii_of_nat 9) EmptyString)).

Lemma title_strip_normal_witness :
  Dataset.title_strip (Frame.Str montreal)
  = Ok (Frame.Str ("Montr" +:+ String (ascii_of_nat 233) "al"))
  ∧ Dataset.title_strip (Frame.Str ("Montr" +:+ String (ascii_of_nat 233) "al"))
    = Ok (Frame.Str ("Montr" +:+ String (ascii_of_nat 233) "al")).
Proof.
  assert (∀ s, Frame.Str montreal = Frame.Str s → Py.in_range s) as Hrange.
  { intros s [= <-]. apply (bool_decide_unpack _). by vm_compute. }
  pose proof (title_strip_normal (Frame.Str montreal) Hrange) as H.
  assert (Dataset.title_strip (Frame.Str montreal)
          = Ok (Frame.Str ("Montr" +:+ String (ascii_of_nat 233) "al"))) as Hv
    by (vm_compute; reflexivity).
  rewrite Hv in H. split; [reflexivity|]. exact (proj1 (proj2 H)).
Defined.
(** ** The files the script reads *)

Lemma substring_all n s : String.length s ≤ n → String.substring 0 n s = s.
Proof.
  revert n. induction s as [|c s IH]; intros n H.
  - by destruct n.
  - destruct n as [|n]; cbn in *; [lia|]. rewrite IH; [done|lia].
Qed.

(** The last four characters of a name that ends with a short text end
    with that text. *)
Lemma last4_app stem t :
  String.length t ≤ 4 → ∃ w, Dataset.last4 (stem +:+ t) = w +:+ t.
Proof.
  intros Ht. induction stem as [|c stem IH].
  - exists EmptyString. unfold Dataset.last4.
    change (EmptyString +:+ t) with t.
    replace (String.length t - 4) with 0 by lia. by apply substring_all.
  - destruct IH as [w Hw]. unfold Dataset.last4 in *.
    change (String c stem +:+ t) with (String c (stem +:+ t)).
    cbn [String.length].
    destruct (le_lt_dec 4 (String.length (stem +:+ t))) as [Hge|Hlt].
    + exists w. replace (S (String.length (stem +:+ t)) - 4)
        with (S (String.length (stem +:+ t) - 4)) by lia.
      cbn. exact Hw.
    + exists (String c stem).
      replace (S (String.length (stem +:+ t)) - 4) with 0 by lia.
      apply substring_all.
      change (S (String.length (stem +:+ t)) ≤ 4). lia.
Qed.

Lemma lower_app a b : Py.lower (a +:+ b) = Py.lower a +:+ Py.lower b.
Proof.
  induction a as [|c a IH]; [done|].
  change (String c a +:+ b) with (String c (a +:+ b)). cbn [Py.lower].
  rewrite IH. reflexivity.
Qed.

Lemma prefix_app sub b : String.prefix sub (sub +:+ b) = true.
Proof.
  induction sub as [|c sub IH]; [by destruct b|].
  change (String c sub +:+ b) with (String c (sub +:+ b)). cbn [String.prefix].
  destruct (ascii_dec c c); [done|congruence].
Qed.

Lemma contains_app sub a b : Py.contains sub (a +:+ sub +:+ b) = true.
Proof.
  induction a as [|c a IH].
  - change (EmptyString +:+ sub +:+ b) with (sub +:+ b).
    pose proof (prefix_app sub b) as H.
    destruct (sub +:+ b); cbn [Py.contains]; by rewrite H.
  - change (String c a +:+ sub +:+ b) with (String c (a +:+ sub +:+ b)).
    cbn [Py.contains]. rewrite IH. apply orb_true_r.
Qed.

Lemma contains_short sub s :
  String.length s < String.length sub → Py.contains sub s = false.
Proof.
  revert sub. induction s as [|c s IH]; intros sub H.
  - destruct sub; [cbn in H; lia|done].
  - cbn [Py.contains]. rewrite IH by (cbn in H; lia).
    destruct sub as [|c' sub]; [cbn in H; lia|]. cbn.
    destruct (ascii_dec c' c); [|done].
    rewrite orb_false_r.
    assert (String.length s < String.length sub) as H' by (cbn in H; lia).
    clear -H'. revert s H'. induction sub as [|x sub IHs]; intros s H'.
    + cbn in H'. lia.
    + destruct s as [|y s]; [done|]. cbn. destruct (ascii_dec x y); [|done].
      apply IHs. cbn in H'. lia.
Qed.

Lemma length_lower s : String.length (Py.lower s) = String.length s.
Proof. induction s as [|c s IH]; [done|]. cbn. by rewrite IH. Qed.

Lemma length_last4 s : String.length (Dataset.last4 s) ≤ String.length s.
Proof.
  unfold Dataset.last4. generalize (String.length s - 4) as n. generalize 4 as m.
  induction s as [|c s IH]; intros m n.
  - destruct n, m; cbn; lia.
  - destruct n as [|n].
    + destruct m as [|m]; cbn; [lia|].
      specialize (IH m 0). destruct s; cbn in *; lia.
    + cbn. specialize (IH m n). lia.
Qed.

Definition extension_error : exn :=
  Exception "Error: Dataset loaded must be of extension type 'xls' or 'xlsx'.".

(** X2. The constructor accepts every file name that ends with [xls] in
    any letter case, alone or followed by one more character ([.xls],
    [.XLS], [.xlsx], and also [.xlsm] or a name with no dot before
    [xls]); the object then carries the name and the frame read, and no
    column names yet. A name of fewer than three characters is refused
    with the error about the extension. *)
Theorem init_accepts_xls (stem e : string) (loaded : Frame.DataFrame) :
  Py.lower e = "xls" →
  Dataset.init (stem +:+ e) loaded
  = Ok (Dataset.Object (stem +:+ e) loaded None)
  ∧ (∀ c, Dataset.init (stem +:+ e +:+ String c EmptyString) loaded
          = Ok (Dataset.Object (stem +:+ e +:+ String c EmptyString) loaded None))
  ∧ (∀ short, String.length short < 3 →
              Dataset.init short loaded = Raise extension_error).
Proof.
  intros He.
  assert (String.length e = 3) as Hlen by (by rewrite <- length_lower, He).
  split; [|split].
  - unfold Dataset.init.
    destruct (last4_app stem e) as [w ->]; [lia|].
    rewrite lower_app, He.
    by rewrite (contains_app "xls" (Py.lower w) EmptyString
                  : Py.contains "xls" (Py.lower w +:+ "xls") = true).
  - intros c. unfold Dataset.init.
    destruct (last4_app stem (e +:+ String c EmptyString)) as [w ->].
    { rewrite length_append. cbn. lia. }
    by rewrite !lower_app, He, contains_app.
  - intros short Hshort. unfold Dataset.init.
    rewrite contains_short; [done|].
    rewrite length_lower. pose proof (length_last4 short). cbn. lia.
Qed.

Lemma init_accepts_xls_witness :
  Dataset.init "PCardExpenses_201203_Final.XLS" Frame.empty
  = Ok (Dataset.Object "PCardExpenses_201203_Final.XLS" Frame.empty None).
Proof.
  exact (proj1 (init_accepts_xls "PCardExpenses_201203_Final." "XLS" Frame.empty
                  eq_refl)).
Defined.

(** X3. The constructor accepts exactly the files that the script lists:
    the test on the name is the same in both places, so the constructor
    never refuses a report of the loop, and every other file of the
    folder would be refused. *)
Theorem expense_reports_constructed (listing : list (string * Frame.DataFrame)) :
  Forall (λ f, Dataset.init f.1 f.2 = Ok (Dataset.Object f.1 f.2 None))
         (Merger.expense_reports listing)
  ∧ (∀ f, f ∈ listing → f ∉ Merger.expense_reports listing →
          Dataset.init f.1 f.2 = Raise extension_error).
Proof.
  unfold Merger.expense_reports. split.
  - apply list.Forall_forall. intros f [_ Hf]%list_elem_of_In%filter_In.
    unfold Dataset.init. by rewrite Hf.
  - intros f Hf Hnot. unfold Dataset.init.
    destruct (Py.contains "xls" (Py.lower (Dataset.last4 f.1))) eqn:E; [|done].
    destruct Hnot. apply list_elem_of_In, filter_In. split; [|done].
    by apply list_elem_of_In.
Qed.

(** ** The reconciliation, on any table *)

(** The label carries [unnamed], in any letter case. *)
Definition unnamed (col : string) : bool := Py.contains "unnamed" (Py.lower col).

(** The named columns of a report: their labels and their positions. *)
Definition named (cols : list string) : list string :=
  List.filter (λ c, negb (unnamed c)) cols.

(** The label of a column after the two exact renames. *)
Definition described (col : string) : string :=
  if bool_decide (col = "Long Text") then "G/L Account Description"
  else if bool_decide (col = "Exp Type Desc") then "G/L Account Description"
  else col.

(** The labels after the renames and the matching, before the repair by
    position. *)
Definition matched_labels (cols : list string) : list string :=
  map (matched Dataset.canonical) (map described (named cols)).

Lemma indices_ext_in (sel sel' : string → bool) cols :
  (∀ c, c ∈ cols → sel c = sel' c) → indices sel cols = indices sel' cols.
Proof.
  induction cols as [|c cols IH]; intros H; [done|].
  rewrite !indices_cons, H by apply list_elem_of_here.
  rewrite IH; [done|]. intros c' Hc'. apply H. by apply list_elem_of_further.
Qed.

Lemma take_columns ps d :
  Forall (λ j, j < length (Frame.columns d)) ps →
  Frame.columns (Frame.take ps d) = map (λ j, Frame.columns d !!! j) ps.
Proof.
  unfold Frame.take. cbn [Frame.columns].
  induction 1 as [|j ps Hj _ IH]; [done|]. rewrite omap_cons'.
  rewrite (list_lookup_lookup_total_lt _ _ Hj). cbn [map]. by rewrite IH.
Qed.

Lemma drop_unnamed_frame d :
  Frame.drop (List.filter unnamed (Frame.columns d)) d
  = Frame.take (indices (λ c, negb (unnamed c)) (Frame.columns d)) d.
Proof.
  rewrite drop_take. f_equal. apply indices_ext_in. intros c Hc. f_equal.
  destruct (unnamed c) eqn:E.
  - apply bool_decide_eq_true_2, list_elem_of_In, filter_In.
    split; [by apply list_elem_of_In|done].
  - apply bool_decide_eq_false_2. intros [_ H]%list_elem_of_In%filter_In. congruence.
Qed.

Lemma drop_unnamed_run name d names tr :
  Dataset.drop_unnamed (Dataset.State (Dataset.Object name d names) tr)
  = (Dataset.State
       (Dataset.Object name
          (Frame.take (indices (λ c, negb (unnamed c)) (Frame.columns d)) d) names) tr,
     Ok ()).
Proof.
  unfold Dataset.drop_unnamed, mbind, Dataset.M_bind, Dataset.get_df, Dataset.set_df.
  cbn [Dataset.self Dataset.df Dataset.file_name Dataset.column_names Dataset.trace].
  by rewrite <- drop_unnamed_frame.
Qed.

(** X4. The first step of [clean_data] always succeeds and prints
    nothing. It drops exactly the columns whose label carries [unnamed]
    in any letter case: the labels left are the other labels, in their
    order, none of them carries [unnamed], and each row keeps, in that
    order, its cells of the columns left. *)
Theorem drop_unnamed_spec (st : Dataset.state) :
  let d := Dataset.df (Dataset.self st) in
  ∃ d',
    Dataset.drop_unnamed st
    = (Dataset.State
         (Dataset.Object (Dataset.file_name (Dataset.self st)) d'
            (Dataset.column_names (Dataset.self st)))
         (Dataset.trace st), Ok ())
    ∧ Frame.columns d' = named (Frame.columns d)
    ∧ Forall (λ c, unnamed c = false) (Frame.columns d')
    ∧ Frame.rows d'
      = map (lay_out (indices (λ c, negb (unnamed c)) (Frame.columns d)))
            (Frame.rows d).
Proof.
  destruct st as [[name d names] tr]. cbn. eexists.
  split; [apply drop_unnamed_run|].
  rewrite take_columns by apply indices_lt. rewrite indices_labels.
  split; [done|]. split; [|done].
  apply list.Forall_forall. intros c [_ Hc]%list_elem_of_In%filter_In.
  by apply negb_true_iff.
Qed.

Lemma closest_match_canonical c :
  ∃ m, Matcher.closest_match c Dataset.canonical = Ok m ∧ m ∈ Dataset.canonical.
Proof. by apply closest_match_in. Qed.

Lemma matched_in_canonical c : matched Dataset.canonical c ∈ Dataset.canonical.
Proof.
  unfold matched. case_bool_decide as H; [done|].
  by destruct (closest_match_canonical c) as (m & -> & Hm).
Qed.

(** X5. The matching loop of [clean_data] always succeeds on the sixteen
    canonical names. It leaves the number of the columns, the rows and
    every canonical label as they are, and after it every column label
    is one of the sixteen canonical names: no column keeps a name of
    its own, so two raw columns that match the same name end up with
    the same label. *)
Theorem match_columns_all_canonical (st : Dataset.state) :
  Dataset.column_names (Dataset.self st) = Some Dataset.canonical →
  ∃ cols,
    Dataset.match_columns st = (with_columns cols st, Ok ())
    ∧ length cols = length (Frame.columns (Dataset.df (Dataset.self st)))
    ∧ Forall (λ c, c ∈ Dataset.canonical) cols
    ∧ ∀ k c, Frame.columns (Dataset.df (Dataset.self st)) !! k = Some c →
             c ∈ Dataset.canonical → cols !! k = Some c.
Proof.
  intros Hnames. assert (Dataset.canonical ≠ []) as Hne by done.
  eexists. split; [by apply match_columns_spec|].
  split; [by rewrite length_map|]. split.
  - apply Forall_fmap, list.Forall_forall. intros c _. apply matched_in_canonical.
  - intros k c Hk Hc. rewrite list_lookup_fmap, Hk. cbn.
    by rewrite matched_canonical.
Qed.

Lemma match_columns_all_canonical_witness :
  ∃ cols,
    Dataset.match_columns
      (state_of "PCardExpenses_201203_Final.xls"
         [ "Division"; "Transaction  Currency"; "Trx Date" ] []
         (Some Dataset.canonical) [])
    = (state_of "PCardExpenses_201203_Final.xls" cols [] (Some Dataset.canonical) [],
       Ok ())
    ∧ cols !! 0 = Some "Division".
Proof.
  destruct (match_columns_all_canonical
              (state_of "PCardExpenses_201203_Final.xls"
                 [ "Division"; "Transaction  Currency"; "Trx Date" ] []
                 (Some Dataset.canonical) []) eq_refl)
    as (cols & Hrun & _ & _ & Hkeep).
  exists cols. split; [exact Hrun|].
  apply (Hkeep 0 "Division" eq_refl).
  apply (bool_decide_unpack _). vm_compute. exact I.
Defined.

Lemma described_lookup c :
  default c (({[ "Long Text" := "G/L Account Description";
                 "Exp Type Desc" := "G/L Account Description" ]}
              : gmap string string) !! c)
  = described c.
Proof.
  unfold described. case_bool_decide as H1.
  - subst. by rewrite lookup_insert_eq.
  - rewrite lookup_insert_ne by done. case_bool_decide as H2.
    + subst. by rewrite lookup_singleton_eq.
    + by rewrite lookup_singleton_ne.
Qed.

(** The frame after the renames and the matching: the named columns
    under their matched labels. *)
Definition relabelled (d : Frame.DataFrame) : Frame.DataFrame :=
  Frame.Build (matched_labels (Frame.columns d))
    (map (lay_out (indices (λ c, negb (unnamed c)) (Frame.columns d)))
         (Frame.rows d)).

Lemma rename_descriptions_run name d names tr :
  Dataset.rename_descriptions (Dataset.State (Dataset.Object name d names) tr)
  = (Dataset.State
       (Dataset.Object name (Frame.Build (map described (Frame.columns d)) (Frame.rows d))
          names) tr, Ok ()).
Proof.
  unfold Dataset.rename_descriptions, mbind, Dataset.M_bind, Dataset.get_df,
    Dataset.set_df, Frame.rename.
  cbn [Dataset.self Dataset.df Dataset.file_name Dataset.column_names Dataset.trace].
  do 4 f_equal. apply map_ext. intros c. apply described_lookup.
Qed.

Lemma reconcile_steps name d names tr :
  Dataset.reconcile (Dataset.State (Dataset.Object name d names) tr)
  = (Dataset.repair_currency;; Dataset.subset_columns)
      (Dataset.State (Dataset.Object name (relabelled d) (Some Dataset.canonical)) tr).
Proof.
  unfold Dataset.reconcile.
  rewrite (bind_Ok _ _ _ _ _ (drop_unnamed_run _ _ _ _)).
  rewrite (bind_Ok _ _ _ _ _ (rename_descriptions_run _ _ _ _)).
  unfold mbind at 1, Dataset.M_bind at 1, Dataset.set_column_names at 1.
  cbn [Dataset.self Dataset.df Dataset.file_name Dataset.column_names Dataset.trace].
  erewrite bind_Ok; [|apply (match_columns_spec Dataset.canonical); done].
  unfold with_columns, relabelled, matched_labels.
  cbn [Dataset.self Dataset.df Dataset.file_name Dataset.column_names Dataset.trace
       Frame.columns Frame.rows].
  rewrite take_columns by apply indices_lt. by rewrite indices_labels.
Qed.

Lemma repair_currency_run name d names tr :
  Dataset.repair_currency (Dataset.State (Dataset.Object name d names) tr)
  = if bool_decide ("Transaction Currency" ∈ Frame.columns d)
    then (Dataset.State (Dataset.Object name d names) tr, Ok ())
    else match Frame.columns d !! 6 with
         | Some old =>
             (Dataset.State
                (Dataset.Object name
                   (Frame.Build (<[6 := "Transaction Currency"]> (Frame.columns d))
                      (Frame.rows d)) names)
                (tr ++ [Dataset.Printed
                          ("Modified: " +:+ old +:+ " to: Transaction Currency")]),
              Ok ())
         | None => (Dataset.State (Dataset.Object name d names) tr, Raise IndexError)
         end.
Proof.
  unfold Dataset.repair_currency, mbind, Dataset.M_bind, Dataset.get_df.
  cbn [Dataset.self Dataset.df].
  case_bool_decide as Hin; [done|].
  unfold Dataset.lift, Dataset.emit, Dataset.set_df, Frame.set_label.
  destruct (Frame.columns d !! 6) as [old|] eqn:Hold; [|done].
  cbn [Dataset.self Dataset.trace Dataset.df Dataset.file_name Dataset.column_names].
  rewrite bool_decide_eq_true_2; [done|]. by eapply lookup_lt_Some.
Qed.

Lemma subset_columns_run name d names tr :
  Dataset.subset_columns (Dataset.State (Dataset.Object name d (Some names)) tr)
  = match Frame.select names d with
    | Ok d' => (Dataset.State (Dataset.Object name d' (Some names)) tr, Ok ())
    | Raise e => (Dataset.State (Dataset.Object name d (Some names)) tr, Raise e)
    end.
Proof.
  unfold Dataset.subset_columns, mbind, Dataset.M_bind, Dataset.get_df,
    Dataset.get_column_names, Dataset.lift, Dataset.set_df.
  cbn [Dataset.self Dataset.df Dataset.column_names].
  by destruct (Frame.select names d).
Qed.

(** The labels after the repair by position. *)
Definition repaired (cols : list string) : list string :=
  if bool_decide ("Transaction Currency" ∈ cols) then cols
  else <[6 := "Transaction Currency"]> cols.

(** The reconciliation, case by case. *)
Lemma reconcile_run name d names tr :
  let d3 := relabelled d in
  let d4 := Frame.Build (repaired (Frame.columns d3)) (Frame.rows d3) in
  let tr' :=
    if bool_decide ("Transaction Currency" ∈ Frame.columns d3) then tr
    else match Frame.columns d3 !! 6 with
         | Some old =>
             tr ++ [Dataset.Printed
                      ("Modified: " +:+ old +:+ " to: Transaction Currency")]
         | None => tr
         end in
  Dataset.reconcile (Dataset.State (Dataset.Object name d names) tr)
  = if bool_decide (("Transaction Currency" ∉ Frame.columns d3)
                    ∧ length (Frame.columns d3) ≤ 6)
    then (Dataset.State (Dataset.Object name d3 (Some Dataset.canonical)) tr,
          Raise IndexError)
    else match Frame.select Dataset.canonical d4 with
         | Ok d' =>
             (Dataset.State (Dataset.Object name d' (Some Dataset.canonical)) tr', Ok ())
         | Raise e =>
             (Dataset.State (Dataset.Object name d4 (Some Dataset.canonical)) tr',
              Raise e)
         end.
Proof.
  intros d3 d4 tr'. rewrite reconcile_steps. fold d3.
  unfold mbind, Dataset.M_bind. rewrite repair_currency_run.
  unfold d4, tr', repaired.
  destruct (decide ("Transaction Currency" ∈ Frame.columns d3)) as [Hin|Hnin].
  - rewrite !(bool_decide_eq_true_2 _ Hin).
    rewrite bool_decide_eq_false_2 by (by intros [? _]).
    rewrite subset_columns_run. by destruct d3.
  - rewrite !(bool_decide_eq_false_2 _ Hnin).
    destruct (Frame.columns d3 !! 6) as [old|] eqn:Hold.
    + rewrite bool_decide_eq_false_2.
      * by rewrite subset_columns_run.
      * intros [_ Hlen]. apply lookup_lt_Some in Hold. lia.
    + rewrite bool_decide_eq_true_2; [done|].
      split; [done|]. by apply lookup_ge_None.
Qed.

(** [df[labels]], when every label is there and when one is not. *)
Lemma select_present labels d :
  Forall (λ l, l ∈ Frame.columns d) labels →
  Frame.select labels d
  = Ok (Frame.take (concat (map (λ l, Frame.positions l (Frame.columns d)) labels)) d).
Proof.
  intros H. unfold Frame.select.
  enough (rmap (λ l, match Frame.positions l (Frame.columns d) with
                     | [] => Raise (KeyError l)
                     | js => Ok js
                     end) labels
          = Ok (map (λ l, Frame.positions l (Frame.columns d)) labels)) as -> by done.
  induction H as [|l labels Hl _ IH]; [done|]. cbn [rmap map]. rewrite IH.
  apply list_elem_of_lookup_1 in Hl as [j Hj]. apply elem_of_positions in Hj.
  destruct (Frame.positions l (Frame.columns d)); [by apply elem_of_nil in Hj|done].
Qed.

Lemma select_missing labels d e :
  Frame.select labels d = Raise e →
  ∃ l, e = KeyError l ∧ l ∈ labels ∧ l ∉ Frame.columns d.
Proof.
  unfold Frame.select.
  match goal with
  | |- context [rmap ?g labels] => destruct (rmap g labels) as [ps|e'] eqn:Hps
  end; [done|].
  cbn. intros [= <-]. induction labels as [|l labels IH]; [done|].
  cbn [rmap] in Hps.
  destruct (Frame.positions l (Frame.columns d)) as [|j js] eqn:Hl.
  - cbn in Hps. injection Hps as <-. exists l. split; [done|].
    split; [apply list_elem_of_here|].
    intros [j Hj]%list_elem_of_lookup_1. apply elem_of_positions in Hj.
    rewrite Hl in Hj. by apply elem_of_nil in Hj.
  - cbn in Hps.
    match type of Hps with
    | context [rmap ?g labels] => destruct (rmap g labels) as [ps|e''] eqn:Hps'
    end; [done|].
    cbn in Hps. injection Hps as ->.
    destruct (IH eq_refl) as (l' & -> & Hl' & Hnin).
    exists l'. split; [done|]. split; [by apply list_elem_of_further|done].
Qed.

Lemma positions_cons label c cols :
  Frame.positions label (c :: cols)
  = (if bool_decide (c = label) then [0] else []) ++ map S (Frame.positions label cols).
Proof. by rewrite !positions_indices, indices_cons. Qed.

Lemma positions_lt label cols :
  Forall (λ j, j < length cols) (Frame.positions label cols).
Proof. rewrite positions_indices. apply indices_lt. Qed.

Lemma positions_labels label cols :
  map (λ j, cols !!! j) (Frame.positions label cols)
  = replicate (length (Frame.positions label cols)) label.
Proof.
  rewrite positions_indices, indices_labels.
  induction cols as [|c cols IH]; [done|]. rewrite indices_cons. cbn [List.filter].
  rewrite length_app, length_map. case_bool_decide as Hc.
  - subst. cbn. by rewrite IH.
  - cbn. by rewrite IH.
Qed.

(** The labels of [df[labels]]: each label as often as it occurs. *)
Lemma select_columns labels d d' :
  Frame.select labels d = Ok d' →
  Forall (λ l, 0 < length (Frame.positions l (Frame.columns d))) labels
  ∧ Frame.columns d'
    = flat_map (λ l, replicate (length (Frame.positions l (Frame.columns d))) l) labels
  ∧ well_formed d'.
Proof.
  intros Hsel.
  assert (Forall (λ l, l ∈ Frame.columns d) labels) as Hin.
  { apply list.Forall_forall. intros l Hl.
    destruct (decide (l ∈ Frame.columns d)) as [|Hnin]; [done|]. exfalso.
    unfold Frame.select in Hsel.
    match type of Hsel with
    | context [rmap ?g labels] => destruct (rmap g labels) as [ps|e'] eqn:Hps
    end; [|done].
    apply rmap_inv in Hps. clear Hsel.
    induction Hps as [|l0 js labels0 ps H0 _ IH]; [by apply elem_of_nil in Hl|].
    apply elem_of_cons in Hl as [->|Hl]; [|by apply IH].
    rewrite positions_nil in H0 by done. done. }
  rewrite (select_present _ _ Hin) in Hsel. injection Hsel as <-.
  split; [|split].
  - apply list.Forall_forall. intros l Hl.
    pose proof (proj1 (list.Forall_forall _ _) Hin l Hl) as [j Hj]%list_elem_of_lookup_1.
    apply elem_of_positions in Hj.
    destruct (Frame.positions l (Frame.columns d)); [by apply elem_of_nil in Hj|].
    cbn. lia.
  - rewrite take_columns.
    + clear Hin. induction labels as [|l labels IH]; [done|].
      cbn [map concat flat_map]. by rewrite map_app, positions_labels, IH.
    + apply Forall_concat, Forall_fmap, list.Forall_forall. intros l _.
      apply positions_lt.
  - unfold well_formed, Frame.take. cbn [Frame.columns Frame.rows].
    apply Forall_fmap, list.Forall_forall. intros r _. cbn.
    rewrite length_map.
    assert (∀ ps, Forall (λ j, j < length (Frame.columns d)) ps →
                  length ps = length (omap (λ j, Frame.columns d !! j) ps)) as Hlen.
    { induction 1 as [|j ps Hj _ IH]; [done|]. rewrite omap_cons'.
      rewrite (list_lookup_lookup_total_lt _ _ Hj). cbn. by rewrite IH. }
    apply Hlen, Forall_concat, Forall_fmap, list.Forall_forall. intros l _.
    apply positions_lt.
Qed.

Lemma length_flat_map_replicate (k : string → nat) (labels : list string) :
  length (flat_map (λ l, replicate (k l) l) labels)
  = foldr (λ l acc, k l + acc) 0 labels.
Proof.
  induction labels as [|l ls IH]; [done|]. cbn.
  by rewrite length_app, length_replicate, IH.
Qed.

(** The number of the columns that carry one of the labels. *)
Definition carried (labels cols : list string) : nat :=
  foldr (λ l acc, length (Frame.positions l cols) + acc) 0 labels.

Lemma carried_cons_other labels c cols :
  c ∉ labels → carried labels (c :: cols) = carried labels cols.
Proof.
  induction labels as [|l ls IH]; [done|].
  intros [Hne Hc]%not_elem_of_cons. unfold carried in *. cbn [foldr].
  rewrite positions_cons, length_app, length_map, IH by done.
  by rewrite bool_decide_eq_false_2.
Qed.

Lemma carried_cons labels c cols :
  NoDup labels → c ∈ labels → carried labels (c :: cols) = S (carried labels cols).
Proof.
  induction 1 as [|l ls Hl Hnd IH]; [by intros ?%elem_of_nil|].
  intros [->|Hc]%elem_of_cons; unfold carried in *; cbn [foldr];
    rewrite positions_cons, length_app, length_map.
  - rewrite bool_decide_eq_true_2 by done.
    fold (carried ls (l :: cols)). rewrite carried_cons_other by done.
    unfold carried. cbn. lia.
  - rewrite (IH Hc). rewrite bool_decide_eq_false_2; [cbn; lia|].
    by intros ->.
Qed.

(** Every column is selected once by distinct labels that cover the
    labels of the frame. *)
Lemma select_length (labels cols : list string) :
  NoDup labels → Forall (λ c, c ∈ labels) cols →
  length (flat_map (λ l, replicate (length (Frame.positions l cols)) l) labels)
  = length cols.
Proof.
  intros Hnd Hall. rewrite length_flat_map_replicate. fold (carried labels cols).
  induction Hall as [|c cols Hc _ IH].
  - unfold carried. clear. induction labels as [|l ls IH]; [done|]. cbn [foldr].
    by rewrite IH.
  - rewrite carried_cons by done. cbn [length]. by rewrite IH.
Qed.

Lemma matched_labels_canonical cols :
  Forall (λ c, c ∈ Dataset.canonical) (matched_labels cols).
Proof.
  unfold matched_labels. apply Forall_fmap, list.Forall_forall. intros c _.
  apply matched_in_canonical.
Qed.

Lemma length_matched_labels cols : length (matched_labels cols) = length (named cols).
Proof. unfold matched_labels. by rewrite !length_map. Qed.

Lemma repaired_canonical cols :
  Forall (λ c, c ∈ Dataset.canonical) cols →
  Forall (λ c, c ∈ Dataset.canonical) (repaired cols).
Proof.
  intros H. unfold repaired. case_bool_decide; [done|].
  apply Forall_insert; [done|]. apply (bool_decide_unpack _). by vm_compute.
Qed.

Lemma length_repaired cols : length (repaired cols) = length cols.
Proof. unfold repaired. case_bool_decide; [done|]. by rewrite length_insert. Qed.

Lemma canonical_NoDup : NoDup Dataset.canonical.
Proof. apply (bool_decide_unpack _). by vm_compute. Qed.

Lemma flat_map_once (k : string → nat) (labels : list string) :
  Forall (λ n, k n = 1) labels → flat_map (λ n, replicate (k n) n) labels = labels.
Proof. induction 1 as [|n ls Hn _ IH]; [done|]. cbn. by rewrite Hn, IH. Qed.

(** Sixteen columns that carry each canonical name at least once carry
    each name once. *)
Lemma canonical_once (k : string → nat) :
  (∀ n, n ∈ Dataset.canonical → 0 < k n) →
  length (flat_map (λ n, replicate (k n) n) Dataset.canonical) = 16 →
  flat_map (λ n, replicate (k n) n) Dataset.canonical = Dataset.canonical.
Proof.
  intros Hpos Hlen. apply flat_map_once.
  rewrite length_flat_map_replicate in Hlen.
  assert (Forall (λ n, 0 < k n) Dataset.canonical) as Hall
    by (by apply list.Forall_forall).
  unfold Dataset.canonical in *. cbn [foldr] in Hlen.
  repeat (apply Forall_cons_1 in Hall as [? Hall]).
  repeat constructor; lia.
Qed.

(** The reconciliation, when it succeeds. *)
Lemma reconcile_Ok (st st' : Dataset.state) :
  Dataset.reconcile st = (st', Ok ()) →
  let d := Dataset.df (Dataset.self st) in
  let d' := Dataset.df (Dataset.self st') in
  Dataset.file_name (Dataset.self st') = Dataset.file_name (Dataset.self st)
  ∧ Dataset.column_names (Dataset.self st') = Some Dataset.canonical
  ∧ (∃ k : string → nat,
       (∀ n, n ∈ Dataset.canonical → 0 < k n)
       ∧ Frame.columns d' = flat_map (λ n, replicate (k n) n) Dataset.canonical)
  ∧ length (Frame.columns d') = length (named (Frame.columns d))
  ∧ 16 ≤ length (named (Frame.columns d))
  ∧ (length (named (Frame.columns d)) = 16 → Frame.columns d' = Dataset.canonical)
  ∧ well_formed d'.
Proof.
  destruct st as [[name d names] tr]. rewrite reconcile_run. cbn zeta.
  case_bool_decide as Hshort; [done|].
  destruct (Frame.select _ _) as [d'|e] eqn:Hsel; [|done].
  intros [= <-].
  cbn [Dataset.self Dataset.df Dataset.file_name Dataset.column_names].
  apply select_columns in Hsel as (Hpos & Hcols & Hwf).
  cbn [Frame.columns relabelled] in Hpos, Hcols.
  set (cols4 := repaired (matched_labels (Frame.columns d))) in *.
  set (k := λ l, length (Frame.positions l cols4)) in *.
  assert (length (Frame.columns d') = length (named (Frame.columns d))) as Hlen.
  { rewrite Hcols. unfold k. rewrite select_length.
    - unfold cols4. by rewrite length_repaired, length_matched_labels.
    - apply canonical_NoDup.
    - apply repaired_canonical, matched_labels_canonical. }
  assert (∀ n, n ∈ Dataset.canonical → 0 < k n) as Hk
    by apply (proj1 (list.Forall_forall _ _) Hpos).
  split; [done|]. split; [done|]. split; [by exists k|]. split; [done|].
  split; [|split; [|done]].
  - rewrite <- Hlen, Hcols, length_flat_map_replicate.
    assert (Forall (λ n, 0 < k n) Dataset.canonical) as Hall
      by (by apply list.Forall_forall).
    unfold Dataset.canonical in *. cbn [foldr].
    repeat (apply Forall_cons_1 in Hall as [? Hall]).
    unfold k in *. cbn beta in *. lia.
  - intros H16. rewrite Hcols. apply canonical_once; [done|].
    by rewrite <- Hcols, Hlen.
Qed.

(** X6. When the reconciliation succeeds, the object carries the
    sixteen canonical names as its column names, and its frame has as
    many columns as the report has named columns: every column is
    labelled with a canonical name, every canonical name labels at
    least one column, and the columns come in canonical order, the
    columns that share a name side by side. So a report needs at least
    sixteen named columns, and with exactly sixteen the labels of the
    result are the canonical names, each once. Every row has one cell
    per column. *)
Theorem reconcile_postcondition (st st' : Dataset.state) :
  Dataset.reconcile st = (st', Ok ()) →
  let d := Dataset.df (Dataset.self st) in
  let d' := Dataset.df (Dataset.self st') in
  Dataset.file_name (Dataset.self st') = Dataset.file_name (Dataset.self st)
  ∧ Dataset.column_names (Dataset.self st') = Some Dataset.canonical
  ∧ (∃ k : string → nat,
       (∀ n, n ∈ Dataset.canonical → 0 < k n)
       ∧ Frame.columns d' = flat_map (λ n, replicate (k n) n) Dataset.canonical)
  ∧ length (Frame.columns d') = length (named (Frame.columns d))
  ∧ 16 ≤ length (named (Frame.columns d))
  ∧ (length (named (Frame.columns d)) = 16 → Frame.columns d' = Dataset.canonical)
  ∧ well_formed d'.
Proof. exact (reconcile_Ok st st'). Qed.

(** A report in a layout of its own: an unnamed first column, the
    description of the account under [Long Text], the other canonical
    names in another order. *)
Definition shuffled_report : Frame.DataFrame :=
  Frame.Build
    [ "Unnamed: 0"; "Batch-Transaction ID"; "Division"; "Transaction Date";
      "Card Posting Dt"; "Merchant Name"; "Transaction Amt.";
      "Transaction Currency"; "Original Amount"; "Original Currency";
      "G/L Account"; "Long Text"; "Cost Centre / WBS Element";
      "Cost Centre / WBS Element Description"; "Merchant Type";
      "Merchant Type Description"; "Purpose" ]
    [ [ Frame.NaN; Frame.Str "B-001"; Frame.Str "parks";
        Frame.Timestamp (Frame.Date 2011 3 14);
        Frame.Timestamp (Frame.Date 2011 3 16); Frame.Str "STAPLES"; Frame.Int 25;
        Frame.Str "CAD"; Frame.Int 25; Frame.Str "CAD"; Frame.Int 4500;
        Frame.Str "OFFICE SUPPLIES"; Frame.Str "CC100"; Frame.Str "ADMIN";
        Frame.Str "5943"; Frame.Str "STATIONERY STORES"; Frame.NaN ] ].

Lemma reconcile_postcondition_witness :
  ∃ st',
    Dataset.reconcile
      (Dataset.State (Dataset.Object "PCardExpenses_201103.xls" shuffled_report None) [])
    = (st', Ok ())
    ∧ Frame.columns (Dataset.df (Dataset.self st')) = Dataset.canonical.
Proof.
  destruct (Dataset.reconcile
              (Dataset.State
                 (Dataset.Object "PCardExpenses_201103.xls" shuffled_report None) []))
    as [st' [[]|e]] eqn:Hrun; [|vm_compute in Hrun; discriminate Hrun].
  exists st'. split; [reflexivity|].
  destruct (reconcile_postcondition _ _ Hrun) as (_ & _ & _ & _ & _ & H16 & _).
  apply H16. vm_compute. reflexivity.
Defined.

(** X7. The reconciliation raises in two ways only. It raises
    [IndexError] when, after the renames and the matching, no column is
    labelled [Transaction Currency] and the report has no column at
    position 6: at most six named columns. Otherwise it raises
    [KeyError] for a canonical name that no column carries after the
    matching and the repair by position. *)
Theorem reconcile_raises (st st' : Dataset.state) (e : exn) :
  Dataset.reconcile st = (st', Raise e) →
  let cols := Frame.columns (Dataset.df (Dataset.self st)) in
  (e = IndexError
   ∧ ("Transaction Currency" ∉ matched_labels cols)
   ∧ length (named cols) ≤ 6)
  ∨ (∃ n, e = KeyError n ∧ n ∈ Dataset.canonical
          ∧ n ∉ repaired (matched_labels cols)).
Proof.
  destruct st as [[name d names] tr]. rewrite reconcile_run. cbn zeta.
  cbn [Dataset.self Dataset.df Frame.columns relabelled].
  case_bool_decide as Hshort.
  - intros [= <- <-]. left. rewrite <- length_matched_labels. by destruct Hshort.
  - destruct (Frame.select _ _) as [d'|e'] eqn:Hsel; [done|].
    intros [= <- <-]. right. by apply select_missing in Hsel.
Qed.

Lemma reconcile_raises_witness :
  ∃ st',
    Dataset.reconcile
      (Dataset.State
         (Dataset.Object "PCardExpenses_201103.xls"
            (Frame.Build ["Division"; "Purpose"] []) None) [])
    = (st', Raise IndexError).
Proof.
  destruct (Dataset.reconcile
              (Dataset.State
                 (Dataset.Object "PCardExpenses_201103.xls"
                    (Frame.Build ["Division"; "Purpose"] []) None) []))
    as [st' [[]|e]] eqn:Hrun; [vm_compute in Hrun; discriminate Hrun|].
  exists st'. f_equal. f_equal.
  destruct (reconcile_raises _ _ _ Hrun) as [(-> & _)|(n & -> & _ & Hn)]; [done|].
  exfalso. vm_compute in Hrun. by injection Hrun as _ Hn'.
Defined.

Lemma described_canonical c : c ∈ Dataset.canonical → described c = c.
Proof.
  intros Hc. unfold described.
  rewrite !bool_decide_eq_false_2; [done|intros ->..];
    revert Hc; apply (bool_decide_unpack _); by vm_compute.
Qed.

Lemma matched_labels_id cols :
  Forall (λ c, c ∈ Dataset.canonical) (named cols) → matched_labels cols = named cols.
Proof.
  intros H. unfold matched_labels. rewrite map_map.
  rewrite <- (map_id (named cols)) at 2. apply map_ext_Forall.
  eapply list.Forall_impl; [exact H|]. intros c Hc. cbn beta.
  by rewrite described_canonical, matched_canonical.
Qed.

(** X8. The reconciliation puts the columns of a report in canonical
    order. On a report whose labels are all different and whose named
    columns are the sixteen canonical names in any order, with any
    number of unnamed columns among them, it succeeds and prints
    nothing; the labels of the result are the canonical names in
    canonical order, and every row keeps under each canonical name the
    cell it had under that name. *)
Theorem reconcile_reorders (st : Dataset.state) :
  let d := Dataset.df (Dataset.self st) in
  NoDup (Frame.columns d) →
  named (Frame.columns d) ≡ₚ Dataset.canonical →
  ∃ d',
    Dataset.reconcile st
    = (Dataset.State
         (Dataset.Object (Dataset.file_name (Dataset.self st)) d'
            (Some Dataset.canonical))
         (Dataset.trace st), Ok ())
    ∧ Frame.columns d' = Dataset.canonical
    ∧ Forall2 (λ r r', ∀ l, l ∈ Dataset.canonical →
                 under Dataset.canonical l r' = under (Frame.columns d) l r)
              (Frame.rows d) (Frame.rows d').
Proof.
  destruct st as [[name d names] tr]. cbn. intros Hnd Hperm.
  assert (Forall (λ c, c ∈ Dataset.canonical) (named (Frame.columns d))) as Hall.
  { apply list.Forall_forall. intros c Hc. by rewrite <- Hperm. }
  set (ps1 := indices (λ c, negb (unnamed c)) (Frame.columns d)).
  assert (relabelled d = Frame.take ps1 d) as Hd3.
  { unfold relabelled, Frame.take. rewrite (matched_labels_id _ Hall). f_equal.
    change (omap _ ps1) with (Frame.columns (Frame.take ps1 d)).
    rewrite take_columns by apply indices_lt. unfold ps1.
    by rewrite indices_labels. }
  destruct (take_under ps1 d Hnd (indices_lt _ _) (indices_NoDup _ _))
    as (Hcols1 & Hnd1 & HR1).
  unfold ps1 in Hcols1 at 2. rewrite indices_labels in Hcols1.
  fold (named (Frame.columns d)) in Hcols1.
  assert ("Transaction Currency" ∈ Frame.columns (relabelled d)) as Hcur.
  { rewrite Hd3, Hcols1, Hperm. apply (bool_decide_unpack _). by vm_compute. }
  destruct (select_unique Dataset.canonical (Frame.take ps1 d) Hnd1 canonical_NoDup)
    as (ps & Hsel & Hlt & Hndps & Hlabels).
  { apply list.Forall_forall. intros l Hl. by rewrite Hcols1, Hperm. }
  destruct (take_under ps (Frame.take ps1 d) Hnd1 Hlt Hndps) as (Hcols2 & _ & HR2).
  rewrite Hlabels in Hcols2.
  exists (Frame.take ps (Frame.take ps1 d)). split; [|split; [done|]].
  - rewrite reconcile_run. cbn zeta. unfold repaired.
    rewrite !(bool_decide_eq_true_2 _ Hcur).
    rewrite bool_decide_eq_false_2 by (by intros [? _]).
    replace (Frame.Build (Frame.columns (relabelled d)) (Frame.rows (relabelled d)))
      with (relabelled d) by (by destruct (relabelled d)).
    by rewrite Hd3, Hsel.
  - eapply list.Forall2_impl; [exact (Forall2_compose _ _ _ _ _ HR1 HR2)|].
    intros r r' (r1 & H1 & H2) l Hl. cbn beta in *.
    rewrite Hcols2 in H2. rewrite (H2 l Hl). apply H1.
    by rewrite Hcols1, Hperm.
Qed.

(** A report with an unnamed first column and the first two canonical
    columns in the other order. *)
Definition swapped_report : Frame.DataFrame :=
  Frame.Build
    ("Unnamed: 0" :: "Batch-Transaction ID" :: "Division"
     :: List.skipn 2 Dataset.canonical)
    [ Frame.NaN :: Frame.Str "B-001" :: Frame.Str "parks"
      :: List.skipn 2 (transaction Frame.NaN Frame.NaN) ].

Lemma reconcile_reorders_witness :
  ∃ d',
    (Dataset.reconcile
       (Dataset.State (Dataset.Object "PCardExpenses_201103.xls" swapped_report None)
          [])).2 = Ok ()
    ∧ Frame.columns d' = Dataset.canonical
    ∧ Forall2 (λ r r', ∀ l, l ∈ Dataset.canonical →
                 under Dataset.canonical l r'
                 = under (Frame.columns swapped_report) l r)
              (Frame.rows swapped_report) (Frame.rows d').
Proof.
  destruct (reconcile_reorders
              (Dataset.State
                 (Dataset.Object "PCardExpenses_201103.xls" swapped_report None) []))
    as (d' & Hrun & Hcols & Hrows).
  - apply (bool_decide_unpack _). by vm_compute.
  - change (named (Frame.columns swapped_report))
      with ("Batch-Transaction ID" :: "Division" :: List.skipn 2 Dataset.canonical).
    apply perm_swap.
  - exists d'. rewrite Hrun. split; [reflexivity|]. split; [exact Hcols|exact Hrows].
Defined.

(** ** Validation and imputation, further *)

(** X9. [validate_data] needs [clean_data] to have run: on an object
    whose column names are not bound yet it never returns. With a
    missing value in the frame it stops in the debugger and fails the
    first assertion, as after [clean_data]; with none it raises
    [AttributeError] on reading [self.column_names], and the object is
    left as it was. *)
Theorem validate_data_before_clean_data (st : Dataset.state) :
  Dataset.column_names (Dataset.self st) = None →
  let d := Dataset.df (Dataset.self st) in
  (has_missing d →
   ∃ nan_summary,
     Dataset.validate_data st
     = (Dataset.State (Dataset.self st) (Dataset.trace st ++ [Dataset.Breakpoint]),
        Raise (AssertionError
                 (NaN_exist (Dataset.file_name (Dataset.self st)) nan_summary))))
  ∧ (¬ has_missing d → Dataset.validate_data st = (st, Raise AttributeError)).
Proof.
  intros Hnames d. pose proof (total_isna_sum_pos d) as Htotal.
  unfold Dataset.validate_data.
  unfold mbind, Dataset.M_bind, Dataset.get_df, Dataset.get_file_name,
    Dataset.get_column_names, Dataset.assert, Dataset.emit, Dataset.lift, mret,
    Dataset.M_ret.
  fold d. split.
  - intros Hmiss%Htotal.
    destruct (Nat.ltb_spec 0 (Dataset.total (Frame.isna_sum d))) as [_|?]; [|lia].
    cbn [Dataset.self Dataset.trace].
    destruct (Nat.eqb_spec (Dataset.total (Frame.isna_sum d)) 0); [lia|].
    by eexists.
  - intros Hno.
    assert (Dataset.total (Frame.isna_sum d) = 0) as H0.
    { destruct (Dataset.total (Frame.isna_sum d)) as [|n] eqn:E; [done|].
      destruct Hno. apply Htotal. lia. }
    rewrite H0. cbn. by rewrite Hnames.
Qed.

Lemma validate_data_before_clean_data_witness :
  Dataset.validate_data
    (Dataset.State
       (Dataset.Object "PCardExpenses_201103.xls"
          (Frame.Build ["Division"] [[Frame.Str "Parks"]]) None) [])
  = (Dataset.State
       (Dataset.Object "PCardExpenses_201103.xls"
          (Frame.Build ["Division"] [[Frame.Str "Parks"]]) None) [],
     Raise AttributeError).
Proof.
  apply (validate_data_before_clean_data
           (Dataset.State
              (Dataset.Object "PCardExpenses_201103.xls"
                 (Frame.Build ["Division"] [[Frame.Str "Parks"]]) None) []) eq_refl).
  intros (j & label & r & Hj & Hr & Hna).
  apply list_elem_of_singleton in Hr as ->.
  destruct j as [|j]; [discriminate Hna|discriminate Hj].
Defined.

(** The columns that the imputation never writes to. *)
Definition untouched : list string :=
  [ "Batch-Transaction ID"; "Card Posting Dt"; "Merchant Name";
    "Transaction Amt."; "Transaction Currency"; "Original Amount";
    "Original Currency"; "G/L Account"; "G/L Account Description";
    "Merchant Type Description" ].

(** What the imputation makes of the cells of one row, by the labels
    of the columns. *)
Definition imputed_cells (name : string) (r r' : Frame.row) : Prop :=
  let old l := under Dataset.canonical l r in
  let new l := under (Dataset.canonical ++ ["Source"]) l r' in
  new "Source" = Frame.Str name
  ∧ (∀ l, l ∈ untouched → new l = old l)
  ∧ (∀ l, l ∈ Dataset.canonical → l ≠ "Division" →
          Frame.isna (old l) = false → new l = old l)
  ∧ (Frame.isna (old "Purpose") = true → new "Purpose" = Frame.Str "")
  ∧ (Frame.isna (old "Transaction Date") = true →
     new "Transaction Date" = old "Card Posting Dt")
  ∧ (∀ l, l ∈ [ "Cost Centre / WBS Element";
                "Cost Centre / WBS Element Description"; "Merchant Type" ] →
          Frame.isna (old l) = true → new l = Frame.Str "MISSING")
  ∧ (∀ l, l ∈ Dataset.canonical ++ ["Source"] → Frame.isna (new l) = true →
          (l ∈ untouched ∧ Frame.isna (old l) = true)
          ∨ (l = "Transaction Date" ∧ Frame.isna (old "Transaction Date") = true
             ∧ Frame.isna (old "Card Posting Dt") = true)).

Definition fill_MISSING (c : Frame.cell) : Frame.cell :=
  if Frame.isna c then Frame.Str "MISSING" else c.

(** The imputed row, cell by cell. *)
Lemma titled_filled_cells name c0 c1 c2 c3 c4 c5 c6 c7 c8 c9 c10 c11 c12 c13 c14 c15 :
  c0 = Frame.NaN ∨ (∃ s, c0 = Frame.Str s) →
  titled (filled name [c0; c1; c2; c3; c4; c5; c6; c7; c8; c9; c10; c11; c12; c13;
                       c14; c15])
  = Ok [ match c0 with
         | Frame.Str s => Frame.Str (Py.strip (Py.title s))
         | _ => Frame.Str "Missing"
         end;
         c1; (if Frame.isna c2 then c3 else c2); c3; c4; c5; c6; c7; c8; c9; c10;
         fill_MISSING c11; fill_MISSING c12; fill_MISSING c13; c14;
         (if Frame.isna c15 then Frame.Str "" else c15); Frame.Str name ].
Proof.
  unfold titled, filled, fill, fill_MISSING, Division.
  intros [->|[s ->]];
    repeat (cbn;
            match goal with
            | |- context [Frame.isna ?c] => is_var c; destruct (Frame.isna c)
            end);
    reflexivity.
Qed.

(** The cases of a label among literal labels. *)
Ltac each_label H :=
  repeat (apply elem_of_cons in H as [->|H]); [..|by apply elem_of_nil in H].

(** The cell of a literal row under a literal label. *)
Ltac cell_under :=
  repeat match goal with
         | |- context [under ?cols ?l ?r] =>
             let v := eval vm_compute in (under cols l r) in
             change (under cols l r) with v
         end.

(** Whether the cells that the goal looks at are missing. *)
Ltac missing_or_not :=
  unfold fill_MISSING, Frame.isna;
  repeat match goal with
         | |- context [match ?c with Frame.NaN => _ | _ => _ end] =>
             is_var c; destruct c
         end;
  try discriminate; try reflexivity.

Lemma titled_filled_imputed name (r : Frame.row) :
  length r = 16 →
  Frame.at_ Division r = Frame.NaN ∨ (∃ s, Frame.at_ Division r = Frame.Str s) →
  ∃ r', titled (filled name r) = Ok r' ∧ imputed_cells name r r'.
Proof.
  intros Hlen Hdiv.
  destruct r as [|c0 [|c1 [|c2 [|c3 [|c4 [|c5 [|c6 [|c7 [|c8 [|c9 [|c10 [|c11 [|c12
    [|c13 [|c14 [|c15 [|]]]]]]]]]]]]]]]]]; try done.
  cbn in Hdiv. eexists. split; [by apply titled_filled_cells|].
  set (division := match c0 with Frame.Str _ => _ | _ => _ end).
  assert (Frame.isna division = false) as Hnew
    by (by destruct Hdiv as [->|[s ->]]).
  clearbody division. clear Hdiv Hlen.
  unfold imputed_cells, untouched. cbv zeta.
  split; [reflexivity|].
  split; [intros l Hl; each_label Hl; reflexivity|].
  split.
  { intros l Hl Hne. unfold Dataset.canonical in Hl.
    each_label Hl; try done; cell_under; missing_or_not. }
  split; [cell_under; missing_or_not|].
  split; [cell_under; missing_or_not|].
  split; [intros l Hl; each_label Hl; cell_under; missing_or_not|].
  intros l Hl. unfold Dataset.canonical in Hl. cbn [app] in Hl.
  each_label Hl; cell_under.
  all: try (intros H; left; split; [|exact H];
            repeat first [apply list_elem_of_here | apply list_elem_of_further];
            fail).
  all: try (by rewrite Hnew).
  all: missing_or_not.
  intros _. by right.
Qed.

(** X10. The imputation writes to missing cells only, the division
    apart. On a reconciled table (the sixteen canonical columns, one
    cell per column) whose divisions are missing or text it succeeds,
    and in every row that survives: the new column [Source] holds the
    name of the file; ten columns are never written to; a cell that is
    present is left as it is in every column but [Division]; a missing
    [Purpose] becomes the empty text, a missing [Transaction Date] the
    [Card Posting Dt] of the row, a missing cost centre, cost centre
    description or merchant type the text [MISSING]. So a value can be
    missing afterwards only where it was missing in one of the ten
    columns, or in [Transaction Date] when the row has no
    [Card Posting Dt] either. *)
Theorem impute_fills_missing_only (st : Dataset.state) :
  Frame.columns (Dataset.df (Dataset.self st)) = Dataset.canonical →
  Forall (λ r, length r = 16) (Frame.rows (Dataset.df (Dataset.self st))) →
  Forall (λ r, Frame.at_ Division r = Frame.NaN
               ∨ ∃ s, Frame.at_ Division r = Frame.Str s)
         (Frame.rows (Dataset.df (Dataset.self st))) →
  ∃ rs',
    Dataset.impute st
    = (state_of (Dataset.file_name (Dataset.self st))
         (Dataset.canonical ++ ["Source"]) rs'
         (Dataset.column_names (Dataset.self st)) (Dataset.trace st), Ok ())
    ∧ Forall2 (imputed_cells (Dataset.file_name (Dataset.self st)))
        (List.filter survives (Frame.rows (Dataset.df (Dataset.self st)))) rs'.
Proof.
  destruct st as [[name [cols rs] names] tr]. cbn. intros -> Hlen Hdiv.
  change (Dataset.State _ _) with (state_of name Dataset.canonical rs names tr).
  rewrite impute_run. rewrite rmap_map.
  destruct (rmap_Forall2 (λ r, titled (filled name r)) (imputed_cells name)
              (List.filter survives rs)) as (rs' & -> & HR).
  - apply list.Forall_forall. intros r Hr%list_elem_of_In%filter_In.
    destruct Hr as [Hr%list_elem_of_In _].
    apply titled_filled_imputed.
    + by eapply (proj1 (list.Forall_forall _ _) Hlen).
    + by eapply (proj1 (list.Forall_forall _ _) Hdiv).
  - by exists rs'.
Qed.

Lemma impute_fills_missing_only_witness :
  let st := state_of "PCardExpenses_201103.xls" Dataset.canonical
              [ transaction Frame.NaN (Frame.Str "B-001");
                transaction Frame.NaN Frame.NaN ] None [] in
  ∃ rs', (Dataset.impute st).2 = Ok ()
         ∧ Forall2 (imputed_cells "PCardExpenses_201103.xls")
             [transaction Frame.NaN (Frame.Str "B-001")] rs'.
Proof.
  intros st.
  destruct (impute_fills_missing_only st eq_refl) as (rs' & Hrun & HR).
  - repeat constructor.
  - repeat constructor.
  - exists rs'. rewrite Hrun. split; [reflexivity|exact HR].
Defined.

(** ** A report that is cleaned and validated *)

Lemma bind_inv {A B} (m : Dataset.M A) (k : A → Dataset.M B) st st' b :
  (m ≫= k) st = (st', Ok b) → ∃ st1 a, m st = (st1, Ok a) ∧ k a st1 = (st', Ok b).
Proof.
  unfold mbind, Dataset.M_bind. destruct (m st) as [st1 [a|e]]; [|done].
  intros H. by exists st1, a.
Qed.

(** A step that leaves the column labels, the file name, the column
    names and the printed lines as they are. *)
Definition keeps_labels (st st' : Dataset.state) : Prop :=
  Dataset.file_name (Dataset.self st') = Dataset.file_name (Dataset.self st)
  ∧ Dataset.column_names (Dataset.self st') = Dataset.column_names (Dataset.self st)
  ∧ Dataset.trace st' = Dataset.trace st
  ∧ Frame.columns (Dataset.df (Dataset.self st'))
    = Frame.columns (Dataset.df (Dataset.self st)).

Lemma keeps_labels_trans st1 st2 st3 :
  keeps_labels st1 st2 → keeps_labels st2 st3 → keeps_labels st1 st3.
Proof. unfold keeps_labels. intros (?&?&?&?) (?&?&?&?). repeat split; congruence. Qed.

Lemma drop_subtotals_keeps st st' :
  Dataset.drop_subtotals st = (st', Ok ()) → keeps_labels st st'.
Proof.
  unfold Dataset.drop_subtotals, mbind, Dataset.M_bind, Dataset.get_df, Dataset.lift,
    Dataset.set_df.
  destruct (Frame.loc "Division" _); [|done].
  destruct (Frame.loc "Batch-Transaction ID" _); [|done].
  by intros [= <-].
Qed.

Lemma blank_purpose_keeps st st' :
  Dataset.blank_purpose st = (st', Ok ()) → keeps_labels st st'.
Proof.
  unfold Dataset.blank_purpose, mbind, Dataset.M_bind, Dataset.get_df, Dataset.lift,
    Dataset.set_df.
  destruct (Frame.loc "Purpose" _); [|done]. by intros [= <-].
Qed.

Lemma fill_transaction_date_keeps st st' :
  Dataset.fill_transaction_date st = (st', Ok ()) → keeps_labels st st'.
Proof.
  unfold Dataset.fill_transaction_date, mbind, Dataset.M_bind, Dataset.get_df,
    Dataset.lift, Dataset.set_df.
  destruct (Frame.loc "Transaction Date" _); [|done].
  destruct (Frame.loc "Card Posting Dt" _); [|done].
  by intros [= <-].
Qed.

Lemma fill_missing_keeps column_name st st' :
  Dataset.fill_missing column_name st = (st', Ok ()) → keeps_labels st st'.
Proof.
  unfold Dataset.fill_missing, mbind, Dataset.M_bind, Dataset.get_df, Dataset.lift,
    Dataset.set_df.
  destruct (Frame.loc column_name _); [|done]. by intros [= <-].
Qed.

Lemma for_fill_missing_keeps labels : ∀ st st',
  Dataset.for_ labels Dataset.fill_missing st = (st', Ok ()) → keeps_labels st st'.
Proof.
  induction labels as [|l labels IH]; intros st st'; cbn [Dataset.for_].
  - by intros [= <-].
  - intros (st1 & [] & H1 & H2)%bind_inv.
    eapply keeps_labels_trans; [by eapply fill_missing_keeps|by apply IH].
Qed.

Lemma normalize_division_keeps st st' :
  Dataset.normalize_division st = (st', Ok ()) → keeps_labels st st'.
Proof.
  unfold Dataset.normalize_division, mbind, Dataset.M_bind, Dataset.get_df,
    Dataset.lift, Dataset.set_df, Frame.apply.
  destruct (Frame.loc "Division" _); [|done].
  cbn [mbind result_bind].
  match goal with |- context [rmap ?g ?l] => destruct (rmap g l) end; [|done].
  by intros [= <-].
Qed.

Lemma add_source_inv st st' :
  Dataset.add_source st = (st', Ok ()) →
  Dataset.file_name (Dataset.self st') = Dataset.file_name (Dataset.self st)
  ∧ Dataset.column_names (Dataset.self st') = Dataset.column_names (Dataset.self st)
  ∧ Dataset.trace st' = Dataset.trace st
  ∧ Frame.columns (Dataset.df (Dataset.self st'))
    = Frame.columns (Dataset.df (Dataset.self st)) ++ ["Source"].
Proof.
  unfold Dataset.add_source, mbind, Dataset.M_bind, Dataset.get_df,
    Dataset.get_file_name, Dataset.lift, Dataset.set_df, Frame.append_column.
  case_bool_decide; [done|].
  cbn [mbind result_bind].
  match goal with |- context [rmap ?g ?l] => destruct (rmap g l) end; [|done].
  by intros [= <-].
Qed.

(** The imputation appends the column [Source] and leaves the other
    labels as they are. *)
Lemma impute_inv st st' :
  Dataset.impute st = (st', Ok ()) →
  Dataset.file_name (Dataset.self st') = Dataset.file_name (Dataset.self st)
  ∧ Dataset.column_names (Dataset.self st') = Dataset.column_names (Dataset.self st)
  ∧ Dataset.trace st' = Dataset.trace st
  ∧ Frame.columns (Dataset.df (Dataset.self st'))
    = Frame.columns (Dataset.df (Dataset.self st)) ++ ["Source"].
Proof.
  unfold Dataset.impute.
  intros (st1 & [] & H1 & H)%bind_inv. apply drop_subtotals_keeps in H1.
  apply bind_inv in H as (st2 & [] & H2 & H). apply blank_purpose_keeps in H2.
  apply bind_inv in H as (st3 & [] & H3 & H). apply fill_transaction_date_keeps in H3.
  apply bind_inv in H as (st4 & [] & H4 & H). apply for_fill_missing_keeps in H4.
  apply bind_inv in H as (st5 & [] & H5 & H). apply add_source_inv in H5.
  apply normalize_division_keeps in H.
  unfold keeps_labels in *.
  destruct H1 as (?&?&?&?), H2 as (?&?&?&?), H3 as (?&?&?&?), H4 as (?&?&?&?),
    H5 as (?&?&?&?), H as (?&?&?&?).
  repeat split; congruence.
Qed.

Lemma length_fill j v (r : Frame.row) : length (fill j v r) = length r.
Proof. unfold fill. destruct (Frame.isna _); [|done]. by rewrite length_insert. Qed.

Lemma filled_source name (r : Frame.row) :
  ∃ r0, filled name r = r0 ++ [Frame.Str name] ∧ length r0 = length r.
Proof.
  unfold filled. cbv zeta. eexists. split; [reflexivity|].
  rewrite !length_fill.
  destruct (Frame.isna _); [|by rewrite length_fill].
  by rewrite length_insert, length_fill.
Qed.

(** The rows of an imputed table of sixteen columns: seventeen cells,
    the last one the name of the file. *)
Lemma impute_rows name rs names tr st' :
  Forall (λ r, length r = 16) rs →
  Dataset.impute (state_of name Dataset.canonical rs names tr) = (st', Ok ()) →
  Forall (λ r, length r = 17 ∧ Frame.at_ 16 r = Frame.Str name)
         (Frame.rows (Dataset.df (Dataset.self st'))).
Proof.
  intros Hlen. rewrite impute_run.
  destruct (rmap titled _) as [rs'|] eqn:Hrs; [|done].
  intros [= <-]. cbn. apply rmap_inv in Hrs.
  apply Forall2_fmap_l in Hrs.
  assert (Forall (λ r, length r = 16) (List.filter survives rs)) as Hlen'.
  { apply list.Forall_forall. intros r [Hr _]%list_elem_of_In%filter_In.
    apply list_elem_of_In in Hr. by eapply (proj1 (list.Forall_forall _ _) Hlen). }
  clear Hlen. induction Hrs as [|r r' rs0 rs' Hr _ IH]; [constructor|].
  apply Forall_cons_1 in Hlen' as [Hr16 Hlen'].
  constructor; [|by apply IH].
  unfold titled, compose in Hr.
  destruct (Dataset.title_strip (Frame.at_ Division (filled name r))) as [v|];
    [|done].
  cbn in Hr. injection Hr as <-.
  destruct (filled_source name r) as (r0 & -> & H0).
  rewrite length_insert, length_app. cbn. split; [lia|].
  unfold Frame.at_, Division. rewrite list_lookup_total_insert_ne by done.
  rewrite <- Hr16, <- H0. apply list_lookup_total_middle. done.
Qed.

(** A report that is cleaned and accepted. *)
Lemma clean_validate_Ok (st st' : Dataset.state) :
  (Dataset.clean_data;; Dataset.validate_data) st = (st', Ok ()) →
  let d := Dataset.df (Dataset.self st) in
  let d' := Dataset.df (Dataset.self st') in
  length (named (Frame.columns d)) = 16
  ∧ Frame.columns d' = Dataset.canonical ++ ["Source"]
  ∧ ¬ has_missing d'
  ∧ Forall (λ r, length r = 17
                 ∧ Frame.at_ 16 r = Frame.Str (Dataset.file_name (Dataset.self st)))
           (Frame.rows d')
  ∧ Dataset.file_name (Dataset.self st') = Dataset.file_name (Dataset.self st)
  ∧ (Dataset.clean_data st).1 = st'.
Proof.
  intros (st2 & [] & Hclean & Hvalid)%bind_inv. cbn zeta.
  pose proof Hclean as Hclean'.
  unfold Dataset.clean_data in Hclean.
  apply bind_inv in Hclean as (st1 & [] & Hrec & Himp).
  destruct (reconcile_Ok _ _ Hrec)
    as (Hname1 & Hnames1 & (k & Hk & Hcols1) & Hlen1 & _ & H16 & Hwf1).
  destruct (impute_inv _ _ Himp) as (Hname2 & Hnames2 & _ & Hcols2).
  rewrite Hnames1 in Hnames2.
  rewrite (validate_data_run st2 _ Hnames2) in Hvalid.
  destruct (Nat.ltb_spec 0 (Dataset.total (Frame.isna_sum (Dataset.df (Dataset.self st2)))))
    as [|Hzero]; [done|].
  destruct (Nat.eqb_spec (length (Frame.columns (Dataset.df (Dataset.self st2))))
              (length Dataset.canonical + 1)) as [Hlen|]; [|done].
  injection Hvalid as <-.
  rewrite Hcols2, length_app in Hlen. cbn in Hlen.
  assert (length (named (Frame.columns (Dataset.df (Dataset.self st)))) = 16) as Hn
    by lia.
  split; [done|]. split; [by rewrite Hcols2, (H16 Hn)|].
  split; [rewrite <- total_isna_sum_pos; lia|].
  split; [|split; [congruence|by rewrite Hclean']].
  rewrite <- Hname1. specialize (H16 Hn). clear Hcols1 Hk Hlen1.
  destruct st1 as [[name1 [cols1 rs1] names1] tr1].
  cbn [Dataset.self Dataset.df Frame.columns Dataset.file_name] in *. subst cols1.
  eapply impute_rows; [|exact Himp]. exact Hwf1.
Qed.

(** X11. A report that [clean_data] cleans and [validate_data] accepts
    has exactly sixteen named columns, and its table has exactly the
    seventeen columns of the unified layout, the sixteen canonical
    names in canonical order and then [Source], with no missing value
    in any of them; every row has its seventeen cells, the last of
    them the name of the file. Validation leaves the object as
    [clean_data] made it. *)
Theorem cleaned_and_validated (st st' : Dataset.state) :
  (Dataset.clean_data;; Dataset.validate_data) st = (st', Ok ()) →
  let d := Dataset.df (Dataset.self st) in
  let d' := Dataset.df (Dataset.self st') in
  length (named (Frame.columns d)) = 16
  ∧ Frame.columns d' = Dataset.canonical ++ ["Source"]
  ∧ ¬ has_missing d'
  ∧ Forall (λ r, length r = 17
                 ∧ Frame.at_ 16 r = Frame.Str (Dataset.file_name (Dataset.self st)))
           (Frame.rows d')
  ∧ Dataset.file_name (Dataset.self st') = Dataset.file_name (Dataset.self st)
  ∧ (Dataset.clean_data st).1 = st'.
Proof. exact (clean_validate_Ok st st'). Qed.

Lemma cleaned_and_validated_witness :
  ∃ st',
    (Dataset.clean_data;; Dataset.validate_data)
      (Dataset.State (Dataset.Object "PCardExpenses_201103.xls" swapped_report None) [])
    = (st', Ok ())
    ∧ Frame.columns (Dataset.df (Dataset.self st')) = Dataset.canonical ++ ["Source"]
    ∧ ¬ has_missing (Dataset.df (Dataset.self st')).
Proof.
  destruct ((Dataset.clean_data;; Dataset.validate_data)
              (Dataset.State
                 (Dataset.Object "PCardExpenses_201103.xls" swapped_report None) []))
    as [st' [[]|e]] eqn:Hrun; [|vm_compute in Hrun; discriminate Hrun].
  exists st'. split; [reflexivity|].
  destruct (cleaned_and_validated _ _ Hrun) as (_ & Hcols & Hno & _).
  split; [exact Hcols|exact Hno].
Defined.

(** ** The merge of the reports *)

(** The columns of a cleaned report, which are the columns of the
    merged table. *)
Definition unified_layout : list string := Dataset.canonical ++ ["Source"].

Lemma unified_layout_NoDup : NoDup unified_layout.
Proof. apply (bool_decide_unpack _). by vm_compute. Qed.

Lemma under_row cols (r : Frame.row) :
  NoDup cols → length r = length cols → map (λ l, under cols l r) cols = r.
Proof.
  intros Hnd Hlen. apply list_eq. intros i. rewrite list_lookup_fmap.
  destruct (cols !! i) as [l|] eqn:Hi; cbn.
  - unfold under. rewrite (positions_unique _ _ _ Hnd Hi).
    symmetry. apply list_lookup_lookup_total_lt.
    apply lookup_lt_Some in Hi. lia.
  - symmetry. apply lookup_ge_None. apply lookup_ge_None in Hi. lia.
Qed.

Lemma reindex_id d :
  NoDup (Frame.columns d) → well_formed d →
  Frame.reindex (Frame.columns d) d = Frame.rows d.
Proof.
  intros Hnd Hwf. unfold Frame.reindex.
  rewrite <- (map_id (Frame.rows d)) at 2. apply map_ext_Forall.
  eapply list.Forall_impl; [exact Hwf|]. intros r Hr. cbn beta.
  by apply (under_row (Frame.columns d) r).
Qed.

Lemma filter_all {A} (P : A → bool) l : (∀ a, a ∈ l → P a = true) → List.filter P l = l.
Proof.
  induction l as [|a l IH]; intros H; [done|]. cbn.
  rewrite H by apply list_elem_of_here. f_equal. apply IH.
  intros b Hb. apply H. by apply list_elem_of_further.
Qed.

Lemma concat_frames_empty b :
  NoDup (Frame.columns b) → well_formed b → Frame.concat_frames Frame.empty b = b.
Proof.
  intros Hnd Hwf. unfold Frame.concat_frames. cbn [Frame.empty Frame.columns app].
  rewrite filter_all.
  - rewrite (reindex_id b Hnd Hwf). unfold Frame.reindex. cbn. by destruct b.
  - intros l _. apply bool_decide_eq_true_2. by intros ?%elem_of_nil.
Qed.

Lemma concat_frames_same a b :
  Frame.columns b = Frame.columns a → NoDup (Frame.columns a) →
  well_formed a → well_formed b →
  Frame.concat_frames a b = Frame.Build (Frame.columns a) (Frame.rows a ++ Frame.rows b).
Proof.
  intros Hcols Hnd Ha Hb. unfold Frame.concat_frames. cbv zeta.
  rewrite Hcols, filter_none.
  - rewrite app_nil_r, (reindex_id a Hnd Ha). rewrite <- Hcols at 2.
    rewrite <- Hcols in Hnd. by rewrite (reindex_id b Hnd Hb).
  - intros l Hl. by apply bool_decide_eq_false_2; intros ?.
Qed.

(** The table that [clean_data] and [validate_data] make of a report
    of the loop. *)
Definition cleaned (f : string * Frame.DataFrame) (c : Frame.DataFrame) : Prop :=
  ∃ tr st',
    (Dataset.clean_data;; Dataset.validate_data)
      (Dataset.State (Dataset.Object f.1 f.2 None) tr) = (st', Ok ())
    ∧ c = Dataset.df (Dataset.self st').

Lemma cleaned_layout f c :
  cleaned f c →
  Frame.columns c = unified_layout ∧ well_formed c ∧ ¬ has_missing c
  ∧ Forall (λ r, Frame.at_ 16 r = Frame.Str f.1) (Frame.rows c).
Proof.
  intros (tr & st' & Hrun & ->).
  destruct (clean_validate_Ok _ _ Hrun) as (_ & Hcols & Hno & Hrows & _).
  split; [done|]. split; [|split; [done|]].
  - unfold well_formed. rewrite Hcols.
    eapply list.Forall_impl; [exact Hrows|]. by intros r [-> _].
  - eapply list.Forall_impl; [exact Hrows|]. by intros r [_ ?].
Qed.

Lemma process_inv reports : ∀ output_df tr tr' d,
  output_df = Frame.empty
  ∨ (Frame.columns output_df = unified_layout ∧ well_formed output_df) →
  Merger.process reports output_df tr = (tr', Ok d) →
  ∃ frames,
    Forall2 cleaned reports frames
    ∧ Frame.rows d = Frame.rows output_df ++ concat (map Frame.rows frames)
    ∧ (reports = [] → d = output_df)
    ∧ (reports ≠ [] → Frame.columns d = unified_layout ∧ well_formed d).
Proof.
  induction reports as [|[report_name loaded] reports IH];
    intros output_df tr tr' d Hout; cbn [Merger.process].
  - intros [= <- <-]. exists []. split; [constructor|]. split; [|done].
    cbn. by rewrite app_nil_r.
  - destruct (Dataset.init report_name loaded) as [dataset|] eqn:Hinit; [|done].
    assert (dataset = Dataset.Object report_name loaded None) as ->.
    { unfold Dataset.init in Hinit. destruct (negb _); [done|]. by injection Hinit. }
    destruct ((Dataset.clean_data;; Dataset.validate_data) _) as [st [[]|]] eqn:Hrun;
      [|done].
    set (c := Dataset.df (Dataset.self st)).
    assert (cleaned (report_name, loaded) c) as Hc by (by eexists _, st).
    destruct (cleaned_layout _ _ Hc) as (Hcols & Hwf & _ & _).
    assert (Frame.concat_frames output_df c
            = Frame.Build unified_layout (Frame.rows output_df ++ Frame.rows c))
      as Hconcat.
    { destruct Hout as [->|[Hocols Howf]].
      - rewrite concat_frames_empty; [|rewrite Hcols; apply unified_layout_NoDup|done].
        rewrite <- Hcols. by destruct c.
      - rewrite concat_frames_same, Hocols; [done|congruence| |done|done].
        rewrite Hocols. apply unified_layout_NoDup. }
    rewrite Hconcat. intros Hrest.
    assert (well_formed
              (Frame.Build unified_layout (Frame.rows output_df ++ Frame.rows c)))
      as Hwf'.
    { unfold well_formed in *. cbn [Frame.rows Frame.columns].
      apply Forall_app. split.
      - destruct Hout as [->|[Hocols Howf]]; [constructor|]. by rewrite <- Hocols.
      - by rewrite <- Hcols. }
    apply IH in Hrest as (frames & Hframes & Hrows & Hnil & Hcons); [|by right].
    exists (c :: frames). split; [by constructor|]. split.
    { rewrite Hrows. cbn. by rewrite app_assoc. }
    split; [done|]. intros _.
    destruct reports as [|f reports]; [by rewrite Hnil|by apply Hcons].
Qed.



(** ** The unified table *)

(** The columns of the table that the script pickles. *)
Definition pickled_layout : list string :=
  unified_layout
  ++ [ "Year"; "Month"; "Year-Month"; "Quarter"; "Merchant Type_code";
       "G/L Account_code"; "Cost Centre / WBS Element_code";
       "Transaction Currency_code" ].

(** The division of a row after the replacement by the divisions map. *)
Definition replaced (dict : gmap string string) (x : Frame.cell) : Frame.cell :=
  match x with
  | Frame.Str s => Frame.Str (default s (dict !! s))
  | _ => x
  end.

(** The text of [strftime('%Y-%m')]. *)
Definition year_month (t : Frame.date) : string :=
  Py.digits 4 (Z.to_nat (Frame.year t)) +:+ "-"
  +:+ Py.digits 2 (Z.to_nat (Frame.month t)).

(** The four cells derived from the date of a transaction. *)
Definition derived (t : Frame.date) : list Frame.cell :=
  [ Frame.Int (Frame.year t); Frame.Int (Frame.month t);
    Frame.Str (year_month t);
    Frame.Period (Frame.year t) ((Frame.month t - 1) / 3 + 1)%Z ].

(** The transaction is dated, and not of the year 2010. *)
Definition not_2010 (r : Frame.row) : bool :=
  match Frame.at_ 2 r with
  | Frame.Timestamp t => bool_decide (Frame.year t ≠ 2010%Z)
  | _ => false
  end.

(** A row of the pickled table, from the row of the merged table it
    comes from. *)
Definition unified_row (dict : gmap string string) (r u : Frame.row) : Prop :=
  ∃ t codes,
    Frame.at_ 2 r = Frame.Timestamp t
    ∧ Frame.year t ≠ 2010%Z
    ∧ length codes = 4
    ∧ u = <[0 := replaced dict (Frame.at_ 0 r)]> r ++ derived t ++ codes.

Lemma loc_columns label d cols :
  Frame.columns d = cols →
  Frame.loc label d = Frame.loc label (Frame.Build cols []).
Proof. intros <-. reflexivity. Qed.

Lemma replace_divisions_inv dict d d' :
  Merger.replace_divisions dict d = Ok d' →
  ∃ j, Frame.loc "Division" d = Ok j
       ∧ Frame.columns d' = Frame.columns d
       ∧ Frame.rows d'
         = map (λ r, <[j := replaced dict (Frame.at_ j r)]> r) (Frame.rows d).
Proof.
  unfold Merger.replace_divisions, Frame.apply.
  destruct (Frame.loc "Division" d) as [j|]; [|done]. cbn [mbind result_bind].
  rewrite (rmap_Ok (λ r, <[j := replaced dict (Frame.at_ j r)]> r)).
  intros [= <-]. by exists j.
Qed.

Lemma encode_inv cat_codes d col_name d' :
  Merger.encode cat_codes d col_name = Ok d' →
  (∃ j, Frame.loc col_name d = Ok j)
  ∧ Frame.columns d' = Frame.columns d ++ [col_name +:+ "_code"]
  ∧ Forall2 (λ r r', ∃ v, r' = r ++ [v]) (Frame.rows d) (Frame.rows d').
Proof.
  unfold Merger.encode, Frame.column.
  destruct (Frame.loc col_name d) as [j|]; [|done]. cbn [mbind result_bind].
  case_bool_decide; [done|]. intros [= <-]. split; [by exists j|].
  split; [done|]. cbn. apply imap_appended. intros i r. by eexists.
Qed.

Lemma Forall2_filter {A B} (R : A → B → Prop) (P : A → bool) (Q : B → bool) l l' :
  Forall2 R l l' → (∀ a b, R a b → P a = Q b) →
  Forall2 R (List.filter P l) (List.filter Q l').
Proof.
  intros H HPQ. induction H as [|a b l l' Hab _ IH]; [constructor|]. cbn.
  rewrite <- (HPQ a b Hab). destruct (P a); [by constructor|done].
Qed.

(** The row with its division replaced and the cells derived so far. *)
Definition extended (dict : gmap string string) (ext : Frame.date → list Frame.cell)
  (r r' : Frame.row) : Prop :=
  length r = 17
  ∧ ∃ t, Frame.at_ 2 r = Frame.Timestamp t
         ∧ r' = <[0 := replaced dict (Frame.at_ 0 r)]> r ++ ext t.

Lemma extended_date dict (ext : Frame.date → list Frame.cell) (r r' : Frame.row) t :
  length r = 17 →
  r' = <[0 := replaced dict (Frame.at_ 0 r)]> r ++ ext t →
  Frame.at_ 2 r' = Frame.at_ 2 r.
Proof.
  intros Hlen ->. unfold Frame.at_.
  rewrite lookup_total_app_l by (rewrite length_insert; lia).
  by rewrite list_lookup_total_insert_ne.
Qed.

Lemma derive_step dict (f : Frame.cell → result Frame.cell) (g : Frame.date → Frame.cell)
  (ext : Frame.date → list Frame.cell) rs rsk rsk' :
  (∀ x v, f x = Ok v → ∃ t, x = Frame.Timestamp t ∧ v = g t) →
  Forall2 (extended dict ext) rs rsk →
  Forall2 (λ a b, ∃ v, f (Frame.at_ 2 a) = Ok v ∧ b = a ++ [v]) rsk rsk' →
  Forall2 (extended dict (λ t, ext t ++ [g t])) rs rsk'.
Proof.
  intros Hf H1. revert rsk'.
  induction H1 as [|r rk rs rsk (Hlen & t & Ht & Hrk) _ IH]; intros rsk' H2.
  - inversion H2. constructor.
  - inversion H2 as [|? rk' ? rsk0 (v & Hv & ->) H2']; subst. constructor; [|by apply IH].
    split; [done|]. exists t. split; [done|].
    rewrite (extended_date dict ext r _ t Hlen eq_refl), Ht in Hv.
    apply Hf in Hv as (t' & [= <-] & ->). by rewrite <- app_assoc.
Qed.

Lemma year_of_date x v :
  Merger.year_of x = Ok v → ∃ t, x = Frame.Timestamp t ∧ v = Frame.Int (Frame.year t).
Proof. destruct x; try done. intros [= <-]. by eexists. Qed.

Lemma month_of_date x v :
  Merger.month_of x = Ok v → ∃ t, x = Frame.Timestamp t ∧ v = Frame.Int (Frame.month t).
Proof. destruct x; try done. intros [= <-]. by eexists. Qed.

Lemma year_month_of_date x v :
  Merger.year_month_of x = Ok v →
  ∃ t, x = Frame.Timestamp t ∧ v = Frame.Str (year_month t).
Proof. destruct x; try done. intros [= <-]. by eexists. Qed.

Lemma quarter_of_date x v :
  Merger.quarter_of x = Ok v →
  ∃ t, x = Frame.Timestamp t
       ∧ v = Frame.Period (Frame.year t) ((Frame.month t - 1) / 3 + 1)%Z.
Proof. destruct x; try done. intros [= <-]. by eexists. Qed.

Lemma appended_step {A} (R : A → Frame.row → Prop) (R' : A → Frame.row → Prop) rs rsk rsk' :
  (∀ a r v, R a r → R' a (r ++ [v])) →
  Forall2 R rs rsk →
  Forall2 (λ r r', ∃ v, r' = r ++ [v]) rsk rsk' →
  Forall2 R' rs rsk'.
Proof.
  intros HR H1. revert rsk'.
  induction H1 as [|a r rs rsk Har _ IH]; intros rsk' H2.
  - inversion H2. constructor.
  - inversion H2 as [|? r' ? rsk0 (v & ->) H2']; subst.
    constructor; [by apply HR|by apply IH].
Qed.

Lemma Forall2_and_l {A B} (P : A → Prop) (R : A → B → Prop) l k :
  Forall P l → Forall2 R l k → Forall2 (λ a b, P a ∧ R a b) l k.
Proof.
  intros HP HR. induction HR as [|a b l k Hab _ IH]; [constructor|].
  apply Forall_cons_1 in HP as [Ha HP]. constructor; [done|by apply IH].
Qed.

Lemma Forall2_filter_l {A B} (R : A → B → Prop) (P : A → bool) (Q : B → bool) l l' :
  Forall2 R l l' → (∀ a b, R a b → P a = Q b) →
  Forall2 (λ a b, R a b ∧ P a = true) (List.filter P l) (List.filter Q l').
Proof.
  intros H HPQ. induction H as [|a b l l' Hab _ IH]; [constructor|]. cbn.
  rewrite <- (HPQ a b Hab). destruct (P a) eqn:Ha; [by constructor|done].
Qed.

(** The row with its division replaced, the derived cells and the
    codes appended so far. *)
Definition coded (dict : gmap string string) (n : nat) (r u : Frame.row) : Prop :=
  ∃ t codes,
    Frame.at_ 2 r = Frame.Timestamp t
    ∧ Frame.year t ≠ 2010%Z
    ∧ length codes = n
    ∧ u = <[0 := replaced dict (Frame.at_ 0 r)]> r ++ derived t ++ codes.

Lemma coded_step dict n (r u : Frame.row) v :
  coded dict n r u → coded dict (S n) r (u ++ [v]).
Proof.
  intros (t & codes & Ht & Hy & Hlen & ->). exists t, (codes ++ [v]).
  split; [done|]. split; [done|]. split.
  - rewrite length_app. cbn. lia.
  - by rewrite <- !app_assoc.
Qed.

(** What the script makes of the merged table. *)
Lemma finish_rows cat_codes divisions_map output_df unified :
  Frame.columns output_df = unified_layout → well_formed output_df →
  Merger.finish cat_codes divisions_map output_df = Ok unified →
  Frame.columns unified = pickled_layout
  ∧ Forall (λ r, ∃ t, Frame.at_ 2 r = Frame.Timestamp t) (Frame.rows output_df)
  ∧ Forall2 (unified_row (Merger.divisions_map_dict divisions_map))
      (List.filter not_2010 (Frame.rows output_df)) (Frame.rows unified).
Proof.
  intros Hcols Hwf. unfold Merger.finish.
  set (dict := Merger.divisions_map_dict divisions_map).
  destruct (Merger.replace_divisions _ _) as [d0|] eqn:H0; [|done]. cbn.
  destruct (Merger.derive "Year" _ _ d0) as [d1|] eqn:H1; [|done]. cbn.
  destruct (Merger.derive "Month" _ _ d1) as [d2|] eqn:H2; [|done]. cbn.
  destruct (Merger.derive "Year-Month" _ _ d2) as [d3|] eqn:H3; [|done]. cbn.
  destruct (Merger.derive "Quarter" _ _ d3) as [d4|] eqn:H4; [|done]. cbn.
  destruct (Merger.remove_2010 d4) as [d5|] eqn:H5; [|done]. cbn.
  destruct (Merger.encode cat_codes d5 "Merchant Type") as [d6|] eqn:H6; [|done]. cbn.
  destruct (Merger.encode cat_codes d6 "G/L Account") as [d7|] eqn:H7; [|done]. cbn.
  destruct (Merger.encode cat_codes d7 "Cost Centre / WBS Element") as [d8|] eqn:H8;
    [|done]. cbn.
  intros H9.
  apply replace_divisions_inv in H0 as (j0 & Hj0 & Hc0 & Hr0).
  rewrite (loc_columns _ _ _ Hcols) in Hj0. injection Hj0 as <-.
  rewrite Hcols in Hc0.
  apply derive_inv in H1 as (j1 & Hj1 & _ & Hc1 & HR1).
  rewrite (loc_columns _ _ _ Hc0) in Hj1. injection Hj1 as <-. rewrite Hc0 in Hc1.
  apply derive_inv in H2 as (j2 & Hj2 & _ & Hc2 & HR2).
  rewrite (loc_columns _ _ _ Hc1) in Hj2. injection Hj2 as <-. rewrite Hc1 in Hc2.
  apply derive_inv in H3 as (j3 & Hj3 & _ & Hc3 & HR3).
  rewrite (loc_columns _ _ _ Hc2) in Hj3. injection Hj3 as <-. rewrite Hc2 in Hc3.
  apply derive_inv in H4 as (j4 & Hj4 & _ & Hc4 & HR4).
  rewrite (loc_columns _ _ _ Hc3) in Hj4. injection Hj4 as <-. rewrite Hc3 in Hc4.
  unfold Merger.remove_2010 in H5.
  rewrite (loc_columns _ _ _ Hc4) in H5. injection H5 as <-.
  apply encode_inv in H6 as (_ & Hc6 & HR6). cbn [Frame.where_ Frame.columns] in Hc6.
  rewrite Hc4 in Hc6.
  apply encode_inv in H7 as (_ & Hc7 & HR7). rewrite Hc6 in Hc7.
  apply encode_inv in H8 as (_ & Hc8 & HR8). rewrite Hc7 in Hc8.
  apply encode_inv in H9 as (_ & Hc9 & HR9). rewrite Hc8 in Hc9.
  split; [by rewrite Hc9|].
  rewrite Hr0 in HR1. apply Forall2_fmap_l in HR1.
  assert (Forall (λ r, length r = 17) (Frame.rows output_df)) as Hlen.
  { unfold well_formed in Hwf. by rewrite Hcols in Hwf. }
  assert (Forall2 (extended dict (λ t, [Frame.Int (Frame.year t)]))
            (Frame.rows output_df) (Frame.rows d1)) as HE1.
  { eapply list.Forall2_impl; [exact (Forall2_and_l _ _ _ _ Hlen HR1)|].
    intros r r1 (Hr & v & Hv & ->). cbn beta in *. split; [done|].
    unfold Frame.at_ at 1 in Hv.
    rewrite list_lookup_total_insert_ne in Hv by done.
    apply year_of_date in Hv as (t & Ht & ->). by exists t. }
  pose proof (derive_step dict _ _ _ _ _ _ month_of_date HE1 HR2) as HE2.
  pose proof (derive_step dict _ _ _ _ _ _ year_month_of_date HE2 HR3) as HE3.
  pose proof (derive_step dict _ _ _ _ _ _ quarter_of_date HE3 HR4) as HE4.
  cbn [app] in HE4. change (λ t, _) with derived in HE4.
  split.
  { clear -HE4.
    induction HE4 as [|r r4 rs rs4 (_ & t & Ht & _) _ IH]; constructor; [|done].
    by exists t. }
  assert (Forall2 (coded dict 0) (List.filter not_2010 (Frame.rows output_df))
            (Frame.rows (Frame.where_
               (λ r, bool_decide (Frame.at_ 17 r ≠ Frame.Int 2010)) d4))) as HC.
  { cbn [Frame.where_ Frame.rows].
    eapply list.Forall2_impl; [eapply Forall2_filter_l; [exact HE4|]|].
    - intros r r4 (Hr & t & Ht & ->). unfold not_2010. rewrite Ht.
      unfold Frame.at_.
      rewrite lookup_total_app_r by (rewrite length_insert; lia).
      rewrite length_insert, Hr. cbn.
      apply bool_decide_ext. split; [congruence|]. intros H Heq. apply H.
      by rewrite Heq.
    - intros r r4 [(Hr & t & Ht & ->) Hkeep]. cbn beta in *.
      exists t, []. split; [done|]. unfold not_2010 in Hkeep. rewrite Ht in Hkeep.
      apply bool_decide_eq_true_1 in Hkeep. by rewrite app_nil_r. }
  pose proof (appended_step _ _ _ _ _ (coded_step dict 0) HC HR6) as HC1.
  pose proof (appended_step _ _ _ _ _ (coded_step dict 1) HC1 HR7) as HC2.
  pose proof (appended_step _ _ _ _ _ (coded_step dict 2) HC2 HR8) as HC3.
  exact (appended_step _ _ _ _ _ (coded_step dict 3) HC3 HR9).
Qed.

Lemma main_inv cat_codes listing divisions_map tr unified :
  Merger.main cat_codes listing divisions_map = (tr, Ok unified) →
  ∃ output_df frames,
    Merger.finish cat_codes divisions_map output_df = Ok unified
    ∧ Forall2 cleaned (Merger.expense_reports listing) frames
    ∧ Frame.rows output_df = concat (map Frame.rows frames)
    ∧ Frame.columns output_df = unified_layout
    ∧ well_formed output_df.
Proof.
  unfold Merger.main.
  destruct (Merger.process _ _ _) as [tr0 [output_df|]] eqn:Hprocess; [|done].
  intros [= <- Hfinish].
  apply process_inv in Hprocess as (frames & Hframes & Hrows & Hnil & Hcons);
    [|by left].
  exists output_df, frames. split; [done|]. split; [done|]. split; [done|].
  apply Hcons. intros Hno. rewrite (Hnil Hno) in Hfinish. done.
Qed.



(** The cells of a row of the pickled table, by the labels. *)
Lemma under_pickled (r0 d codes : Frame.row) :
  length r0 = 17 → length d = 4 →
  let u := r0 ++ d ++ codes in
  under pickled_layout "Transaction Date" u = Frame.at_ 2 r0
  ∧ under pickled_layout "Source" u = Frame.at_ 16 r0
  ∧ under pickled_layout "Division" u = Frame.at_ 0 r0
  ∧ under pickled_layout "Year" u = Frame.at_ 0 d
  ∧ under pickled_layout "Month" u = Frame.at_ 1 d
  ∧ under pickled_layout "Year-Month" u = Frame.at_ 2 d
  ∧ under pickled_layout "Quarter" u = Frame.at_ 3 d.
Proof.
  intros H0 Hd.
  do 17 (destruct r0 as [|? r0]; [done|]). destruct r0; [|done].
  do 4 (destruct d as [|? d]; [done|]). destruct d; [|done].
  cbv zeta. repeat split; vm_compute; reflexivity.
Qed.

(** X14. The table that the script pickles has twenty-five columns:
    the seventeen of a cleaned report, then [Year], [Month],
    [Year-Month], [Quarter] and the four code columns; every row has
    one cell per column. In every row the transaction date is a time
    stamp; [Month] is its month, [Year-Month] is its year on four
    digits and its month on two, with a hyphen between, [Quarter] is
    the period of its year and of the quarter [(month - 1) // 3 + 1];
    and [Source] is the name of one of the reports of the folder. *)
Theorem unified_columns cat_codes listing divisions_map tr unified :
  Merger.main cat_codes listing divisions_map = (tr, Ok unified) →
  Frame.columns unified = pickled_layout
  ∧ well_formed unified
  ∧ Forall (λ u, ∃ t f,
              under pickled_layout "Transaction Date" u = Frame.Timestamp t
              ∧ under pickled_layout "Month" u = Frame.Int (Frame.month t)
              ∧ under pickled_layout "Year-Month" u = Frame.Str (year_month t)
              ∧ under pickled_layout "Quarter" u
                = Frame.Period (Frame.year t) ((Frame.month t - 1) / 3 + 1)%Z
              ∧ f ∈ Merger.expense_reports listing
              ∧ under pickled_layout "Source" u = Frame.Str f.1)
           (Frame.rows unified).
Proof.
  intros (output_df & frames & Hfinish & Hframes & Hrows & Hcols & Hwf)%main_inv.
  destruct (finish_rows _ _ _ _ Hcols Hwf Hfinish) as (Hlayout & _ & HR).
  split; [done|].
  assert (Forall (λ r, length r = 17
                       ∧ ∃ f, f ∈ Merger.expense_reports listing
                              ∧ Frame.at_ 16 r = Frame.Str f.1)
            (List.filter not_2010 (Frame.rows output_df))) as Hsrc.
  { apply list.Forall_forall. intros r [Hr _]%list_elem_of_In%filter_In. split.
    - unfold well_formed in Hwf. rewrite Hcols in Hwf.
      apply list_elem_of_In in Hr. by eapply (proj1 (list.Forall_forall _ _) Hwf).
    - rewrite Hrows in Hr. apply in_concat in Hr as (rs & Hrs & Hr%list_elem_of_In).
      apply in_map_iff in Hrs as (c & <- & Hc%list_elem_of_In).
      apply list_elem_of_lookup_1 in Hc as [i Hi].
      destruct (Forall2_lookup_r _ _ _ _ _ Hframes Hi) as (f & Hf & Hclean).
      destruct (cleaned_layout _ _ Hclean) as (_ & _ & _ & Hsource).
      exists f. split; [by eapply list_elem_of_lookup_2|].
      by eapply (proj1 (list.Forall_forall _ _) Hsource). }
  pose proof (Forall2_and_l _ _ _ _ Hsrc HR) as HR'. clear HR Hsrc.
  assert (Forall (λ u, length u = 25 ∧ ∃ t f,
              under pickled_layout "Transaction Date" u = Frame.Timestamp t
              ∧ under pickled_layout "Month" u = Frame.Int (Frame.month t)
              ∧ under pickled_layout "Year-Month" u = Frame.Str (year_month t)
              ∧ under pickled_layout "Quarter" u
                = Frame.Period (Frame.year t) ((Frame.month t - 1) / 3 + 1)%Z
              ∧ f ∈ Merger.expense_reports listing
              ∧ under pickled_layout "Source" u = Frame.Str f.1)
           (Frame.rows unified)) as Hall.
  { induction HR' as [|r u rs us Hru _ IH]; constructor; [|done].
    destruct Hru as ((Hlen & f & Hf & Hsource) & t & codes & Ht & _ & Hcodes & ->).
    split; [by rewrite !length_app, length_insert, Hlen, Hcodes|].
    exists t, f.
    destruct (under_pickled
                (<[0 := replaced (Merger.divisions_map_dict divisions_map)
                          (Frame.at_ 0 r)]> r) (derived t) codes)
      as (Hdate & Hsrc & _ & _ & Hmonth & Hym & Hq);
      [by rewrite length_insert|done|].
    rewrite Hdate, Hsrc, Hmonth, Hym, Hq.
    assert (∀ j x, j ≠ 0 → Frame.at_ j (<[0 := x]> r) = Frame.at_ j r) as Hat.
    { intros j x Hj. unfold Frame.at_. by rewrite list_lookup_total_insert_ne. }
    rewrite !Hat by done. done. }
  split.
  - unfold well_formed. rewrite Hlayout.
    eapply list.Forall_impl; [exact Hall|]. by intros u [-> _].
  - eapply list.Forall_impl; [exact Hall|]. by intros u [_ ?].
Qed.

Lemma unified_columns_witness :
  ∃ unified, (Merger.main zero_codes reports []).2 = Ok unified
             ∧ Frame.columns unified = pickled_layout.
Proof.
  destruct (Merger.main zero_codes reports []) as [tr [unified|e]] eqn:Hrun;
    [|vm_compute in Hrun; discriminate Hrun].
  exists unified. split; [reflexivity|].
  exact (proj1 (unified_columns _ _ _ _ _ Hrun)).
Defined.

(** X15. With no report in the folder (no file whose name carries
    [xls] in its last four characters) the script prints nothing and
    ends with [KeyError]: the merged table is the empty frame, which
    has no column [Division] to replace the divisions in. *)
Theorem main_without_reports cat_codes listing divisions_map :
  Merger.expense_reports listing = [] →
  Merger.main cat_codes listing divisions_map = ([], Raise (KeyError "Division")).
Proof. intros H. unfold Merger.main. by rewrite H. Qed.

Lemma main_without_reports_witness :
  Merger.main zero_codes [("divisions_map.csv", Frame.empty)] []
  = ([], Raise (KeyError "Division")).
Proof. by apply main_without_reports. Defined.

Lemma divisions_map_dict_snoc divisions_map row :
  Merger.divisions_map_dict (divisions_map ++ [row])
  = if bool_decide (row.1 ≠ row.2)
    then <[row.1 := row.2]> (Merger.divisions_map_dict divisions_map)
    else Merger.divisions_map_dict divisions_map.
Proof. unfold Merger.divisions_map_dict. by rewrite foldl_app. Qed.

Lemma snoc_split {A} (l pre post : list A) (a x : A) :
  l ++ [a] = pre ++ x :: post →
  (post = [] ∧ l = pre ∧ a = x) ∨ (∃ post', post = post' ++ [a] ∧ l = pre ++ x :: post').
Proof.
  destruct post as [|p post _] using rev_ind; intros H.
  - left. apply app_inj_tail in H as [-> ->]. done.
  - right. exists post. rewrite app_comm_cons, app_assoc in H.
    apply app_inj_tail in H as [-> ->]. done.
Qed.

(** X16. The dictionary built from the divisions map sends a division
    to the [Division (To)] of the last row of the map that names it as
    [Division (From)] with another name as [Division (To)]: a later
    row overrides an earlier one, and a row that maps a division to
    itself is skipped, so that it neither enters the dictionary nor
    undoes an earlier row. *)
Theorem divisions_map_dict_lookup (divisions_map : list (string * string)) (k v : string) :
  Merger.divisions_map_dict divisions_map !! k = Some v
  ↔ ∃ pre post,
      divisions_map = pre ++ (k, v) :: post
      ∧ k ≠ v
      ∧ Forall (λ row, row.1 = k → row.1 = row.2) post.
Proof.
  induction divisions_map as [|row dm IH] using rev_ind.
  - split; [done|]. intros (pre & post & H & _). by destruct pre.
  - rewrite divisions_map_dict_snoc. destruct row as [from to]. cbn [fst snd].
    case_bool_decide as Hrow.
    + destruct (decide (from = k)) as [->|Hk].
      * rewrite lookup_insert_eq. split.
        -- intros [= ->]. exists dm, []. by repeat split.
        -- intros (pre & post & H & Hkv & Hpost).
           apply snoc_split in H as [(-> & -> & [= ->])|(post' & -> & ->)]; [done|].
           apply Forall_app in Hpost as [_ Hlast].
           apply Forall_cons_1 in Hlast as [Hlast _]. cbn in Hlast.
           destruct Hrow. by apply Hlast.
      * rewrite lookup_insert_ne by done. rewrite IH. split.
        -- intros (pre & post & -> & Hkv & Hpost).
           exists pre, (post ++ [(from, to)]). split; [by rewrite <- app_assoc|].
           split; [done|]. apply Forall_app. split; [done|].
           constructor; [|constructor]. cbn. by intros ?.
        -- intros (pre & post & H & Hkv & Hpost).
           apply snoc_split in H as [(-> & -> & [= -> ->])|(post' & -> & ->)]; [done|].
           exists pre, post'. split; [done|]. split; [done|].
           by apply Forall_app in Hpost as [? _].
    + assert (from = to) as <-.
      { destruct (decide (from = to)); [done|]. by destruct Hrow. }
      rewrite IH. split.
      * intros (pre & post & -> & Hkv & Hpost).
        exists pre, (post ++ [(from, from)]). split; [by rewrite <- app_assoc|].
        split; [done|]. apply Forall_app. split; [done|].
        constructor; [|constructor]. done.
      * intros (pre & post & H & Hkv & Hpost).
        apply snoc_split in H as [(-> & -> & [= -> ->])|(post' & -> & ->)]; [done|].
        exists pre, post'. split; [done|]. split; [done|].
        by apply Forall_app in Hpost as [? _].
Qed.

(** ** The keys of a profile *)

Lemma keys_set_item k v (p : Profile.dict) :
  Profile.keys (Profile.set_item k v p)
  = if bool_decide (k ∈ Profile.keys p) then Profile.keys p else Profile.keys p ++ [k].
Proof.
  unfold Profile.keys. induction p as [|[k' v'] p IH]; cbn.
  - rewrite bool_decide_eq_false_2; [done|]. apply not_elem_of_nil.
  - destruct (decide (k' = k)) as [->|Hne].
    + rewrite !bool_decide_eq_true_2; [done|apply list_elem_of_here|done].
    + rewrite (bool_decide_eq_false_2 (k' = k)) by done. cbn. rewrite IH.
      destruct (decide (k ∈ map fst p)) as [Hin|Hnin].
      * rewrite !bool_decide_eq_true_2; [done|by apply list_elem_of_further|done].
      * rewrite !bool_decide_eq_false_2; [done| |done].
        intros [->|?]%elem_of_cons; done.
Qed.

(** The keys that [__init__] assigns besides [Division] and the
    merchant keys, in the order of their assignment. *)
Definition statistics_keys : list string :=
  [ "Average Expenditure"; "Stdev of Expenditure" ] ++ later_keys.

(** The keys of every profile built with the merchant types [names]. *)
Definition profile_keys (names : list string) : list string :=
  "Division" :: map Profile.merchant_key names ++ statistics_keys.

Lemma seed_fold_keys text ms : ∀ p,
  NoDup (map text ms) →
  (∀ c, c ∈ ms → Profile.merchant_key (text c) ∉ Profile.keys p) →
  Profile.keys (foldl (seed text) p ms)
  = Profile.keys p ++ map (λ c, Profile.merchant_key (text c)) ms.
Proof.
  induction ms as [|c ms IH]; intros p Hnd Hfresh.
  { by rewrite app_nil_r. }
  cbn in Hnd. apply list.NoDup_cons in Hnd as [Hc Hnd]. cbn [foldl map].
  rewrite IH; [|done|].
  - unfold seed at 1. rewrite keys_set_item, bool_decide_eq_false_2.
    + by rewrite <- app_assoc.
    + apply Hfresh, list_elem_of_here.
  - intros c' Hc'. unfold seed. rewrite keys_set_item, bool_decide_eq_false_2.
    + intros [?|Heq%list_elem_of_singleton]%elem_of_app.
      * by eapply Hfresh; [apply list_elem_of_further|].
      * apply merchant_key_inj in Heq. apply Hc. rewrite <- Heq.
        by apply list_elem_of_fmap_2.
    + apply Hfresh, list_elem_of_here.
Qed.

Lemma fraction_fold_keys text t s : ∀ p,
  (∀ r, r ∈ s → Profile.merchant_key (text (Profile.group r)) ∈ Profile.keys p) →
  Profile.keys (foldl (assign_fraction text t) p s) = Profile.keys p.
Proof.
  induction s as [|r s IH]; intros p Hin; [done|]. cbn [foldl].
  assert (Profile.merchant_key (text (Profile.group r)) ∈ Profile.keys p) as Hk.
  { apply Hin, list_elem_of_here. }
  rewrite IH.
  - unfold assign_fraction. by rewrite keys_set_item, bool_decide_eq_true_2.
  - intros r' Hr'. unfold assign_fraction.
    rewrite keys_set_item, bool_decide_eq_true_2 by done.
    apply Hin. by apply list_elem_of_further.
Qed.

(** One more key after the merchant keys. *)
Lemma keys_set_fixed names L k v (p : Profile.dict) :
  Profile.keys p = "Division" :: map Profile.merchant_key names ++ L →
  String.prefix "Merchant_" k = false → k ∉ "Division" :: L →
  Profile.keys (Profile.set_item k v p)
  = "Division" :: map Profile.merchant_key names ++ (L ++ [k]).
Proof.
  intros Hp Hk Hnew. rewrite keys_set_item, Hp, bool_decide_eq_false_2.
  - by rewrite app_comm_cons, <- app_assoc.
  - rewrite app_comm_cons.
    intros [[->|Hin]%elem_of_cons|Hin]%elem_of_app.
    + apply Hnew, list_elem_of_here.
    + apply list_elem_of_fmap in Hin as (m & -> & _).
      by rewrite merchant_key_prefix in Hk.
    + by apply Hnew, list_elem_of_further.
Qed.

Lemma keys_set_item_mono k k' v (p : Profile.dict) :
  k ∈ Profile.keys p → k ∈ Profile.keys (Profile.set_item k' v p).
Proof.
  intros H. rewrite keys_set_item. case_bool_decide; [done|].
  apply elem_of_app. by left.
Qed.

Lemma keys_set_rev names L k v (p : Profile.dict) :
  Profile.keys p = "Division" :: map Profile.merchant_key names ++ rev L →
  String.prefix "Merchant_" k = false → k ∉ "Division" :: rev L →
  Profile.keys (Profile.set_item k v p)
  = "Division" :: map Profile.merchant_key names ++ rev (k :: L).
Proof. intros. cbn [rev]. by apply keys_set_fixed. Qed.

Lemma get_expenditures_set label key d p p' :
  Profile.get_expenditures label key d p = Ok p' → ∃ v, p' = Profile.set_item key v p.
Proof.
  unfold Profile.get_expenditures.
  destruct (Frame.column label d); [|done]. cbn.
  destruct (Frame.column "Transaction Amt." d); [|done]. cbn.
  destruct (rmap Profile.number _); [|done]. cbn.
  intros [= <-]. by eexists.
Qed.

Lemma get_dist_set label total sk ku d p p' :
  Profile.get_dist label total sk ku d p = Ok p' →
  ∃ s, Profile.summary_df label d = Ok s
       ∧ p' = Profile.set_item ku (Frame.Stat Frame.kurtosis
                                     (Profile.freq_list (map Profile.Count s)))
                (Profile.set_item sk (Frame.Stat Frame.skew
                                        (Profile.freq_list (map Profile.Count s)))
                   (Profile.set_item total (Frame.Int (Z.of_nat (length s))) p)).
Proof.
  unfold Profile.get_dist.
  destruct (Profile.summary_df label d) as [s|]; [|done]. cbn.
  intros [= <-]. by exists s.
Qed.

Lemma get_currencies_dist_set d p p' :
  Profile.get_currencies_dist d p = Ok p' →
  ∃ v, p' = Profile.set_item "Total Currencies" v p.
Proof.
  unfold Profile.get_currencies_dist.
  destruct (Frame.column "Original Currency" d); [|done]. cbn.
  destruct (Frame.column "Batch-Transaction ID" d); [|done]. cbn.
  intros [= <-]. by eexists.
Qed.

Lemma get_merchant_dist_set repr numeric_row merchants d p p' :
  Profile.get_merchant_dist repr numeric_row merchants d p = Ok p' →
  ∃ s,
    Profile.summary_df "Merchant Type" d = Ok s
    ∧ p' = foldl (assign_fraction (row_text repr numeric_row merchants d)
                    (counts_total s))
             (Profile.set_item "Count by Merchant Kurtosis"
                (Frame.Stat Frame.kurtosis (Profile.freq_list (map Profile.Count s)))
                (Profile.set_item "Count by Merchant Skew"
                   (Frame.Stat Frame.skew (Profile.freq_list (map Profile.Count s)))
                   (Profile.set_item "Total Merchants"
                      (Frame.Int (Z.of_nat (length s))) p))) s.
Proof.
  unfold Profile.get_merchant_dist.
  destruct (Profile.get_dist _ _ _ _ d p) as [pf|] eqn:Hpf; [|done]. cbn.
  apply get_dist_set in Hpf as (s & Hs & ->). rewrite Hs. cbn.
  intros [= <-]. by exists s.
Qed.

(** [__init__], assignment by assignment. *)
Lemma init_steps repr numeric_row d division_name merchants profile :
  Profile.init repr numeric_row d division_name merchants = Ok profile →
  ∃ amounts v3 v4 s5 s6 v7 s,
    (∃ cells, Frame.column "Transaction Amt." d = Ok cells
              ∧ rmap Profile.number cells = Ok amounts)
    ∧ Profile.summary_df "Cost Centre / WBS Element" d = Ok s5
    ∧ Profile.summary_df "G/L Account" d = Ok s6
    ∧ Profile.summary_df "Merchant Type" d = Ok s
    ∧ let stat f (x : list Profile.summary) :=
        Frame.Stat f (Profile.freq_list (map Profile.Count x)) in
      let total (x : list Profile.summary) := Frame.Int (Z.of_nat (length x)) in
      profile
      = foldl (assign_fraction (row_text repr numeric_row merchants d)
                 (counts_total s))
          (Profile.set_item "Count by Merchant Kurtosis" (stat Frame.kurtosis s)
          (Profile.set_item "Count by Merchant Skew" (stat Frame.skew s)
          (Profile.set_item "Total Merchants" (total s)
          (Profile.set_item "Total Currencies" v7
          (Profile.set_item "Count by G/L Account Kurtosis" (stat Frame.kurtosis s6)
          (Profile.set_item "Count by G/L Account Skew" (stat Frame.skew s6)
          (Profile.set_item "Total G/L Accounts" (total s6)
          (Profile.set_item "Count by Cost Centre Kurtosis" (stat Frame.kurtosis s5)
          (Profile.set_item "Count by Cost Centre Skew" (stat Frame.skew s5)
          (Profile.set_item "Total Cost Centres" (total s5)
          (Profile.set_item "Average Quarterly Expenditure CV" v4
          (Profile.set_item "Average Monthly Expenditure CV" v3
          (Profile.set_item "Stdev of Expenditure" (Profile.np_std amounts)
          (Profile.set_item "Average Expenditure" (Profile.np_average amounts)
             (foldl (seed (Profile.str repr)) [("Division", division_name)]
                merchants))))))))))))))) s.
Proof.
  unfold Profile.init.
  change (foldl _ (Profile.set_item "Division" division_name []) merchants)
    with (foldl (seed (Profile.str repr)) [("Division", division_name)] merchants).
  set (p1 := foldl _ _ merchants).
  destruct (Frame.column "Transaction Amt." d) as [cells|] eqn:Hcells; [|done]. cbn.
  destruct (rmap Profile.number cells) as [amounts|] eqn:Hamounts; [|done]. cbn.
  destruct (Profile.get_expenditures "Year-Month" _ d _) as [p3|] eqn:H3; [|done]. cbn.
  destruct (Profile.get_expenditures "Quarter" _ d _) as [p4|] eqn:H4; [|done]. cbn.
  destruct (Profile.get_dist "Cost Centre / WBS Element" _ _ _ d _) as [p5|] eqn:H5;
    [|done]. cbn.
  destruct (Profile.get_dist "G/L Account" _ _ _ d _) as [p6|] eqn:H6; [|done]. cbn.
  destruct (Profile.get_currencies_dist d _) as [p7|] eqn:H7; [|done]. cbn.
  intros (s & Hs & ->)%get_merchant_dist_set.
  apply get_expenditures_set in H3 as (v3 & ->).
  apply get_expenditures_set in H4 as (v4 & ->).
  apply get_dist_set in H5 as (s5 & Hs5 & ->).
  apply get_dist_set in H6 as (s6 & Hs6 & ->).
  apply get_currencies_dist_set in H7 as (v7 & ->).
  exists amounts, v3, v4, s5, s6, v7, s.
  split; [by exists cells|]. by repeat split.
Qed.

(** The keys of a profile, when the merchant types are handed out as
    they are, no two of them are printed as the same text, and those of
    the rows are among those of the constructor. *)
Lemma init_keys repr numeric_row d division_name merchants profile :
  Profile.init repr numeric_row d division_name merchants = Ok profile →
  forallb Profile.is_number merchants = false →
  NoDup (map (Profile.str repr) merchants) →
  (∀ s r, Profile.summary_df "Merchant Type" d = Ok s → r ∈ s →
          Profile.group r ∈ merchants) →
  Profile.keys profile = profile_keys (map (Profile.str repr) merchants).
Proof.
  intros (amounts & v3 & v4 & s5 & s6 & v7 & s & _ & _ & _ & Hs & ->)%init_steps
         Hobject Hnd Hgroups.
  cbv zeta.
  set (p1 := foldl (seed (Profile.str repr)) _ merchants).
  set (names := map (Profile.str repr) merchants).
  assert (Profile.keys p1 = "Division" :: map Profile.merchant_key names ++ []) as H1.
  { rewrite app_nil_r. unfold p1. rewrite seed_fold_keys; [|done|].
    - unfold names. by rewrite map_map.
    - intros c _ Hm%list_elem_of_singleton.
      pose proof (merchant_key_prefix (Profile.str repr c)) as Hpre.
      by rewrite Hm in Hpre. }
  rewrite fraction_fold_keys.
  - let L := eval vm_compute in (rev statistics_keys) in
    change (profile_keys names)
      with ("Division" :: map Profile.merchant_key names ++ rev L).
    repeat (apply keys_set_rev;
            [ | reflexivity | apply (bool_decide_unpack _); by vm_compute ]).
    exact H1.
  - intros r Hr.
    assert (Profile.merchant_key
              (row_text repr numeric_row merchants d (Profile.group r))
            ∈ Profile.keys p1) as Hin.
    { rewrite row_text_object by done.
      rewrite H1, app_nil_r. apply list_elem_of_further.
      unfold names. rewrite map_map.
      apply (list_elem_of_fmap_2 (λ c, Profile.merchant_key (Profile.str repr c))).
      by eapply Hgroups. }
    repeat apply keys_set_item_mono. exact Hin.
Qed.

Lemma value_counts_NoDup col : NoDup (Profile.value_counts col).
Proof.
  unfold Profile.value_counts.
  set (groups := map _ (remove_dups _)).
  assert (map Profile.group (Profile.sort_desc groups) ≡ₚ map Profile.group groups) as ->
    by (by rewrite (sort_desc_perm groups)).
  unfold groups. rewrite map_map. cbn. rewrite map_id. apply NoDup_remove_dups.
Qed.

Lemma value_counts_present c col :
  c ∈ Profile.value_counts col → c ∈ col ∧ Frame.isna c = false.
Proof.
  unfold Profile.value_counts.
  set (groups := map _ (remove_dups _)).
  assert (map Profile.group (Profile.sort_desc groups) ≡ₚ map Profile.group groups) as ->
    by (by rewrite (sort_desc_perm groups)).
  unfold groups. rewrite map_map. cbn. rewrite map_id.
  rewrite elem_of_remove_dups, list_elem_of_In, filter_In, <- list_elem_of_In.
  intros [? ?%negb_true_iff]. done.
Qed.

Lemma NoDup_profile_keys names : NoDup names → NoDup (profile_keys names).
Proof.
  intros Hnd. unfold profile_keys. apply list.NoDup_cons. split.
  - intros [Hin|Hin]%elem_of_app.
    + apply list_elem_of_fmap in Hin as (m & Hm & _).
      pose proof (merchant_key_prefix m) as Hp. by rewrite <- Hm in Hp.
    + revert Hin. apply (bool_decide_unpack _). by vm_compute.
  - apply list.NoDup_app. split; [|split].
    + apply (@NoDup_fmap_2 _ _ Profile.merchant_key merchant_key_inj). exact Hnd.
    + intros k (m & -> & _)%list_elem_of_fmap Hin.
      assert (String.prefix "Merchant_" (Profile.merchant_key m) = false) as Hp.
      { revert Hin. generalize (Profile.merchant_key m). intros k Hk.
        unfold statistics_keys, later_keys in Hk. cbn [app] in Hk.
        each_label Hk; reflexivity. }
      by rewrite merchant_key_prefix in Hp.
    + apply (bool_decide_unpack _). by vm_compute.
Qed.

Lemma seed_fold_division text ms : ∀ p v,
  Profile.get_item "Division" p = Some v →
  Profile.get_item "Division" (foldl (seed text) p ms) = Some v.
Proof.
  induction ms as [|c ms IH]; intros p v Hp; [done|]. cbn [foldl].
  apply IH. unfold seed. rewrite get_set_ne; [done|].
  intros Hk. pose proof (merchant_key_prefix (text c)) as Hpre. by rewrite <- Hk in Hpre.
Qed.

(** The division of a profile stays under its key. *)
Lemma init_division repr numeric_row d division_name merchants profile :
  Profile.init repr numeric_row d division_name merchants = Ok profile →
  Profile.get_item "Division" profile = Some division_name.
Proof.
  intros (pf & s & cells & amounts & _ & _ & Hpf & _ & ->)%init_inv.
  rewrite (assign_fraction_get _ _ _ "Division" _ eq_refl).
  rewrite (updated_get _ _ _ _ Hpf)
    by (apply (bool_decide_unpack _); by vm_compute).
  rewrite !get_set_ne by done.
  by apply seed_fold_division.
Qed.

(** The merchant types of the rows of a division are merchant types of
    the table. *)
Lemma division_groups d merchant_col division j s r :
  Frame.column "Merchant Type" d = Ok merchant_col →
  Profile.summary_df "Merchant Type"
    (Frame.where_ (λ r, bool_decide (Frame.at_ j r = division)) d) = Ok s →
  r ∈ s →
  Profile.group r ∈ Profile.value_counts merchant_col.
Proof.
  intros Hcol Hs Hr.
  apply summary_df_spec in Hs as (key & batch & Hkey & _ & _ & _ & _ & _ & Hgroups).
  change (Frame.loc "Merchant Type" d = Ok key) in Hkey.
  destruct (Hgroups r Hr) as [Hna Hg]. cbn [Frame.where_ Frame.rows] in Hg.
  by eapply division_merchants.
Qed.

(** The keys of the profile of a division. *)
Lemma division_profile_keys repr numeric_row d merchant_col division profile :
  Frame.column "Merchant Type" d = Ok merchant_col →
  forallb Profile.is_number (Profile.value_counts merchant_col) = false →
  NoDup (map (Profile.str repr) (Profile.value_counts merchant_col)) →
  Profile.division_profile repr numeric_row d (Profile.value_counts merchant_col)
    division = Ok profile →
  Profile.keys profile
  = profile_keys (map (Profile.str repr) (Profile.value_counts merchant_col))
  ∧ Profile.get_item "Division" profile = Some division.
Proof.
  intros Hcol Hobject Htexts. unfold Profile.division_profile, Profile.division_df.
  destruct (Profile.output_folder division); [|done]. cbn [mbind result_bind].
  destruct (Frame.loc "Division" d) as [j|] eqn:Hj; [|done]. cbn [mbind result_bind].
  intros Hinit. split; [|by eapply init_division].
  eapply init_keys; [exact Hinit|done|done|].
  intros s r Hs Hr. by eapply division_groups.
Qed.

(** X17. Every profile has the same keys in the same order, whatever
    the division, when one at least of the merchant types of the table
    is not a number and no two of them are printed as the same text:
    [Division], then one key [Merchant_<type>_count] for each merchant
    type of the whole table, in the order of their frequency, then the
    fourteen statistics in the order in which [__init__] assigns them.
    No key occurs twice, and [Division] holds the name of the division.
    The seeding of the merchant keys with 0 is what makes the keys the
    same for a division that has no transaction of some merchant
    type. *)
Theorem profile_same_keys repr numeric_row d merchant_col division profile :
  Frame.column "Merchant Type" d = Ok merchant_col →
  forallb Profile.is_number (Profile.value_counts merchant_col) = false →
  NoDup (map (Profile.str repr) (Profile.value_counts merchant_col)) →
  Profile.division_profile repr numeric_row d (Profile.value_counts merchant_col)
    division = Ok profile →
  Profile.keys profile
  = "Division"
    :: map (λ c, Profile.merchant_key (Profile.str repr c))
         (Profile.value_counts merchant_col)
    ++ statistics_keys
  ∧ NoDup (Profile.keys profile)
  ∧ Profile.get_item "Division" profile = Some division.
Proof.
  intros Hcol Hobject Htexts Hrun.
  destruct (division_profile_keys _ _ _ _ _ _ Hcol Hobject Htexts Hrun) as [Hkeys Hdiv].
  split; [|split; [|done]].
  - rewrite Hkeys. unfold profile_keys. by rewrite map_map.
  - rewrite Hkeys. by apply NoDup_profile_keys.
Qed.

(** The division Fire of the coded table with one more purchase, at
    the merchant type [Food]: an integer and a text among the merchant
    types. *)
Definition mixed_reports : list (string * Frame.DataFrame) :=
  [ ("PCardExpenses_201103.xls",
     Frame.Build Dataset.canonical
       [ coded_purchase "fire" (Frame.Int 5943) 10 (Frame.Str "B-006");
         coded_purchase "fire" (Frame.Str "Food") 30 (Frame.Str "B-007");
         coded_purchase "parks" (Frame.Int 5943) 50 (Frame.Str "B-008") ]) ].

Definition mixed_unified : Frame.DataFrame :=
  match (Merger.main zero_codes mixed_reports []).2 with
  | Ok d => d
  | Raise _ => Frame.empty
  end.

Lemma profile_same_keys_witness :
  ∃ profile,
    Profile.division_profile sample_repr sample_row mixed_unified
      (Profile.value_counts [Frame.Int 5943; Frame.Str "Food"; Frame.Int 5943])
      (Frame.Str "Parks") = Ok profile
    ∧ Profile.keys profile
      = "Division" :: "Merchant_5943_count" :: "Merchant_Food_count" :: statistics_keys.
Proof.
  assert (Frame.column "Merchant Type" mixed_unified
          = Ok [Frame.Int 5943; Frame.Str "Food"; Frame.Int 5943]) as Hcol
    by (vm_compute; reflexivity).
  set (merchants := Profile.value_counts _).
  assert (forallb Profile.is_number merchants = false) as Hobject
    by (vm_compute; reflexivity).
  assert (NoDup (map (Profile.str sample_repr) merchants)) as Htexts
    by (apply (bool_decide_unpack _); by vm_compute).
  destruct (Profile.division_profile sample_repr sample_row mixed_unified merchants
              (Frame.Str "Parks")) as [profile|e] eqn:Hrun;
    [|vm_compute in Hrun; discriminate Hrun].
  exists profile. split; [reflexivity|].
  destruct (profile_same_keys sample_repr sample_row _ _ _ _ Hcol Hobject Htexts Hrun)
    as (Hkeys & _ & _).
  rewrite Hkeys. vm_compute. reflexivity.
Defined.
(** ** The frame of the profiles *)

Lemma get_item_keys (p : Profile.dict) :
  NoDup (Profile.keys p) →
  map (λ k, default Frame.NaN (Profile.get_item k p)) (Profile.keys p) = map snd p.
Proof.
  unfold Profile.keys. induction p as [|[k v] p IH]; [done|]. cbn [map fst snd].
  intros [Hk Hnd]%list.NoDup_cons. cbn [Profile.get_item].
  rewrite bool_decide_eq_true_2 by done. cbn. f_equal.
  rewrite <- (IH Hnd). apply map_ext_in. intros k' Hk'%list_elem_of_In.
  rewrite bool_decide_eq_false_2; [done|]. by intros ->.
Qed.

(** Records that all have the keys [K] make a frame with the labels
    [K] and their values as rows. *)
Lemma from_records_same K (records : list Profile.dict) :
  NoDup K → records ≠ [] → Forall (λ p, Profile.keys p = K) records →
  Profile.from_records records = Frame.Build K (map (map snd) records).
Proof.
  intros Hnd Hne Hall. unfold Profile.from_records.
  assert (∀ rs, Forall (λ p, Profile.keys p = K) rs →
                foldl (λ acc (d : Profile.dict),
                         acc ++ List.filter (λ k, bool_decide (k ∉ acc)) (Profile.keys d))
                      K rs = K) as Hfold.
  { induction 1 as [|p rs Hp _ IH]; [done|]. cbn [foldl]. rewrite Hp.
    rewrite filter_none, app_nil_r; [done|].
    intros k Hk. by apply bool_decide_eq_false_2; intros ?. }
  destruct Hall as [|p rs Hp Hall]; [done|]. cbn [foldl app].
  rewrite Hp, filter_all.
  - rewrite (Hfold rs Hall). f_equal.
    apply map_ext_Forall. apply list.Forall_forall. intros q Hq.
    assert (Profile.keys q = K) as <-.
    { apply elem_of_cons in Hq as [->|Hq]; [done|].
      by eapply (proj1 (list.Forall_forall _ _) Hall). }
    apply get_item_keys. exact Hnd.
  - intros k _. apply bool_decide_eq_true_2, not_elem_of_nil.
Qed.

(** The script of [profiles.py], taken apart. *)
Lemma main_profiles repr numeric_row d profiles_df :
  Profile.main repr numeric_row d = Ok profiles_df →
  ∃ division_col merchant_col profiles,
    Frame.column "Division" d = Ok division_col
    ∧ Frame.column "Merchant Type" d = Ok merchant_col
    ∧ Forall2 (λ division profile,
                 Profile.division_profile repr numeric_row d
                   (Profile.value_counts merchant_col) division
                 = Ok profile)
        (Profile.value_counts division_col) profiles
    ∧ profiles_df = Profile.from_records profiles.
Proof.
  unfold Profile.main.
  destruct (Frame.column "Division" d) as [division_col|]; [|done]. cbn.
  destruct (Frame.column "Merchant Type" d) as [merchant_col|]; [|done]. cbn.
  destruct (rmap _ _) as [profiles|] eqn:Hps; [|done]. cbn. intros [= <-].
  exists division_col, merchant_col, profiles. repeat split.
  by apply rmap_inv.
Qed.

(** The frame of the profiles of a table with at least one division. *)
Lemma main_frame repr numeric_row d merchant_col profiles_df :
  Profile.main repr numeric_row d = Ok profiles_df → Frame.rows profiles_df ≠ [] →
  Frame.column "Merchant Type" d = Ok merchant_col →
  forallb Profile.is_number (Profile.value_counts merchant_col) = false →
  NoDup (map (Profile.str repr) (Profile.value_counts merchant_col)) →
  ∃ division_col,
    Frame.column "Division" d = Ok division_col
    ∧ Frame.columns profiles_df
      = profile_keys (map (Profile.str repr) (Profile.value_counts merchant_col))
    ∧ Forall2 (λ division row,
                 ∃ profile,
                   Profile.division_profile repr numeric_row d
                     (Profile.value_counts merchant_col) division = Ok profile
                   ∧ row = map snd profile)
        (Profile.value_counts division_col) (Frame.rows profiles_df).
Proof.
  intros (division_col & merchant_col' & profiles & Hdiv & Hcol' & Hps & ->)%main_profiles
         Hrows Hcol Hobject Htexts.
  rewrite Hcol in Hcol'. injection Hcol' as <-.
  assert (profiles ≠ []) as Hne by (by intros ->).
  exists division_col. split; [done|].
  set (names := map (Profile.str repr) (Profile.value_counts merchant_col)).
  assert (NoDup names) as Hnd by done.
  assert (Forall (λ p, Profile.keys p = profile_keys names) profiles) as Hkeys.
  { clear -Hps Hcol Hobject Htexts.
    induction Hps as [|dv p dvs ps Hp _ IH]; constructor; [|done].
    by destruct (division_profile_keys _ _ _ _ _ _ Hcol Hobject Htexts Hp). }
  rewrite (from_records_same (profile_keys names) profiles
             (NoDup_profile_keys _ Hnd) Hne Hkeys).
  split; [done|]. cbn [Frame.rows]. apply Forall2_fmap_r.
  eapply list.Forall2_impl; [exact Hps|]. intros dv p Hp. by exists p.
Qed.

(** X18. On a unified table with at least one division, of which one
    merchant type at least is not a number and no two merchant types
    are printed as the same text, the frame of the profiles has one
    row for each division, the most frequent division first, and its
    columns are the keys that all the profiles share: [Division], the
    merchant keys, the fourteen statistics. Each row holds the values
    of the profile of its division in that order, so that no cell is
    missing for want of a key. *)
Theorem profiles_frame repr numeric_row d merchant_col profiles_df :
  Profile.main repr numeric_row d = Ok profiles_df → Frame.rows profiles_df ≠ [] →
  Frame.column "Merchant Type" d = Ok merchant_col →
  forallb Profile.is_number (Profile.value_counts merchant_col) = false →
  NoDup (map (Profile.str repr) (Profile.value_counts merchant_col)) →
  ∃ division_col,
    Frame.column "Division" d = Ok division_col
    ∧ Frame.columns profiles_df
      = "Division"
        :: map (λ c, Profile.merchant_key (Profile.str repr c))
             (Profile.value_counts merchant_col)
        ++ statistics_keys
    ∧ NoDup (Frame.columns profiles_df)
    ∧ Forall2 (λ division row,
                 ∃ profile,
                   Profile.division_profile repr numeric_row d
                     (Profile.value_counts merchant_col) division = Ok profile
                   ∧ row = map snd profile
                   ∧ under (Frame.columns profiles_df) "Division" row = division)
        (Profile.value_counts division_col) (Frame.rows profiles_df).
Proof.
  intros Hmain Hrows Hcol Hobject Htexts.
  destruct (main_frame _ _ _ _ _ Hmain Hrows Hcol Hobject Htexts)
    as (division_col & Hdiv & Hcols & HR).
  exists division_col. split; [done|].
  split; [rewrite Hcols; unfold profile_keys; by rewrite map_map|].
  split; [rewrite Hcols; by apply NoDup_profile_keys|].
  eapply list.Forall2_impl; [exact HR|].
  intros division row (profile & Hp & ->). exists profile. do 2 (split; [done|]).
  destruct (division_profile_keys _ _ _ _ _ _ Hcol Hobject Htexts Hp) as [Hkeys Hget].
  rewrite Hcols. unfold under, profile_keys.
  rewrite positions_cons, bool_decide_eq_true_2 by done. cbn [app].
  destruct profile as [|[k v] profile]; [done|].
  unfold Profile.keys, profile_keys in Hkeys. cbn in Hkeys. injection Hkeys as -> _.
  cbn in Hget. by injection Hget as ->.
Qed.

Lemma profiles_frame_witness :
  ∃ profiles_df,
    Profile.main sample_repr sample_row mixed_unified = Ok profiles_df
    ∧ Frame.columns profiles_df
      = "Division" :: "Merchant_5943_count" :: "Merchant_Food_count" :: statistics_keys
    ∧ length (Frame.rows profiles_df) = 2.
Proof.
  assert (Frame.column "Merchant Type" mixed_unified
          = Ok [Frame.Int 5943; Frame.Str "Food"; Frame.Int 5943]) as Hcol
    by (vm_compute; reflexivity).
  set (merchants := Profile.value_counts [Frame.Int 5943; Frame.Str "Food"; Frame.Int 5943]).
  assert (forallb Profile.is_number merchants = false) as Hobject
    by (vm_compute; reflexivity).
  assert (NoDup (map (Profile.str sample_repr) merchants)) as Htexts
    by (apply (bool_decide_unpack _); by vm_compute).
  destruct (Profile.main sample_repr sample_row mixed_unified) as [profiles_df|e] eqn:Hmain;
    [|vm_compute in Hmain; discriminate Hmain].
  exists profiles_df. split; [reflexivity|].
  assert (Frame.rows profiles_df ≠ []) as Hrows.
  { vm_compute in Hmain. injection Hmain as <-. discriminate. }
  destruct (profiles_frame sample_repr sample_row _ _ _ Hmain Hrows Hcol Hobject Htexts)
    as (division_col & Hdiv & Hcols & _ & HR).
  split.
  - rewrite Hcols. vm_compute. reflexivity.
  - apply Forall2_length in HR. rewrite <- HR.
    clear HR. vm_compute in Hdiv. injection Hdiv as <-. vm_compute. reflexivity.
Defined.
(** ** The clustering script, further *)

Definition not_division (c : string) : bool := negb (bool_decide (c ∈ ["Division"])).

Lemma drop_division_columns d :
  Frame.columns (Frame.drop ["Division"] d)
  = List.filter not_division (Frame.columns d).
Proof.
  rewrite drop_take, take_columns by apply indices_lt. apply indices_labels.
Qed.

Lemma not_division_in c cols :
  c ∈ List.filter not_division cols ↔ c ∈ cols ∧ c ≠ "Division".
Proof.
  rewrite list_elem_of_In, filter_In, <- list_elem_of_In. unfold not_division.
  rewrite negb_true_iff, bool_decide_eq_false, list_elem_of_singleton. done.
Qed.

(** The merchant columns that the script selects are columns of the
    frame it selects them from. *)
Lemma test_cols_merchants cols :
  Forall (λ l, l ∈ cols) (List.filter (λ col, Py.contains "Merchant" col) cols).
Proof.
  apply list.Forall_forall. intros l [Hl _]%list_elem_of_In%filter_In.
  by apply list_elem_of_In.
Qed.

(** X19. The frame for the clustering algorithm can be built if and
    only if the frame of the profiles has the column [Division] and
    the four expenditure statistics. Without [Division] the script
    raises [KeyError] for it, before anything else; with it and
    without one of the four statistics, [KeyError] for a statistic
    that is not there. The merchant columns never fail: they are
    picked among the columns that are there. *)
Theorem cluster_data_outcome (profile_df : Frame.DataFrame) :
  let cols := Frame.columns profile_df in
  match Clustering.cluster_data profile_df with
  | Ok data => "Division" ∈ cols ∧ Forall (λ l, l ∈ cols) expenditure_features
  | Raise e =>
      (("Division" ∉ cols) ∧ e = KeyError "Division")
      ∨ ("Division" ∈ cols
         ∧ ∃ l, l ∈ expenditure_features ∧ (l ∉ cols) ∧ e = KeyError l)
  end.
Proof.
  intros cols. unfold Clustering.cluster_data. fold cols.
  case_bool_decide as Hdiv; [|by left].
  destruct (Frame.select _ _) as [data|e] eqn:Hsel.
  - split; [done|].
    apply select_columns in Hsel as (Hpos & _ & _).
    unfold Clustering.test_cols in Hpos. apply Forall_app in Hpos as [Hpos _].
    eapply list.Forall_impl; [exact Hpos|]. intros l Hl. cbn beta in Hl.
    rewrite drop_division_columns in Hl. fold cols in Hl.
    destruct (Frame.positions l (List.filter not_division cols)) as [|j js] eqn:Hj;
      [cbn in Hl; lia|].
    assert (j ∈ Frame.positions l (List.filter not_division cols)) as Hin
      by (rewrite Hj; apply list_elem_of_here).
    apply elem_of_positions, list_elem_of_lookup_2, not_division_in in Hin. tauto.
  - right. split; [done|].
    apply select_missing in Hsel as (l & -> & Hl & Hnin).
    rewrite drop_division_columns in Hl, Hnin. fold cols in Hl, Hnin.
    exists l. unfold Clustering.test_cols in Hl.
    apply elem_of_app in Hl as [Hl|Hl].
    + split; [done|]. split; [|done]. intros Hin. apply Hnin, not_division_in.
      split; [done|].
      by destruct (proj1 (list.Forall_forall _ _) expenditure_features_plain l Hl).
    + destruct Hnin. by eapply (proj1 (list.Forall_forall _ _) (test_cols_merchants _)).
Qed.

Lemma select_NoDup labels d :
  NoDup (Frame.columns d) → Forall (λ l, l ∈ Frame.columns d) labels →
  ∃ data, Frame.select labels d = Ok data
          ∧ Frame.columns data = labels
          ∧ length (Frame.rows data) = length (Frame.rows d).
Proof.
  intros Hnd Hin. rewrite (select_present _ _ Hin). eexists. split; [done|]. split.
  - rewrite take_columns.
    + induction Hin as [|l labels Hl _ IH]; [done|]. cbn [map concat].
      rewrite map_app, IH. apply list_elem_of_lookup_1 in Hl as [j Hj].
      rewrite (positions_unique _ _ _ Hnd Hj). cbn.
      by rewrite (list_lookup_total_correct _ _ _ Hj).
    + apply Forall_concat, Forall_fmap, list.Forall_forall. intros l _.
      apply positions_lt.
  - unfold Frame.take. cbn. by rewrite length_map.
Qed.

Lemma contains_merchant_key m : Py.contains "Merchant" (Profile.merchant_key m) = true.
Proof.
  exact (contains_app "Merchant" EmptyString ("_" +:+ m +:+ "_count")).
Qed.

(** X20. The two scripts fit together. On the frame of the profiles
    that [profiles.py] makes of a table with at least one division, of
    which one merchant type at least is not a number and no two
    merchant types are printed as the same text, the clustering script
    builds its frame without error: one row for each division, and as
    columns the four expenditure statistics, the column
    [Merchant_<type>_count] of every merchant type of the table, and
    the three merchant statistics whose names carry [Merchant]. *)
Theorem profiles_cluster_data repr numeric_row d merchant_col profiles_df :
  Profile.main repr numeric_row d = Ok profiles_df → Frame.rows profiles_df ≠ [] →
  Frame.column "Merchant Type" d = Ok merchant_col →
  forallb Profile.is_number (Profile.value_counts merchant_col) = false →
  NoDup (map (Profile.str repr) (Profile.value_counts merchant_col)) →
  ∃ data,
    Clustering.cluster_data profiles_df = Ok data
    ∧ Frame.columns data
      = expenditure_features
        ++ map (λ c, Profile.merchant_key (Profile.str repr c))
             (Profile.value_counts merchant_col)
        ++ [ "Total Merchants"; "Count by Merchant Skew";
             "Count by Merchant Kurtosis" ]
    ∧ length (Frame.rows data) = length (Frame.rows profiles_df).
Proof.
  intros Hmain Hrows Hcol Hobject Htexts.
  destruct (main_frame _ _ _ _ _ Hmain Hrows Hcol Hobject Htexts)
    as (division_col & _ & Hcols & _).
  rewrite <- (map_map (Profile.str repr) Profile.merchant_key).
  set (names := map (Profile.str repr) (Profile.value_counts merchant_col)) in *.
  assert (NoDup names) as Hnd by done.
  unfold Clustering.cluster_data.
  rewrite bool_decide_eq_true_2 by (rewrite Hcols; apply list_elem_of_here).
  assert (Frame.columns (Frame.drop ["Division"] profiles_df)
          = map Profile.merchant_key names ++ statistics_keys) as Hrest.
  { rewrite drop_division_columns, Hcols. unfold profile_keys. cbn [List.filter].
    change (not_division "Division") with false. cbn match.
    apply filter_all. intros c Hc. unfold not_division.
    apply negb_true_iff, bool_decide_eq_false_2. intros ->%list_elem_of_singleton.
    pose proof (NoDup_profile_keys _ Hnd) as [Hfresh _]%list.NoDup_cons. done. }
  assert (Clustering.test_cols (Frame.columns (Frame.drop ["Division"] profiles_df))
          = expenditure_features ++ map Profile.merchant_key names
            ++ [ "Total Merchants"; "Count by Merchant Skew";
                 "Count by Merchant Kurtosis" ]) as Hlabels.
  { unfold Clustering.test_cols. rewrite Hrest. f_equal.
    rewrite List.filter_app. f_equal.
    apply filter_all. intros c (m & -> & _)%list_elem_of_fmap.
    apply contains_merchant_key. }
  rewrite Hlabels.
  destruct (select_NoDup
              (expenditure_features ++ map Profile.merchant_key names
               ++ [ "Total Merchants"; "Count by Merchant Skew";
                    "Count by Merchant Kurtosis" ])
              (Frame.drop ["Division"] profiles_df))
    as (data & Hsel & Hdata & Hlen).
  - rewrite Hrest. pose proof (NoDup_profile_keys _ Hnd) as [_ H]%list.NoDup_cons. done.
  - rewrite Hrest. apply Forall_app. split; [|apply Forall_app; split].
    + apply list.Forall_forall. intros l Hl. apply elem_of_app. right.
      revert Hl. unfold expenditure_features. intros Hl.
      each_label Hl; apply (bool_decide_unpack _); by vm_compute.
    + apply list.Forall_forall. intros l Hl. apply elem_of_app. by left.
    + apply list.Forall_forall. intros l Hl. apply elem_of_app. right.
      each_label Hl; apply (bool_decide_unpack _); by vm_compute.
  - exists data. split; [done|]. split; [done|].
    rewrite Hlen. rewrite drop_take. unfold Frame.take. cbn. by rewrite length_map.
Qed.

Lemma profiles_cluster_data_witness :
  ∃ profiles_df data,
    Profile.main sample_repr sample_row mixed_unified = Ok profiles_df
    ∧ Clustering.cluster_data profiles_df = Ok data
    ∧ length (Frame.rows data) = 2.
Proof.
  assert (Frame.column "Merchant Type" mixed_unified
          = Ok [Frame.Int 5943; Frame.Str "Food"; Frame.Int 5943]) as Hcol
    by (vm_compute; reflexivity).
  set (merchants := Profile.value_counts [Frame.Int 5943; Frame.Str "Food"; Frame.Int 5943]).
  assert (forallb Profile.is_number merchants = false) as Hobject
    by (vm_compute; reflexivity).
  assert (NoDup (map (Profile.str sample_repr) merchants)) as Htexts
    by (apply (bool_decide_unpack _); by vm_compute).
  destruct (Profile.main sample_repr sample_row mixed_unified) as [profiles_df|e] eqn:Hmain;
    [|vm_compute in Hmain; discriminate Hmain].
  assert (Frame.rows profiles_df ≠ []) as Hrows.
  { vm_compute in Hmain. injection Hmain as <-. discriminate. }
  destruct (profiles_cluster_data sample_repr sample_row _ _ _
              Hmain Hrows Hcol Hobject Htexts) as (data & Hrun & _ & Hlen).
  exists profiles_df, data. split; [reflexivity|]. split; [exact Hrun|].
  rewrite Hlen. vm_compute in Hmain. injection Hmain as <-. reflexivity.
Defined.
(** ** The merchant statistics of a profile *)

Lemma values_of_keys (P : string → bool) (p : Profile.dict) :
  NoDup (Profile.keys p) →
  map snd (List.filter (λ kv, P kv.1) p)
  = map (λ k, default Frame.NaN (Profile.get_item k p)) (List.filter P (Profile.keys p)).
Proof.
  unfold Profile.keys. induction p as [|[k v] p IH]; [done|]. cbn [map fst snd].
  intros [Hk Hnd]%list.NoDup_cons. cbn [List.filter fst].
  assert (map (λ k0, default Frame.NaN (Profile.get_item k0 ((k, v) :: p)))
              (List.filter P (map fst p))
          = map (λ k0, default Frame.NaN (Profile.get_item k0 p))
                (List.filter P (map fst p))) as Htail.
  { apply map_ext_in. intros k' [Hk' _]%filter_In. cbn [Profile.get_item].
    rewrite bool_decide_eq_false_2; [done|]. intros ->. by apply Hk, list_elem_of_In. }
  destruct (P k); cbn [map snd]; rewrite ?Htail, <- (IH Hnd); [|done].
  cbn [Profile.get_item]. by rewrite bool_decide_eq_true_2.
Qed.

Lemma filter_merchant_keys names :
  List.filter is_merchant_count (profile_keys names) = map Profile.merchant_key names.
Proof.
  unfold profile_keys. cbn [List.filter].
  change (is_merchant_count "Division") with false. cbn match.
  rewrite List.filter_app.
  change (List.filter is_merchant_count statistics_keys) with (@nil string).
  rewrite app_nil_r. apply filter_all.
  intros k (m & -> & _)%list_elem_of_fmap. apply is_merchant_count_key.
Qed.

(** The values under the merchant keys, one for each merchant type. *)
Lemma merchant_counts_names (p : Profile.dict) names :
  Profile.keys p = profile_keys names → NoDup names →
  merchant_counts p
  = map (λ m, default Frame.NaN (Profile.get_item (Profile.merchant_key m) p)) names.
Proof.
  intros Hkeys Hnd. unfold merchant_counts.
  rewrite (values_of_keys is_merchant_count p)
    by (rewrite Hkeys; by apply NoDup_profile_keys).
  by rewrite Hkeys, filter_merchant_keys, map_map.
Qed.

(** The value under the key of a merchant type of the table, as
    [__get_merchant_dist] leaves it. *)
Lemma merchant_value repr numeric_row d merchant_col division j profile s key batch c :
  Frame.column "Merchant Type" d = Ok merchant_col →
  forallb Profile.is_number (Profile.value_counts merchant_col) = false →
  NoDup (map (Profile.str repr) (Profile.value_counts merchant_col)) →
  Profile.init repr numeric_row
    (Frame.where_ (λ r, bool_decide (Frame.at_ j r = division)) d)
    division (Profile.value_counts merchant_col) = Ok profile →
  Profile.summary_df "Merchant Type"
    (Frame.where_ (λ r, bool_decide (Frame.at_ j r = division)) d) = Ok s →
  Frame.loc "Merchant Type" d = Ok key →
  Frame.loc "Batch-Transaction ID" d = Ok batch →
  c ∈ Profile.value_counts merchant_col →
  let rs := List.filter (λ r, bool_decide (Frame.at_ j r = division)) (Frame.rows d) in
  Profile.get_item (Profile.merchant_key (Profile.str repr c)) profile
  = Some (if 0 <? purchases c key batch rs
          then Frame.Float (Profile.of_nat (purchases c key batch rs)
                            / Profile.of_nat (counted key batch rs))%Qc
          else Frame.Int 0).
Proof.
  intros Hcol Hobject Htexts
         (pf & s' & cells & amounts & _ & _ & Hpf & Hs & ->)%init_inv
         Hs' Hkey Hbatch Hc rs.
  pose proof (λ r Hr, division_groups _ _ _ _ _ r Hcol Hs Hr) as Hin.
  rewrite Hs in Hs'. injection Hs' as ->.
  apply summary_df_spec in Hs
    as (key' & batch' & Hkey' & Hbatch' & Hnd & Hcount & Hpresent & Htotal & _).
  change (Frame.loc "Merchant Type" d = Ok key') in Hkey'.
  change (Frame.loc "Batch-Transaction ID" d = Ok batch') in Hbatch'.
  rewrite Hkey in Hkey'. injection Hkey' as <-.
  rewrite Hbatch in Hbatch'. injection Hbatch' as <-.
  cbn [Frame.rows Frame.where_] in Hcount, Hpresent, Htotal. fold rs in Hcount, Hpresent, Htotal.
  set (merchants := Profile.value_counts merchant_col) in *.
  set (text := row_text repr numeric_row merchants _).
  assert (∀ v, text v = Profile.str repr v) as Htext.
  { intros v. by apply row_text_object. }
  assert (NoDup (map (λ r, text (Profile.group r)) s)) as Hnd'.
  { rewrite <- (map_map Profile.group text).
    apply NoDup_fmap_2_strong; [|done].
    intros x y [rx [-> Hx]]%list_elem_of_fmap [ry [-> Hy]]%list_elem_of_fmap.
    rewrite !Htext.
    apply (NoDup_map_inj _ _ _ _ Htexts); by apply Hin. }
  assert (Profile.get_item (Profile.merchant_key (Profile.str repr c)) pf
          = Some (Frame.Int 0)) as Hzero.
  { rewrite (updated_get _ _ _ _ Hpf).
    - rewrite !get_set_ne by (by apply merchant_key_other).
      by apply seed_fold_zero.
    - intros Hin'.
      pose proof (proj1 (list.Forall_forall _ _) later_keys_prefix _ Hin') as Hp.
      cbn beta in Hp. by rewrite merchant_key_prefix in Hp. }
  destruct (value_counts_present _ _ Hc) as [_ Hna].
  destruct (Nat.ltb_spec 0 (purchases c key batch rs)) as [Hpos|Hnone].
  - destruct (Hpresent c Hna Hpos) as (r & Hr & Hg).
    rewrite <- (Htext c), <- Hg.
    rewrite (fraction_fold_present _ _ _ _ r Hnd' Hr).
    destruct (Hcount r Hr) as [_ ->]. by rewrite Htotal.
  - rewrite fraction_fold_other; [done|].
    intros r Hr Heq%merchant_key_inj. rewrite Htext in Heq.
    apply (NoDup_map_inj _ _ _ _ Htexts) in Heq; [|by apply Hin|done].
    destruct (Hcount r Hr) as [Hpos Hcnt]. rewrite Heq in Hcnt. lia.
Qed.

Lemma Qcdiv_nonzero (a b : Qc) : a ≠ 0%Qc → b ≠ 0%Qc → (a / b)%Qc ≠ 0%Qc.
Proof.
  intros Ha Hb H. apply Ha.
  rewrite <- (Qcmult_div_r a b Hb), H. ring.
Qed.

(** The value of the fraction of a merchant type is not zero. *)
Lemma fraction_nonzero a b :
  0 < a → 0 < b → value (Frame.Float (Profile.of_nat a / Profile.of_nat b)%Qc) ≠ 0%Qc.
Proof. intros Ha Hb. cbn. apply Qcdiv_nonzero; by apply of_nat_pos. Qed.

Lemma counts_total_ge s r : r ∈ s → Profile.Count r ≤ counts_total s.
Proof.
  induction s as [|r0 s IH]; [by intros ?%elem_of_nil|].
  intros [->|Hr]%elem_of_cons; unfold counts_total in *; cbn [foldr]; [lia|].
  specialize (IH Hr). lia.
Qed.

Lemma length_filter_map {A B} (Q : B → bool) (P : A → bool) (f : A → B) l :
  (∀ a, a ∈ l → Q (f a) = P a) →
  length (List.filter Q (map f l)) = length (List.filter P l).
Proof.
  induction l as [|a l IH]; intros H; [done|]. cbn.
  rewrite H by apply list_elem_of_here.
  destruct (P a); cbn; rewrite IH; try done;
    intros b Hb; apply H; by apply list_elem_of_further.
Qed.

(** X21. [Total Merchants] counts the merchant types of the division,
    when one at least of the merchant types of the table is not a
    number and no two of them are printed as the same text: it is the
    number of the keys [Merchant_<type>_count] whose value is not
    zero, which are the merchant types with at least one counted
    transaction of the division. *)
Theorem total_merchants repr numeric_row d merchant_col division profile :
  Frame.column "Merchant Type" d = Ok merchant_col →
  forallb Profile.is_number (Profile.value_counts merchant_col) = false →
  NoDup (map (Profile.str repr) (Profile.value_counts merchant_col)) →
  Profile.division_profile repr numeric_row d (Profile.value_counts merchant_col)
    division = Ok profile →
  ∃ n,
    Profile.get_item "Total Merchants" profile = Some (Frame.Int (Z.of_nat n))
    ∧ n = length (List.filter (λ c, bool_decide (value c ≠ 0%Qc))
                    (merchant_counts profile)).
Proof.
  intros Hcol Hobject Htexts Hrun.
  destruct (division_profile_keys _ _ _ _ _ _ Hcol Hobject Htexts Hrun) as [Hkeys _].
  unfold Profile.division_profile, Profile.division_df in Hrun.
  destruct (Profile.output_folder division); [|done]. cbn [mbind result_bind] in Hrun.
  destruct (Frame.loc "Division" d) as [j|] eqn:Hj; [|done].
  cbn [mbind result_bind] in Hrun.
  pose proof Hrun
    as (amounts & v3 & v4 & s5 & s6 & v7 & s & _ & _ & _ & Hs & Hfold)%init_steps.
  cbv zeta in Hfold.
  exists (length s). split.
  { rewrite Hfold. rewrite (assign_fraction_get _ _ _ "Total Merchants" _ eq_refl).
    rewrite !get_set_ne by done. apply get_set_eq. }
  clear Hfold.
  pose proof Hs as Hspec.
  apply summary_df_spec in Hspec
    as (key & batch & Hkey & Hbatch & Hnd & Hcount & Hpresent & Htotal & _).
  change (Frame.loc "Merchant Type" d = Ok key) in Hkey.
  change (Frame.loc "Batch-Transaction ID" d = Ok batch) in Hbatch.
  cbn [Frame.rows Frame.where_] in Hcount, Hpresent, Htotal.
  set (merchants := Profile.value_counts merchant_col) in *.
  set (rs := List.filter _ (Frame.rows d)) in *.
  set (pos := λ c, 0 <? purchases c key batch rs).
  assert (length s = length (List.filter pos merchants)) as ->.
  { rewrite <- (length_map Profile.group s).
    apply Permutation_length, NoDup_Permutation; [done| |].
    - apply NoDup_list_filter, value_counts_NoDup.
    - intros x. split.
      + intros (r & -> & Hr)%list_elem_of_fmap.
        apply list_elem_of_In, filter_In. split.
        * apply list_elem_of_In. by eapply division_groups.
        * unfold pos. apply Nat.ltb_lt. destruct (Hcount r Hr) as [Hpos Heq].
          by rewrite <- Heq.
      + intros [Hx Hm]%list_elem_of_In%filter_In.
        apply list_elem_of_In, value_counts_present in Hx as [_ Hna].
        apply Nat.ltb_lt in Hm.
        destruct (Hpresent x Hna Hm) as (r & Hr & Hg).
        rewrite <- Hg. by apply list_elem_of_fmap_2. }
  rewrite (merchant_counts_names _ _ Hkeys Htexts), map_map. symmetry.
  apply length_filter_map. intros c Hc.
  rewrite (merchant_value repr numeric_row d merchant_col division j profile s key
             batch c Hcol Hobject Htexts Hrun Hs Hkey Hbatch Hc).
  cbv zeta. fold rs. fold (pos c). cbn [default]. unfold pos.
  destruct (value_counts_present _ _ Hc) as [_ Hna].
  destruct (Nat.ltb_spec 0 (purchases c key batch rs)) as [Hpos|Hnone].
  - apply bool_decide_eq_true_2. apply fraction_nonzero; [done|].
    destruct (Hpresent c Hna Hpos) as (r & Hr & Hg).
    destruct (Hcount r Hr) as [Hc' _]. pose proof (counts_total_ge s r Hr). lia.
  - apply bool_decide_eq_false_2. intros H. apply H. apply Z2Qc_inj_0.
Qed.

Lemma total_merchants_witness :
  ∃ profile,
    Profile.division_profile sample_repr sample_row mixed_unified
      (Profile.value_counts [Frame.Int 5943; Frame.Str "Food"; Frame.Int 5943])
      (Frame.Str "Fire") = Ok profile
    ∧ Profile.get_item "Total Merchants" profile = Some (Frame.Int 2).
Proof.
  assert (Frame.column "Merchant Type" mixed_unified
          = Ok [Frame.Int 5943; Frame.Str "Food"; Frame.Int 5943]) as Hcol
    by (vm_compute; reflexivity).
  set (merchants := Profile.value_counts _).
  assert (forallb Profile.is_number merchants = false) as Hobject
    by (vm_compute; reflexivity).
  assert (NoDup (map (Profile.str sample_repr) merchants)) as Htexts
    by (apply (bool_decide_unpack _); by vm_compute).
  destruct (Profile.division_profile sample_repr sample_row mixed_unified merchants
              (Frame.Str "Fire")) as [profile|e] eqn:Hrun;
    [|vm_compute in Hrun; discriminate Hrun].
  exists profile. split; [reflexivity|].
  destruct (total_merchants sample_repr sample_row _ _ _ _ Hcol Hobject Htexts Hrun)
    as (n & Hget & Hn).
  rewrite Hget. clear Hget. subst n.
  vm_compute in Hrun. injection Hrun as <-. reflexivity.
Defined.
(** ** The sample of ranks *)

Lemma of_nat_inj a b : Profile.of_nat a = Profile.of_nat b → a = b.
Proof. unfold Profile.of_nat. intros H%Z2Qc_inj. lia. Qed.

(** The number of times a rank occurs in a sample. *)
Definition occurrences (idx : nat) (sample : list Qc) : nat :=
  length (List.filter (λ q, bool_decide (q = Profile.of_nat idx)) sample).

(** [freq_list], with the ranks starting at [k]. *)
Definition ranks_from (k : nat) (counts : list nat) : list Qc :=
  concat (imap (λ idx count, replicate count (Profile.of_nat (k + idx))) counts).

Lemma ranks_from_cons k c counts :
  ranks_from k (c :: counts)
  = replicate c (Profile.of_nat k) ++ ranks_from (S k) counts.
Proof.
  unfold ranks_from. cbn [imap concat]. rewrite Nat.add_0_r. f_equal. f_equal.
  apply imap_ext. intros i x _. cbn. f_equal. f_equal. lia.
Qed.

Lemma occurrences_replicate idx c k :
  occurrences idx (replicate c (Profile.of_nat k)) = if bool_decide (k = idx) then c else 0.
Proof.
  unfold occurrences. destruct (decide (k = idx)) as [->|Hk].
  - rewrite bool_decide_eq_true_2 by done.
    induction c as [|c IH]; [done|]. cbn [replicate List.filter].
    rewrite bool_decide_eq_true_2 by done. cbn. by rewrite IH.
  - rewrite bool_decide_eq_false_2 by done.
    induction c as [|c IH]; [done|]. cbn [replicate List.filter].
    by rewrite bool_decide_eq_false_2 by (by intros ?%of_nat_inj).
Qed.

Lemma occurrences_app idx (a b : list Qc) :
  occurrences idx (a ++ b) = occurrences idx a + occurrences idx b.
Proof. unfold occurrences. by rewrite List.filter_app, length_app. Qed.

Lemma ranks_from_spec counts : ∀ k,
  length (ranks_from k counts) = foldr Nat.add 0 counts
  ∧ (∀ idx, occurrences (k + idx) (ranks_from k counts) = default 0 (counts !! idx))
  ∧ (∀ idx, idx < k → occurrences idx (ranks_from k counts) = 0)
  ∧ Forall (λ q, ∃ idx, idx < length counts ∧ q = Profile.of_nat (k + idx))
           (ranks_from k counts).
Proof.
  induction counts as [|c counts IH]; intros k.
  - repeat split; try done.
  - rewrite ranks_from_cons. destruct (IH (S k)) as (Hlen & Hocc & Hlow & Hall).
    split; [|split; [|split]].
    + rewrite length_app, length_replicate, Hlen. done.
    + intros idx. rewrite occurrences_app, occurrences_replicate.
      destruct idx as [|idx].
      * rewrite bool_decide_eq_true_2 by lia. cbn [lookup].
        rewrite Nat.add_0_r, Hlow by lia. cbn. lia.
      * rewrite bool_decide_eq_false_2 by lia. cbn.
        replace (k + S idx) with (S k + idx) by lia. apply Hocc.
    + intros idx Hidx. rewrite occurrences_app, occurrences_replicate.
      rewrite bool_decide_eq_false_2 by lia. cbn. apply Hlow. lia.
    + apply Forall_app. split.
      * apply Forall_replicate. exists 0. rewrite Nat.add_0_r. cbn. split; [lia|done].
      * eapply list.Forall_impl; [exact Hall|]. intros q (idx & Hidx & ->).
        exists (S idx). cbn. split; [lia|]. f_equal. lia.
Qed.

(** X22. The sample on which the skew and the kurtosis of a
    distribution are computed lists the ranks of the groups, the rank
    0 being that of the first group (the most frequent, after the
    sorting): the rank of a group occurs as many times as the group
    has transactions, no other number occurs, and the sample has as
    many entries as the groups have transactions together. *)
Theorem freq_list_ranks (counts : list nat) :
  length (Profile.freq_list counts) = foldr Nat.add 0 counts
  ∧ (∀ idx, occurrences idx (Profile.freq_list counts) = default 0 (counts !! idx))
  ∧ Forall (λ q, ∃ idx, idx < length counts ∧ q = Profile.of_nat idx)
           (Profile.freq_list counts).
Proof.
  destruct (ranks_from_spec counts 0) as (Hlen & Hocc & _ & Hall).
  assert (Profile.freq_list counts = ranks_from 0 counts) as -> by done.
  split; [done|]. split; [exact Hocc|exact Hall].
Qed.

